(** * capsdrone: the safety monitor ([src/safety_system.py])

    A shallow embedding of [SafetyMonitor] and of the parts of the Python
    runtime it calls, followed by the properties of the monitor that the
    specification states (C1 to C10) and by further properties read off
    the code (X1 to X26).

    - Python [float]s are IEEE binary64 values: [spec_float] with the
      operations of the Standard Library at precision 53 and [emax] 1024
      (round to nearest, ties to even; one NaN).  Python [int]s that meet
      floats (thresholds, the battery level, the literals [2], [1],
      [6371000]) are exactly representable and are carried as floats.
    - [math.sin], [math.cos], [math.sqrt], [math.atan2] and [**] are
      modelled as CPython wraps the C library: the wrappers are written
      out, the C functions [sin], [cos], [atan2], [pow] are the fields of
      [Py.Libm].
    - State is passed explicitly: a method is a function
      [World -> outcome A * World]; [World] holds the monitor object and
      what its methods write to (standard output, files) and read from
      (the clock).  A raised Python exception is the outcome [Raise].
    - The vehicle is the record of the attributes the monitor reads.  They
      are fixed during one call; between two passes of the monitoring loop
      the environment may replace them. *)

From Stdlib Require Import Floats.PrimFloat Floats.SpecFloat Floats.FloatOps.
From Stdlib Require Import ZArith List String Ascii Bool Lia PeanoNat.
Import ListNotations.
Local Open Scope list_scope.
Local Open Scope string_scope.

Set Implicit Arguments.

(* ===================================================================== *)
(** * Python floats *)
(* ===================================================================== *)

Module Py.

Definition float : Type := spec_float.

Definition fadd : float -> float -> float := SFadd prec emax.
Definition fsub : float -> float -> float := SFsub prec emax.
Definition fmul : float -> float -> float := SFmul prec emax.
Definition fdiv : float -> float -> float := SFdiv prec emax.
Definition fsqrt : float -> float := SFsqrt prec emax.
Definition fneg : float -> float := SFopp.
Definition fabs : float -> float := SFabs.

(** Comparisons of two C doubles; every comparison with a NaN is false. *)
Definition flt (a b : float) : bool := SFltb a b.
Definition fle (a b : float) : bool := SFleb a b.
Definition feq (a b : float) : bool := SFeqb a b.
Definition fgt (a b : float) : bool :=
  match SFcompare a b with Some Gt => true | _ => false end.

Definition isnan (x : float) : bool :=
  match x with S754_nan => true | _ => false end.
Definition isinf (x : float) : bool :=
  match x with S754_infinity _ => true | _ => false end.
Definition isfinite (x : float) : bool := negb (isnan x) && negb (isinf x).

(** The sign bit, as [copysign] reads it (a NaN carries no sign here). *)
Definition signbit (x : float) : bool :=
  match x with
  | S754_zero s | S754_infinity s | S754_finite s _ _ => s
  | S754_nan => false
  end.
Definition copysign (x y : float) : float :=
  if signbit y then fneg (fabs x) else fabs x.

(** Literals. *)
Definition f0 : float := S754_zero false.
Definition f1 : float := Eval vm_compute in Prim2SF 1%float.
Definition f2 : float := Eval vm_compute in Prim2SF 2%float.
Definition f180 : float := Eval vm_compute in Prim2SF 180%float.
Definition f0_8 : float := Eval vm_compute in Prim2SF 0x1.999999999999ap-1%float.
Definition f0_25 : float := Eval vm_compute in Prim2SF 0.25%float.
Definition f0_5 : float := Eval vm_compute in Prim2SF 0.5%float.
Definition f0_75 : float := Eval vm_compute in Prim2SF 0.75%float.
Definition f100 : float := Eval vm_compute in Prim2SF 100%float.
Definition f6371000 : float := Eval vm_compute in Prim2SF 6371000%float.

(** [Py_MATH_PI = 3.14159265358979323846] *)
Definition Py_MATH_PI : float :=
  Eval vm_compute in Prim2SF 0x1.921fb54442d18p+1%float.

(** [static const double degToRad = Py_MATH_PI / 180.0;]
    [static const double radToDeg = 180.0 / Py_MATH_PI;] *)
Definition degToRad : float := Eval vm_compute in fdiv Py_MATH_PI f180.
Definition radToDeg : float := Eval vm_compute in fdiv f180 Py_MATH_PI.

(** Truth value of a float: [x != 0.0]. *)
Definition float_bool (x : float) : bool := negb (feq x f0).

(** Exceptions the modelled code can raise. [VehicleError] stands for
    whatever the vehicle object raises when an attribute write fails. *)
Inductive exn : Type := ValueError | OverflowError | VehicleError.

(** The C library functions CPython calls. *)
Class Libm : Type := {
  libm_sin : float -> float;
  libm_cos : float -> float;
  libm_atan2 : float -> float -> float;
  libm_pow : float -> float -> float
}.

Section Math.
Context {L : Libm}.

(** [math.radians(x)], [math.degrees(x)] *)
Definition radians (x : float) : float := fmul x degToRad.
Definition degrees (x : float) : float := fmul x radToDeg.

(** [math_1(arg, func, can_overflow = 0)]: the wrapper of [math.sin],
    [math.cos] and [math.sqrt].  A NaN result of a non-NaN argument and an
    infinite result of a finite argument raise [ValueError].  ([errno] is
    not modelled: the wrapper's last test, on [errno], is "unnecessary on
    most platforms" in CPython's own words.) *)
Definition math_1 (func : float -> float) (x : float) : exn + float :=
  let r := func x in
  if isnan r && negb (isnan x) then inl ValueError
  else if isinf r && isfinite x then inl ValueError
  else inr r.

Definition sin : float -> exn + float := math_1 libm_sin.
Definition cos : float -> exn + float := math_1 libm_cos.
Definition sqrt : float -> exn + float := math_1 fsqrt.

(** [m_atan2(y, x)]: CPython settles the special cases itself. *)
Definition m_atan2 (y x : float) : float :=
  if isnan x || isnan y then S754_nan
  else if isinf y then
    if isinf x then
      if feq (copysign f1 x) f1
      then copysign (fmul f0_25 Py_MATH_PI) y
      else copysign (fmul f0_75 Py_MATH_PI) y
    else copysign (fmul f0_5 Py_MATH_PI) y
  else if isinf x || feq y f0 then
    if feq (copysign f1 x) f1
    then copysign f0 y
    else copysign Py_MATH_PI y
  else libm_atan2 y x.

(** [math_2(args, m_atan2)]: a NaN result of non-NaN arguments raises
    [ValueError], an infinite result of finite arguments [OverflowError]. *)
Definition atan2 (y x : float) : exn + float :=
  let r := m_atan2 y x in
  if isnan r then
    if negb (isnan y) && negb (isnan x) then inl ValueError else inr r
  else if isinf r then
    if isfinite y && isfinite x then inl OverflowError else inr r
  else inr r.

(** [float_pow(v, w)] at [w = 2] (the source writes [** 2]; the int is
    converted to [2.0]).  The branches on [w] are decided: [w] is neither
    zero, NaN nor infinite, it is a positive even integer.  What is left:
    a NaN is returned as is, an infinity gives [fabs], a zero gives [0.0],
    a negative base is negated, [1.0] is returned as is, and every other
    base goes to the C [pow]; an infinite result raises [OverflowError]
    ([_Py_ADJUST_ERANGE1]). *)
Definition pow2 (iv : float) : exn + float :=
  if isnan iv then inr iv
  else if isinf iv then inr (fabs iv)
  else if feq iv f0 then inr f0
  else
    let iv := if flt iv f0 then fneg iv else iv in
    if feq iv f1 then inr f1
    else
      let ix := libm_pow iv f2 in
      if isinf ix then inl OverflowError else inr ix.

End Math.
End Py.

(* ===================================================================== *)
(** * The clock and [strftime] *)
(* ===================================================================== *)

(** What [datetime.now()] returns. *)
Record datetime : Type := {
  year : nat; month : nat; day : nat;
  hour : nat; minute : nat; second : nat
}.

Definition digit (d : nat) : ascii := ascii_of_nat (48 + d mod 10).

Definition pad2 (n : nat) : string :=
  String (digit (n / 10)) (String (digit n) EmptyString).

Definition pad4 (n : nat) : string :=
  String (digit (n / 1000)) (String (digit (n / 100)) (pad2 n)).

(** [strftime("%Y-%m-%d %H:%M:%S")] *)
Definition strftime (t : datetime) : string :=
  pad4 (year t) ++ "-" ++ pad2 (month t) ++ "-" ++ pad2 (day t) ++ " " ++
  pad2 (hour t) ++ ":" ++ pad2 (minute t) ++ ":" ++ pad2 (second t).

Definition newline : string := String (ascii_of_nat 10) EmptyString.

(* ===================================================================== *)
(** * The vehicle, the monitor and the world around it *)
(* ===================================================================== *)

(** The attributes of the vehicle object that the monitor reads
    ([location.global_relative_frame.lat/lon/alt], [battery.level],
    [attitude.pitch/roll], [mode]) and the one it writes ([mode]). *)
Record Vehicle : Type := {
  lat : Py.float;
  lon : Py.float;
  alt : Py.float;
  battery_level : Py.float;
  pitch : Py.float;
  roll : Py.float;
  mode : string
}.

Definition with_mode (m : string) (v : Vehicle) : Vehicle :=
  {| lat := lat v; lon := lon v; alt := alt v;
     battery_level := battery_level v;
     pitch := pitch v; roll := roll v; mode := m |}.

(** The fields of a [SafetyMonitor] object. [vehicle = None] is the Python
    [None] (no vehicle connected). *)
Record SafetyMonitor : Type := {
  vehicle : option Vehicle;
  max_altitude : Py.float;
  max_distance : Py.float;
  min_battery : Py.float;
  max_tilt_angle : Py.float;
  geofence_enabled : bool;
  geofence_radius : Py.float;
  home_lat : option Py.float;
  home_lon : option Py.float;
  monitoring : bool;
  emergency_triggered : bool;
  safety_log : list string
}.

(** One constructor for each [print] of the module. *)
Inductive stdout_line : Type :=
| PrintHomeSet (la lo : Py.float)
| PrintMockHome
| PrintWarning (log_entry : string)
| PrintEmergencyActivated
| PrintSimulationLanding
| PrintLowBattery
| PrintExcessiveTilt
| PrintGeofenceBreach
| PrintAltitudeLimit
| PrintHandlingFailed (e : Py.exn)
| PrintReturningHome
| PrintEmergencyLanding
| PrintDescending (safe_alt : Py.float)
| PrintLogSaved (filename : string).

(** The monitor object together with the effects of its methods: the
    lines printed so far (oldest first), the number of clock readings
    taken, and the files written (newest first). *)
Record World : Type := {
  self : SafetyMonitor;
  stdout : list stdout_line;
  clock_reads : nat;
  files : list (string * string)
}.

(** What lies outside the module: the C library, the clock (the value of
    the n-th call of [datetime.now()]), the float formats of the f-strings
    ([{x:.1f}] and [{x}]), and whether the vehicle object accepts a write
    of its [mode] attribute or raises. *)
Class Platform : Type := {
  platform_libm :: Py.Libm;
  now : nat -> datetime;
  format_1f : Py.float -> string;
  format_str : Py.float -> string;
  mode_write_ok : Vehicle -> string -> bool
}.

(** ** Field updates *)

Definition set_vehicle (v : option Vehicle) (m : SafetyMonitor) : SafetyMonitor :=
  {| vehicle := v; max_altitude := max_altitude m; max_distance := max_distance m;
     min_battery := min_battery m; max_tilt_angle := max_tilt_angle m;
     geofence_enabled := geofence_enabled m; geofence_radius := geofence_radius m;
     home_lat := home_lat m; home_lon := home_lon m; monitoring := monitoring m;
     emergency_triggered := emergency_triggered m; safety_log := safety_log m |}.

Definition set_home (la lo : option Py.float) (m : SafetyMonitor) : SafetyMonitor :=
  {| vehicle := vehicle m; max_altitude := max_altitude m; max_distance := max_distance m;
     min_battery := min_battery m; max_tilt_angle := max_tilt_angle m;
     geofence_enabled := geofence_enabled m; geofence_radius := geofence_radius m;
     home_lat := la; home_lon := lo; monitoring := monitoring m;
     emergency_triggered := emergency_triggered m; safety_log := safety_log m |}.

Definition set_monitoring (b : bool) (m : SafetyMonitor) : SafetyMonitor :=
  {| vehicle := vehicle m; max_altitude := max_altitude m; max_distance := max_distance m;
     min_battery := min_battery m; max_tilt_angle := max_tilt_angle m;
     geofence_enabled := geofence_enabled m; geofence_radius := geofence_radius m;
     home_lat := home_lat m; home_lon := home_lon m; monitoring := b;
     emergency_triggered := emergency_triggered m; safety_log := safety_log m |}.

Definition set_emergency_triggered (b : bool) (m : SafetyMonitor) : SafetyMonitor :=
  {| vehicle := vehicle m; max_altitude := max_altitude m; max_distance := max_distance m;
     min_battery := min_battery m; max_tilt_angle := max_tilt_angle m;
     geofence_enabled := geofence_enabled m; geofence_radius := geofence_radius m;
     home_lat := home_lat m; home_lon := home_lon m; monitoring := monitoring m;
     emergency_triggered := b; safety_log := safety_log m |}.

Definition set_safety_log (l : list string) (m : SafetyMonitor) : SafetyMonitor :=
  {| vehicle := vehicle m; max_altitude := max_altitude m; max_distance := max_distance m;
     min_battery := min_battery m; max_tilt_angle := max_tilt_angle m;
     geofence_enabled := geofence_enabled m; geofence_radius := geofence_radius m;
     home_lat := home_lat m; home_lon := home_lon m; monitoring := monitoring m;
     emergency_triggered := emergency_triggered m; safety_log := l |}.

Definition on_self (f : SafetyMonitor -> SafetyMonitor) (w : World) : World :=
  {| self := f (self w); stdout := stdout w;
     clock_reads := clock_reads w; files := files w |}.

Definition put_line (l : stdout_line) (w : World) : World :=
  {| self := self w; stdout := (stdout w ++ [l])%list;
     clock_reads := clock_reads w; files := files w |}.

Definition tick_clock (w : World) : World :=
  {| self := self w; stdout := stdout w;
     clock_reads := S (clock_reads w); files := files w |}.

Definition put_file (name text : string) (w : World) : World :=
  {| self := self w; stdout := stdout w;
     clock_reads := clock_reads w; files := (name, text) :: files w |}.

(** ** Methods as state transformers that may raise *)

Inductive outcome (A : Type) : Type :=
| Return (a : A)
| Raise (e : Py.exn).
Arguments Raise {A} e.

Definition M (A : Type) : Type := World -> outcome A * World.

Definition ret {A} (a : A) : M A := fun w => (Return a, w).
Definition raise {A} (e : Py.exn) : M A := fun w => (Raise e, w).
Definition bind {A B} (m : M A) (k : A -> M B) : M B :=
  fun w => match m w with
           | (Return a, w') => k a w'
           | (Raise e, w') => (Raise e, w')
           end.
Definition modify (f : World -> World) : M unit := fun w => (Return tt, f w).
Definition gets {A} (f : World -> A) : M A := fun w => (Return (f w), w).
Definition print (l : stdout_line) : M unit := modify (put_line l).

(** [try: body  except Exception as e: handler(e)] *)
Definition try_except {A} (body : M A) (handler : Py.exn -> M A) : M A :=
  fun w => match body w with
           | (Return a, w') => (Return a, w')
           | (Raise e, w') => handler e w'
           end.

(** [try: body  finally: cleanup] : the cleanup runs on both exits and the
    outcome of the body is kept. *)
Definition try_finally {A} (body : M A) (cleanup : World -> World) : M A :=
  fun w => let (r, w') := body w in (r, cleanup w').

(** A computation that cannot change the world, lifted. *)
Definition lift {A} (r : Py.exn + A) : M A :=
  match r with inl e => raise e | inr a => ret a end.

Declare Scope py_scope.
Delimit Scope py_scope with py.
Notation "x <- m ;; k" := (bind m (fun x => k))
  (at level 100, m at next level, right associativity) : py_scope.
Notation "m ;; k" := (bind m (fun _ => k))
  (at level 100, right associativity) : py_scope.
Local Open Scope py_scope.

(** Runs the sequencing operators on the worlds they are applied to. *)
Ltac run :=
  cbv beta iota delta
    [bind ret raise gets modify print lift try_except try_finally].

(** The same sequencing for computations that only return or raise. *)
Definition ebind {A B} (r : Py.exn + A) (k : A -> Py.exn + B) : Py.exn + B :=
  match r with inl e => inl e | inr a => k a end.
Notation "x <~ r ;; k" := (ebind r (fun x => k))
  (at level 100, r at next level, right associativity) : py_scope.

(** Values stored in the status dictionary; a [dict] keeps insertion order. *)
Inductive value : Type :=
| VBool (b : bool)
| VStr (s : string)
| VInt (z : Z)
| VFloat (x : Py.float).

Definition dict : Type := list (string * value).

Fixpoint dict_get (k : string) (d : dict) : option value :=
  match d with
  | [] => None
  | (k', v) :: d' => if String.eqb k k' then Some v else dict_get k d'
  end.

Definition keys (d : dict) : list string := map fst d.

(** Truth value of [self.home_lat] / [self.home_lon]: [None] and zero are
    false. *)
Definition truthy (x : option Py.float) : bool :=
  match x with None => false | Some f => Py.float_bool f end.

(* ===================================================================== *)
(** * The methods of [SafetyMonitor] *)
(* ===================================================================== *)

Section Methods.
Context {P : Platform}.

(** [set_home_position] (lines 52-61) *)
Definition set_home_position : M unit :=
  v <- gets (fun w => vehicle (self w)) ;;
  match v with
  | Some v =>
      modify (on_self (set_home (Some (lat v)) (Some (lon v)))) ;;
      print (PrintHomeSet (lat v) (lon v))
  | None =>
      print PrintMockHome ;;
      modify (on_self (set_home (Some Py.f0) (Some Py.f0)))
  end.

(** [log_warning] (lines 238-243) *)
Definition log_warning (message : string) : M unit :=
  n <- gets clock_reads ;;
  modify tick_clock ;;
  let timestamp := strftime (now n) in
  let log_entry := "[" ++ timestamp ++ "] " ++ message in
  modify (on_self (fun m => set_safety_log (safety_log m ++ [log_entry])%list m)) ;;
  print (PrintWarning log_entry).

(** [check_altitude] (lines 93-103) *)
Definition check_altitude : M bool :=
  v <- gets (fun w => vehicle (self w)) ;;
  match v with
  | None => ret true
  | Some v =>
      let current_alt := alt v in
      limit <- gets (fun w => max_altitude (self w)) ;;
      if Py.fgt current_alt limit then
        log_warning ("Altitude exceeded: " ++ format_1f current_alt ++
                     "m > " ++ format_str limit ++ "m") ;;
        ret false
      else ret true
  end.

(** [check_battery] (lines 105-115) *)
Definition check_battery : M bool :=
  v <- gets (fun w => vehicle (self w)) ;;
  match v with
  | None => ret true
  | Some v =>
      let level := battery_level v in
      limit <- gets (fun w => min_battery (self w)) ;;
      if Py.flt level limit then
        log_warning ("Low battery: " ++ format_str level ++
                     "% < " ++ format_str limit ++ "%") ;;
        ret false
      else ret true
  end.

(** [check_tilt] (lines 117-134) *)
Definition check_tilt : M bool :=
  v <- gets (fun w => vehicle (self w)) ;;
  match v with
  | None => ret true
  | Some v =>
      let pitch_deg := Py.degrees (pitch v) in
      let roll_deg := Py.degrees (roll v) in
      limit <- gets (fun w => max_tilt_angle (self w)) ;;
      if Py.fgt (Py.fabs pitch_deg) limit || Py.fgt (Py.fabs roll_deg) limit then
        log_warning ("Excessive tilt detected! Pitch: " ++ format_1f pitch_deg ++
                     "°, Roll: " ++ format_1f roll_deg ++ "°") ;;
        ret false
      else ret true
  end.

(** [calculate_distance] (lines 157-170) *)
Definition calculate_distance (lat1 lon1 lat2 lon2 : Py.float) : Py.exn + Py.float :=
  let R := Py.f6371000 in
  let lat1_rad := Py.radians lat1 in
  let lat2_rad := Py.radians lat2 in
  let delta_lat := Py.radians (Py.fsub lat2 lat1) in
  let delta_lon := Py.radians (Py.fsub lon2 lon1) in
  s1 <~ Py.sin (Py.fdiv delta_lat Py.f2) ;;
  p1 <~ Py.pow2 s1 ;;
  c1 <~ Py.cos lat1_rad ;;
  c2 <~ Py.cos lat2_rad ;;
  s2 <~ Py.sin (Py.fdiv delta_lon Py.f2) ;;
  p2 <~ Py.pow2 s2 ;;
  let a := Py.fadd p1 (Py.fmul (Py.fmul c1 c2) p2) in
  q1 <~ Py.sqrt a ;;
  q2 <~ Py.sqrt (Py.fsub Py.f1 a) ;;
  t <~ Py.atan2 q1 q2 ;;
  let c := Py.fmul Py.f2 t in
  inr (Py.fmul R c).

(** [check_geofence] (lines 136-155) *)
Definition check_geofence : M bool :=
  v <- gets (fun w => vehicle (self w)) ;;
  enabled <- gets (fun w => geofence_enabled (self w)) ;;
  match v with
  | None => ret true
  | Some v =>
      if negb enabled then ret true
      else
        hla <- gets (fun w => home_lat (self w)) ;;
        hlo <- gets (fun w => home_lon (self w)) ;;
        match hla, hlo with
        | Some hla, Some hlo =>
            distance <- lift (calculate_distance hla hlo (lat v) (lon v)) ;;
            limit <- gets (fun w => geofence_radius (self w)) ;;
            if Py.fgt distance limit then
              log_warning ("Geofence breach: " ++ format_1f distance ++
                           "m > " ++ format_str limit ++ "m") ;;
              ret false
            else ret true
        | _, _ => ret true
        end
  end.

(** [a and b] on two calls: the second runs only when the first is true. *)
Definition and_then (a b : M bool) : M bool :=
  x <- a ;; if x then b else ret false.

(** [is_safe] (lines 172-180) *)
Definition is_safe : M bool :=
  v <- gets (fun w => vehicle (self w)) ;;
  match v with
  | None => ret true
  | Some _ =>
      and_then check_altitude
        (and_then check_battery (and_then check_tilt check_geofence))
  end.

(** [self.vehicle.mode = m]: the write raises when the vehicle refuses it. *)
Definition write_mode (m : string) (v : Vehicle) : M unit :=
  if mode_write_ok v m
  then modify (on_self (set_vehicle (Some (with_mode m v))))
  else raise Py.VehicleError.

(** [return_to_home] (lines 219-223) *)
Definition return_to_home : M unit :=
  v <- gets (fun w => vehicle (self w)) ;;
  match v with
  | Some v => print PrintReturningHome ;; write_mode "RTL" v
  | None => ret tt
  end.

(** [emergency_land] (lines 225-229) *)
Definition emergency_land : M unit :=
  v <- gets (fun w => vehicle (self w)) ;;
  match v with
  | Some v => print PrintEmergencyLanding ;; write_mode "LAND" v
  | None => ret tt
  end.

(** [descend_to_safe_altitude] (lines 231-236) *)
Definition descend_to_safe_altitude : M unit :=
  v <- gets (fun w => vehicle (self w)) ;;
  match v with
  | Some _ =>
      limit <- gets (fun w => max_altitude (self w)) ;;
      let safe_alt := Py.fmul limit Py.f0_8 in
      print (PrintDescending safe_alt)
  | None => ret tt
  end.

(** The body of the [try] of [handle_emergency] (lines 195-210). *)
Definition dispatch : M unit :=
  battery_ok <- check_battery ;;
  if negb battery_ok then print PrintLowBattery ;; return_to_home
  else
    tilt_ok <- check_tilt ;;
    if negb tilt_ok then print PrintExcessiveTilt ;; emergency_land
    else
      geofence_ok <- check_geofence ;;
      if negb geofence_ok then print PrintGeofenceBreach ;; return_to_home
      else
        altitude_ok <- check_altitude ;;
        if negb altitude_ok then print PrintAltitudeLimit ;; descend_to_safe_altitude
        else ret tt.

(** The [except Exception as e] clause (lines 212-214). *)
Definition on_failure (e : Py.exn) : M unit :=
  print (PrintHandlingFailed e) ;; emergency_land.

(** The [finally] clause (line 217). *)
Definition release_guard : World -> World :=
  on_self (set_emergency_triggered false).

(** [handle_emergency] (lines 182-217) *)
Definition handle_emergency : M unit :=
  triggered <- gets (fun w => emergency_triggered (self w)) ;;
  if triggered then ret tt
  else
    modify (on_self (set_emergency_triggered true)) ;;
    print PrintEmergencyActivated ;;
    v <- gets (fun w => vehicle (self w)) ;;
    match v with
    | None => print PrintSimulationLanding
    | Some _ => try_finally (try_except dispatch on_failure) release_guard
    end.

(** [get_safety_status] (lines 245-277) *)
Definition get_safety_status : M dict :=
  v <- gets (fun w => vehicle (self w)) ;;
  match v with
  | None =>
      ret [("safe", VBool true); ("mode", VStr "SIMULATION");
           ("altitude", VInt 0); ("battery", VInt 100);
           ("tilt", VInt 0); ("distance_from_home", VInt 0)]
  | Some v =>
      let current_lat := lat v in
      let current_lon := lon v in
      hla <- gets (fun w => home_lat (self w)) ;;
      hlo <- gets (fun w => home_lon (self w)) ;;
      distance <-
        (if truthy hla && truthy hlo then
           match hla, hlo with
           | Some la, Some lo =>
               d <- lift (calculate_distance la lo current_lat current_lon) ;;
               ret (VFloat d)
           | _, _ => ret (VInt 0)
           end
         else ret (VInt 0)) ;;
      safe <- is_safe ;;
      warnings <- gets (fun w => List.length (safety_log (self w))) ;;
      ret [("safe", VBool safe); ("mode", VStr (mode v));
           ("altitude", VFloat (alt v)); ("battery", VFloat (battery_level v));
           ("tilt_pitch", VFloat (Py.degrees (pitch v)));
           ("tilt_roll", VFloat (Py.degrees (roll v)));
           ("distance_from_home", distance);
           ("warnings", VInt (Z.of_nat warnings))]
  end.

(** What the [for] loop of [save_log] writes: [entry + "\n"] for each
    entry, one write after the other. *)
Fixpoint entry_lines (entries : list string) : string :=
  match entries with
  | [] => ""
  | entry :: rest => (entry ++ newline) ++ entry_lines rest
  end.

(** The text [save_log] writes: the header, a blank line, the entries. *)
Definition log_text (entries : list string) : string :=
  ("=== Drone Safety Log ===" ++ newline ++ newline) ++ entry_lines entries.

(** [save_log] (lines 279-285) *)
Definition save_log (filename : string) : M unit :=
  entries <- gets (fun w => safety_log (self w)) ;;
  modify (put_file filename (log_text entries)) ;;
  print (PrintLogSaved filename).

(** One pass through the body of the [while] of [_monitor_loop]
    (lines 84-89), without the sleep. *)
Definition monitor_tick : M unit :=
  v <- gets (fun w => vehicle (self w)) ;;
  match v with
  | Some _ =>
      check_altitude ;; check_battery ;; check_tilt ;; check_geofence ;; ret tt
  | None => ret tt
  end.

(** [_monitor_loop] (lines 81-91).  The loop runs in a thread of its own;
    what the rest of the program and the vehicle do while it sleeps is the
    head of [during_sleep] (new telemetry, [stop_monitoring], ...).  The
    model stops when that list is used up. *)
Fixpoint _monitor_loop (during_sleep : list (World -> World)) : M unit :=
  match during_sleep with
  | [] => ret tt
  | env :: rest =>
      running <- gets (fun w => monitoring (self w)) ;;
      if running then monitor_tick ;; modify env ;; _monitor_loop rest
      else ret tt
  end.

End Methods.

(* ===================================================================== *)
(** * What the specification says, as predicates on the code *)
(* ===================================================================== *)

(** The corrective commands of the dispatcher, read off the lines that
    [return_to_home], [emergency_land] and [descend_to_safe_altitude]
    print when they act. *)
Inductive command : Type :=
| ReturnToLaunch
| EmergencyLand
| Descend (safe_alt : Py.float).

Definition command_of (l : stdout_line) : option command :=
  match l with
  | PrintReturningHome => Some ReturnToLaunch
  | PrintEmergencyLanding => Some EmergencyLand
  | PrintDescending a => Some (Descend a)
  | _ => None
  end.

Fixpoint commands (out : list stdout_line) : list command :=
  match out with
  | [] => []
  | l :: out' =>
      match command_of l with
      | Some c => c :: commands out'
      | None => commands out'
      end
  end.

(** The printed lines other than the warnings of [log_warning]. *)
Definition is_warning (l : stdout_line) : bool :=
  match l with PrintWarning _ => true | _ => false end.

Definition other_lines (out : list stdout_line) : list stdout_line :=
  filter (fun l => negb (is_warning l)) out.

(** The failure conditions of the four checks, as the source tests them. *)
Definition altitude_exceeded (m : SafetyMonitor) (v : Vehicle) : bool :=
  Py.fgt (alt v) (max_altitude m).

Definition battery_low (m : SafetyMonitor) (v : Vehicle) : bool :=
  Py.flt (battery_level v) (min_battery m).

Definition tilt_excessive (m : SafetyMonitor) (v : Vehicle) : bool :=
  Py.fgt (Py.fabs (Py.degrees (pitch v))) (max_tilt_angle m) ||
  Py.fgt (Py.fabs (Py.degrees (roll v))) (max_tilt_angle m).

(** The entry [log_warning] builds at time [t]. *)
Definition entry_text (t : datetime) (message : string) : string :=
  "[" ++ strftime t ++ "] " ++ message.

(** The newest text written under a file name. *)
Fixpoint file_text (name : string) (fs : list (string * string)) : option string :=
  match fs with
  | [] => None
  | (n, text) :: fs' => if String.eqb name n then Some text else file_text name fs'
  end.

Definition is_newline (c : ascii) : bool := Ascii.eqb c (ascii_of_nat 10).

Fixpoint has_char (p : ascii -> bool) (s : string) : bool :=
  match s with
  | EmptyString => false
  | String c s' => p c || has_char p s'
  end.

(** The lines of a text, each without its line break. *)
Fixpoint lines (s : string) : list string :=
  match s with
  | EmptyString => []
  | String c s' =>
      if is_newline c then EmptyString :: lines s'
      else match lines s' with
           | [] => [String c EmptyString]
           | l :: ls => String c l :: ls
           end
  end.

(** The reader of the export file, for the round trip of the
    specification.  The repository writes the file and never reads it; the
    reader follows the format the specification fixes (the header line, a
    blank line, then one line ["[<timestamp>] <message>"] per entry).
    [until_bracket] cuts a line at its first closing bracket. *)
Fixpoint until_bracket (s : string) : option (string * string) :=
  match s with
  | EmptyString => None
  | String c s' =>
      if Ascii.eqb c "]" then Some (EmptyString, s')
      else match until_bracket s' with
           | Some (a, b) => Some (String c a, b)
           | None => None
           end
  end.

Definition parse_entry (line : string) : option (string * string) :=
  match line with
  | String c s =>
      if Ascii.eqb c "[" then
        match until_bracket s with
        | Some (timestamp, String c' message) =>
            if Ascii.eqb c' " " then Some (timestamp, message) else None
        | _ => None
        end
      else None
  | EmptyString => None
  end.

Fixpoint parse_entries (ls : list string) : option (list (string * string)) :=
  match ls with
  | [] => Some []
  | l :: ls' =>
      match parse_entry l, parse_entries ls' with
      | Some e, Some es => Some (e :: es)
      | _, _ => None
      end
  end.

Definition parse_log (text : string) : option (list (string * string)) :=
  match lines text with
  | header :: blank :: entries =>
      if String.eqb header "=== Drone Safety Log ===" && String.eqb blank ""
      then parse_entries entries
      else None
  | _ => None
  end.

(** A Python float is one of the binary64 values. *)
Definition is_double (x : Py.float) : Prop := valid_binary prec emax x = true.

(** What the properties of [calculate_distance] need of the C library:
    [sin(+0)] is [+0] (C99 F.9.1.6), [sin] is odd (the implementations
    reduce [|x|] and restore the sign), and [cos] of a finite argument is a
    double of magnitude at most one. *)
Record libm_conforms (L : Py.Libm) : Prop := {
  sin_zero : Py.libm_sin Py.f0 = Py.f0;
  sin_odd : forall x, Py.libm_sin (Py.fneg x) = Py.fneg (Py.libm_sin x);
  cos_bounded : forall x,
    Py.isfinite x = true ->
    is_double (Py.libm_cos x) /\
    Py.fle (Py.fabs (Py.libm_cos x)) Py.f1 = true
}.

(** [y] is [x] or its negation. *)
Definition mirror (x y : Py.float) : Prop := y = x \/ y = Py.fneg x.

(** A finite coordinate: a binary64 value that is neither a NaN nor an
    infinity. *)
Definition finite_double (x : Py.float) : Prop :=
  is_double x /\ Py.isfinite x = true.

(** A method leaves a part of the world as it found it, whatever it
    returns or raises. *)
Definition frames {X A : Type} (part : World -> X) (m : M A) : Prop :=
  forall w, part (snd (m w)) = part w.

Section Vocabulary.
Context {P : Platform}.

(** The world after [log_warning message]. *)
Definition logged (message : string) (w : World) : World :=
  snd (log_warning message w).

(** What [check_geofence] computes before it logs: [None] when the check
    passes without a distance (geofence disabled or home unset), otherwise
    the outcome of [calculate_distance]. *)
Definition geofence_distance (m : SafetyMonitor) (v : Vehicle) : option (Py.exn + Py.float) :=
  if geofence_enabled m then
    match home_lat m, home_lon m with
    | Some la, Some lo => Some (calculate_distance la lo (lat v) (lon v))
    | _, _ => None
    end
  else None.

(** The snapshot is inside every limit, in the words of the specification:
    altitude at most the ceiling, battery at least the floor, pitch and
    roll in degrees at most the tilt limit, and the distance from home at
    most the radius unless the geofence is disabled or home is unset. *)
Definition within_limits (m : SafetyMonitor) (v : Vehicle) : Prop :=
  Py.fle (alt v) (max_altitude m) = true /\
  Py.fle (min_battery m) (battery_level v) = true /\
  Py.fle (Py.fabs (Py.degrees (pitch v))) (max_tilt_angle m) = true /\
  Py.fle (Py.fabs (Py.degrees (roll v))) (max_tilt_angle m) = true /\
  (geofence_enabled m = false \/
   home_lat m = None \/
   home_lon m = None \/
   exists la lo d,
     home_lat m = Some la /\ home_lon m = Some lo /\
     calculate_distance la lo (lat v) (lon v) = inr d /\
     Py.fle d (geofence_radius m) = true).

(** The message of each check, and the messages of the checks that fail on
    a snapshot, in the order in which the tick runs the checks. *)
Definition altitude_message (m : SafetyMonitor) (v : Vehicle) : string :=
  "Altitude exceeded: " ++ format_1f (alt v) ++
  "m > " ++ format_str (max_altitude m) ++ "m".

Definition battery_message (m : SafetyMonitor) (v : Vehicle) : string :=
  "Low battery: " ++ format_str (battery_level v) ++
  "% < " ++ format_str (min_battery m) ++ "%".

Definition tilt_message (v : Vehicle) : string :=
  "Excessive tilt detected! Pitch: " ++ format_1f (Py.degrees (pitch v)) ++
  "°, Roll: " ++ format_1f (Py.degrees (roll v)) ++ "°".

Definition geofence_message (m : SafetyMonitor) (d : Py.float) : string :=
  "Geofence breach: " ++ format_1f d ++
  "m > " ++ format_str (geofence_radius m) ++ "m".

Definition altitude_failure (m : SafetyMonitor) (v : Vehicle) : list string :=
  if altitude_exceeded m v then [altitude_message m v] else [].

Definition battery_failure (m : SafetyMonitor) (v : Vehicle) : list string :=
  if battery_low m v then [battery_message m v] else [].

Definition tilt_failure (m : SafetyMonitor) (v : Vehicle) : list string :=
  if tilt_excessive m v then [tilt_message v] else [].

Definition geofence_failure (m : SafetyMonitor) (v : Vehicle) : list string :=
  match geofence_distance m v with
  | Some (inr d) =>
      if Py.fgt d (geofence_radius m) then [geofence_message m d] else []
  | _ => []
  end.

Definition failure_messages (m : SafetyMonitor) (v : Vehicle) : list string :=
  (altitude_failure m v ++ battery_failure m v ++
   tilt_failure m v ++ geofence_failure m v)%list.

(** Entries for messages logged one after the other from the [n]-th clock
    reading on. *)
Fixpoint stamped (n : nat) (messages : list string) : list string :=
  match messages with
  | [] => []
  | message :: rest => entry_text (now n) message :: stamped (S n) rest
  end.

(** What a run of checks may change: it appends to the log, prints
    warnings and reads the clock, and touches nothing else. *)
Definition only_logged (messages : list string) (w w' : World) : Prop :=
  self w' = set_safety_log
              (safety_log (self w) ++ stamped (clock_reads w) messages)%list
              (self w) /\
  stdout w' = (stdout w ++
               map PrintWarning (stamped (clock_reads w) messages))%list /\
  clock_reads w' = List.length messages + clock_reads w /\
  files w' = files w.

(** The first lines of [handle_emergency] once the guard is found clear
    (lines 187-188): the guard is taken. *)
Definition acquire_guard (w : World) : World :=
  put_line PrintEmergencyActivated (on_self (set_emergency_triggered true) w).

(** The rest of [handle_emergency] with a vehicle attached (lines 194-217). *)
Definition guarded_dispatch : M unit :=
  try_finally (try_except dispatch on_failure) release_guard.

(** Two overlapping requests: the second call arrives after the first has
    taken the guard and before the first dispatches. *)
Definition overlapped : M unit :=
  fun w => guarded_dispatch (snd (handle_emergency (acquire_guard w))).

(** Two overlapping requests, the other way: the second call arrives after
    the first has dispatched and before it releases the guard. *)
Definition overlapped_late : M unit :=
  fun w =>
    let (r, w1) := try_except dispatch on_failure (acquire_guard w) in
    (r, release_guard (snd (handle_emergency w1))).

(** At least one of the four checks fails on the snapshot. *)
Definition some_check_fails (m : SafetyMonitor) (v : Vehicle) : Prop :=
  altitude_exceeded m v = true \/
  battery_low m v = true \/
  tilt_excessive m v = true \/
  exists d, geofence_distance m v = Some (inr d) /\
            Py.fgt d (geofence_radius m) = true.

(** The tick as the specification words it: the four checks in the fixed
    order, then the emergency dispatch when any of them failed. *)
Definition tick_as_specified : M unit :=
  v <- gets (fun w => vehicle (self w)) ;;
  match v with
  | Some _ =>
      altitude_ok <- check_altitude ;;
      battery_ok <- check_battery ;;
      tilt_ok <- check_tilt ;;
      geofence_ok <- check_geofence ;;
      if altitude_ok && battery_ok && tilt_ok && geofence_ok
      then ret tt
      else handle_emergency
  | None => ret tt
  end.

(** [log_warning] called once for each message, in order. *)
Fixpoint log_all (messages : list string) : M unit :=
  match messages with
  | [] => ret tt
  | message :: rest => log_warning message ;; log_all rest
  end.

(** The (timestamp, message) pairs of messages logged one after the other
    from the [n]-th clock reading on. *)
Fixpoint stamps (n : nat) (messages : list string) : list (string * string) :=
  match messages with
  | [] => []
  | message :: rest => (strftime (now n), message) :: stamps (S n) rest
  end.

(** [math.sin(delta/2)**2] for [delta = math.radians(b - a)]. *)
Definition haversine_term (a b : Py.float) : Py.exn + Py.float :=
  s <~ Py.sin (Py.fdiv (Py.radians (Py.fsub b a)) Py.f2) ;;
  Py.pow2 s.

(** Lines 167-169: from [a] to the distance. *)
Definition central_distance (a : Py.float) : Py.exn + Py.float :=
  q1 <~ Py.sqrt a ;;
  q2 <~ Py.sqrt (Py.fsub Py.f1 a) ;;
  t <~ Py.atan2 q1 q2 ;;
  inr (Py.fmul Py.f6371000 (Py.fmul Py.f2 t)).

End Vocabulary.

(* ===================================================================== *)
(** * A concrete platform and the scenario of the module's self-test *)
(* ===================================================================== *)

Module Scenario.

(** A C library of small-angle approximations: [sin x = x], [cos x = 1],
    [atan2 y x = y / x], [pow x y = x * x] (only called with [y = 2]). *)
#[export] Instance small_angle_libm : Py.Libm := {|
  Py.libm_sin := fun x => x;
  Py.libm_cos := fun _ => Py.f1;
  Py.libm_atan2 := fun y x => Py.fdiv y x;
  Py.libm_pow := fun x _ => Py.fmul x x
|}.

(** A clock that advances one second per reading, a vehicle that accepts
    every mode, and formats that print nothing of the number. *)
#[export] Instance bench : Platform := {|
  platform_libm := small_angle_libm;
  now := fun n => {| year := 2024; month := 5; day := 17;
                     hour := 12; minute := 0; second := n |};
  format_1f := fun _ => "#";
  format_str := fun _ => "#";
  mode_write_ok := fun _ _ => true
|}.

(** The same bench with a vehicle that refuses every mode change. *)
Definition jammed : Platform := {|
  platform_libm := small_angle_libm;
  now := fun n => {| year := 2024; month := 5; day := 17;
                     hour := 12; minute := 0; second := n |};
  format_1f := fun _ => "#";
  format_str := fun _ => "#";
  mode_write_ok := fun _ _ => false
|}.

(** The numbers of the self-test (lines 293-334). *)
Definition f13_7563 : Py.float := Eval vm_compute in Prim2SF 0x1.b8339c0ebedfap+3%float.
Definition f100_5018 : Py.float := Eval vm_compute in Prim2SF 0x1.9201d7dbf488p+6%float.
Definition f0_1 : Py.float := Eval vm_compute in Prim2SF 0x1.999999999999ap-4%float.
Definition f0_05 : Py.float := Eval vm_compute in Prim2SF 0x1.999999999999ap-5%float.
Definition f5 : Py.float := Eval vm_compute in Prim2SF 5%float.
Definition f10 : Py.float := Eval vm_compute in Prim2SF 10%float.
Definition f15 : Py.float := Eval vm_compute in Prim2SF 15%float.
Definition f20 : Py.float := Eval vm_compute in Prim2SF 20%float.
Definition f45 : Py.float := Eval vm_compute in Prim2SF 45%float.
Definition f80 : Py.float := Eval vm_compute in Prim2SF 80%float.

(** [MockVehicle] of the self-test (lines 293-324). *)
Definition MockVehicle : Vehicle := {|
  lat := f13_7563;
  lon := f100_5018;
  alt := f5;
  battery_level := f80;
  pitch := f0_1;
  roll := f0_05;
  mode := "GUIDED"
|}.

(** The monitor that [SafetyMonitor(vehicle, config)] builds from the test
    configuration (lines 327-334). *)
Definition monitor (v : option Vehicle) : SafetyMonitor := {|
  vehicle := v;
  max_altitude := f10;
  max_distance := Py.f100;
  min_battery := f20;
  max_tilt_angle := f45;
  geofence_enabled := true;
  geofence_radius := Py.f100;
  home_lat := None;
  home_lon := None;
  monitoring := false;
  emergency_triggered := false;
  safety_log := []
|}.

Definition world (v : option Vehicle) : World :=
  {| self := monitor v; stdout := []; clock_reads := 0; files := [] |}.

Definition with_battery (x : Py.float) (v : Vehicle) : Vehicle :=
  {| lat := lat v; lon := lon v; alt := alt v; battery_level := x;
     pitch := pitch v; roll := roll v; mode := mode v |}.

Definition with_pitch (x : Py.float) (v : Vehicle) : Vehicle :=
  {| lat := lat v; lon := lon v; alt := alt v; battery_level := battery_level v;
     pitch := x; roll := roll v; mode := mode v |}.

Definition with_alt (x : Py.float) (v : Vehicle) : Vehicle :=
  {| lat := lat v; lon := lon v; alt := x; battery_level := battery_level v;
     pitch := pitch v; roll := roll v; mode := mode v |}.

Definition with_position (la lo : Py.float) (v : Vehicle) : Vehicle :=
  {| lat := la; lon := lo; alt := alt v; battery_level := battery_level v;
     pitch := pitch v; roll := roll v; mode := mode v |}.

End Scenario.

(** A world of the self-test after [set_home_position]: the vehicle sits at
    its home, inside every limit. *)
Definition at_home : World :=
  on_self (set_home (Some Scenario.f13_7563) (Some Scenario.f100_5018))
          (Scenario.world (Some Scenario.MockVehicle)).

(** A monitor whose home lies on the equator while the vehicle is some
    1500 km north of it. *)
Definition home_on_equator : World :=
  on_self (set_home (Some Py.f0) (Some Scenario.f100_5018))
          (Scenario.world (Some Scenario.MockVehicle)).

(** The second scenario of the specification: battery at 15 %, everything
    else inside its limit, the vehicle at its home. *)
Definition low_battery_vehicle : Vehicle :=
  Scenario.with_battery Scenario.f15 Scenario.MockVehicle.

Definition low_battery : World :=
  on_self (set_home (Some Scenario.f13_7563) (Some Scenario.f100_5018))
          (Scenario.world (Some low_battery_vehicle)).

(** Battery at 15 % and a pitch of 2 rad (114.6 degrees), home unset. *)
Definition low_and_tilted_vehicle : Vehicle :=
  Scenario.with_pitch Py.f2 low_battery_vehicle.

Definition low_and_tilted : World :=
  Scenario.world (Some low_and_tilted_vehicle).

(** A monitor whose guard is already set. *)
Definition guard_held : World :=
  on_self (set_emergency_triggered true) low_battery.

(** The first scenario of the specification: altitude 12 m over a ceiling
    of 10 m, everything else inside its limit, the vehicle at its home. *)
Definition f12 : Py.float := Eval vm_compute in Prim2SF 12%float.
Definition f8 : Py.float := Eval vm_compute in Prim2SF 8%float.

Definition too_high : World :=
  on_self (set_home (Some Scenario.f13_7563) (Some Scenario.f100_5018))
          (Scenario.world (Some (Scenario.with_alt f12 Scenario.MockVehicle))).

(** Home at 80 degrees south, the vehicle at 80 degrees north: on the
    bench's C library the haversine argument exceeds one and
    [math.sqrt(1-a)] raises. *)
Definition f80_south : Py.float := Py.fneg Scenario.f80.

Definition far_apart : World :=
  on_self (set_home (Some f80_south) (Some Py.f0))
          (Scenario.world
             (Some (Scenario.with_position Scenario.f80 Py.f0 Scenario.MockVehicle))).

(** The first line of [stop_monitoring] (line 76) and the flag that
    [start_monitoring] sets (line 69). *)
Definition request_stop : World -> World := on_self (set_monitoring false).
Definition running : World -> World := on_self (set_monitoring true).

(** A second position, one degree north-east of the first. *)
Definition f14_7563 : Py.float := Eval vm_compute in Py.fadd Scenario.f13_7563 Py.f1.
Definition f101_5018 : Py.float := Eval vm_compute in Py.fadd Scenario.f100_5018 Py.f1.

(* ===================================================================== *)
(** * Construction, the monitoring switch, and sessions of calls *)
(* ===================================================================== *)

(** [config.get(key, default)] *)
Definition get (key : string) (default : value) (config : dict) : value :=
  match dict_get key config with
  | Some x => x
  | None => default
  end.

(** An [int] as the float it equals, for the ints a binary64 holds
    exactly. *)
Definition of_int (z : Z) : option Py.float :=
  if (Z.abs z <=? 9007199254740992)%Z
  then Some (binary_normalize prec emax z 0 false)
  else None.

(** A threshold of the configuration.  The monitor of this development
    keeps its thresholds as floats: a float stands for itself, an [int]
    for the float it equals, and a configuration with anything else under a
    threshold key has no monitor here ([None]). *)
Definition number (x : value) : option Py.float :=
  match x with
  | VInt z => of_int z
  | VFloat f => Some f
  | VBool _ | VStr _ => None
  end.

(** The truth value of a Python value, as [not self.geofence_enabled]
    reads it. *)
Definition value_bool (x : value) : bool :=
  match x with
  | VBool b => b
  | VStr s => negb (String.eqb s "")
  | VInt z => negb (z =? 0)%Z
  | VFloat f => Py.float_bool f
  end.

(** The lines [__init__] prints (lines 46-50). *)
Inductive init_line : Type :=
| PrintInitialized
| PrintMaxAltitude (x : Py.float)
| PrintMinBattery (x : Py.float)
| PrintMaxTilt (x : Py.float)
| PrintGeofence (x : Py.float).

(** [__init__] (lines 22-50): the new object and the lines printed while
    it is built.  ([self.config] and [self.monitor_thread] are read by no
    method modelled on [World]; the thread is a field of [Threads]
    below.) *)
Definition __init__ (v : option Vehicle) (config : dict)
  : option (SafetyMonitor * list init_line) :=
  match number (get "max_altitude" (VInt 10) config),
        number (get "max_distance" (VInt 100) config),
        number (get "min_battery" (VInt 20) config),
        number (get "max_tilt_angle" (VInt 45) config),
        number (get "geofence_radius" (VInt 100) config) with
  | Some altitude, Some distance, Some battery, Some tilt, Some radius =>
      Some ({| vehicle := v;
               max_altitude := altitude;
               max_distance := distance;
               min_battery := battery;
               max_tilt_angle := tilt;
               geofence_enabled :=
                 value_bool (get "geofence_enabled" (VBool true) config);
               geofence_radius := radius;
               home_lat := None;
               home_lon := None;
               monitoring := false;
               emergency_triggered := false;
               safety_log := [] |},
            [PrintInitialized; PrintMaxAltitude altitude;
             PrintMinBattery battery; PrintMaxTilt tilt;
             PrintGeofence radius])
  | _, _, _, _, _ => None
  end.

(** The world of a process that has just built its monitor. *)
Definition fresh (m : SafetyMonitor) : World :=
  {| self := m; stdout := []; clock_reads := 0; files := [] |}.

(** The configuration of the self-test (lines 327-334). *)
Definition test_config : dict :=
  [("max_altitude", VInt 10); ("max_distance", VInt 100);
   ("min_battery", VInt 20); ("max_tilt_angle", VInt 45);
   ("geofence_enabled", VBool true); ("geofence_radius", VInt 100)].

(** The lines [start_monitoring] and [stop_monitoring] print. *)
Inductive switch_line : Type :=
| PrintAlreadyRunning
| PrintMonitoringStarted
| PrintMonitoringStopped.

(** The monitor with its thread: [monitor_thread] is [None] or the thread
    object, named by its number; [started] counts the threads started so
    far, [joined] lists the threads [join] was called on, and [switch_out]
    the lines the two methods have printed. *)
Record Threads : Type := {
  object : World;
  monitor_thread : option nat;
  started : nat;
  joined : list nat;
  switch_out : list switch_line
}.

(** [start_monitoring] (lines 63-72) *)
Definition start_monitoring (t : Threads) : Threads :=
  if monitoring (self (object t)) then
    {| object := object t;
       monitor_thread := monitor_thread t;
       started := started t;
       joined := joined t;
       switch_out := (switch_out t ++ [PrintAlreadyRunning])%list |}
  else
    {| object := on_self (set_monitoring true) (object t);
       monitor_thread := Some (started t);
       started := S (started t);
       joined := joined t;
       switch_out := (switch_out t ++ [PrintMonitoringStarted])%list |}.

(** [stop_monitoring] (lines 74-79) *)
Definition stop_monitoring (t : Threads) : Threads :=
  {| object := on_self (set_monitoring false) (object t);
     monitor_thread := monitor_thread t;
     started := started t;
     joined := match monitor_thread t with
               | Some n => (joined t ++ [n])%list
               | None => joined t
               end;
     switch_out := (switch_out t ++ [PrintMonitoringStopped])%list |}.

(** The monitor thread returns to the process the world its loop ended
    in. *)
Definition with_object (w : World) (t : Threads) : Threads :=
  {| object := w; monitor_thread := monitor_thread t; started := started t;
     joined := joined t; switch_out := switch_out t |}.

(** A process that has started no thread yet. *)
Definition unthreaded (w : World) : Threads :=
  {| object := w; monitor_thread := None; started := 0; joined := [];
     switch_out := [] |}.

(** A call of one of the methods on the monitor, by any client: every
    method but [start_monitoring] and [stop_monitoring], which act on the
    thread as well, and [calculate_distance], which is a function of its
    arguments. *)
Inductive call : Type :=
| Call_set_home_position
| Call_check_altitude
| Call_check_battery
| Call_check_tilt
| Call_check_geofence
| Call_is_safe
| Call_handle_emergency
| Call_return_to_home
| Call_emergency_land
| Call_descend_to_safe_altitude
| Call_log_warning (message : string)
| Call_get_safety_status
| Call_save_log (filename : string)
| Call_monitor_tick.

(** A call whose result the client drops. *)
Definition discard {A} (m : M A) : M unit := m ;; ret tt.

(** What a run of calls may leave behind, step by step: a relation
    between the world before and the world after that holds across every
    call, returned or raised. *)
Definition steps {A} (R : World -> World -> Prop) (m : M A) : Prop :=
  forall w, R w (snd (m w)).

(** The warnings among the printed lines. *)
Definition warnings (out : list stdout_line) : list stdout_line :=
  filter is_warning out.

(** What the monitor reads of a vehicle. *)
Definition telemetry (v : Vehicle)
  : Py.float * Py.float * Py.float * Py.float * Py.float * Py.float :=
  (lat v, lon v, alt v, battery_level v, pitch v, roll v).

(** The vehicle after is the vehicle before, up to a mode that the
    monitor may have set to RTL or LAND. *)
Definition vehicle_commanded (w w' : World) : Prop :=
  match vehicle (self w), vehicle (self w') with
  | None, None => True
  | Some v, Some v' =>
      telemetry v' = telemetry v /\
      (mode v' = mode v \/ mode v' = "RTL" \/ mode v' = "LAND")
  | _, _ => False
  end.

(** A part of the world is after as it was before. *)
Definition unchanged {X : Type} (part : World -> X) (w w' : World) : Prop :=
  part w' = part w.

(** What holds of the world before holds of the world after. *)
Definition kept (I : World -> Prop) (w w' : World) : Prop := I w -> I w'.

(** A vehicle is attached. *)
Definition attached (w : World) : Prop := vehicle (self w) <> None.

(** The home position. *)
Definition home (w : World) : option Py.float * option Py.float :=
  (home_lat (self w), home_lon (self w)).

(** No vehicle is attached and the guard is set. *)
Definition locked_out (w : World) : Prop :=
  vehicle (self w) = None /\ emergency_triggered (self w) = true.

(** The limits and switches a monitor is built with. *)
Definition settings (m : SafetyMonitor)
  : Py.float * Py.float * Py.float * Py.float * bool * Py.float * bool :=
  (max_altitude m, max_distance m, min_battery m, max_tilt_angle m,
   geofence_enabled m, geofence_radius m, monitoring m).

(** A vehicle is attached and the guard is clear. *)
Definition ready (w : World) : Prop :=
  vehicle (self w) <> None /\ emergency_triggered (self w) = false.

Definition sets_home (c : call) : bool :=
  match c with Call_set_home_position => true | _ => false end.

Definition with_attitude (p r : Py.float) (v : Vehicle) : Vehicle :=
  {| lat := lat v; lon := lon v; alt := alt v;
     battery_level := battery_level v;
     pitch := p; roll := r; mode := mode v |}.

Definition with_telemetry (v : Vehicle) (w : World) : World :=
  on_self (set_vehicle (Some v)) w.

Section Sessions.
Context {P : Platform}.

Definition perform (c : call) : M unit :=
  match c with
  | Call_set_home_position => set_home_position
  | Call_check_altitude => discard check_altitude
  | Call_check_battery => discard check_battery
  | Call_check_tilt => discard check_tilt
  | Call_check_geofence => discard check_geofence
  | Call_is_safe => discard is_safe
  | Call_handle_emergency => handle_emergency
  | Call_return_to_home => return_to_home
  | Call_emergency_land => emergency_land
  | Call_descend_to_safe_altitude => descend_to_safe_altitude
  | Call_log_warning message => log_warning message
  | Call_get_safety_status => discard get_safety_status
  | Call_save_log filename => save_log filename
  | Call_monitor_tick => monitor_tick
  end.

(** One call after the other.  A call that raises leaves the world it had
    reached; the client goes on from there. *)
Fixpoint session (calls : list call) (w : World) : World :=
  match calls with
  | [] => w
  | c :: rest => session rest (snd (perform c w))
  end.

(** The log has only grown: the entries after are the entries before
    followed by new ones, stamped with the clock readings taken since, each
    of them printed as a warning. *)
Definition log_extended (w w' : World) : Prop :=
  exists messages,
    safety_log (self w') =
      (safety_log (self w) ++ stamped (clock_reads w) messages)%list /\
    warnings (stdout w') =
      (warnings (stdout w) ++
       map PrintWarning (stamped (clock_reads w) messages))%list /\
    clock_reads w' = List.length messages + clock_reads w.

(** [check_geofence] returns [True] on the snapshot. *)
Definition geofence_passes (m : SafetyMonitor) (v : Vehicle) : Prop :=
  match geofence_distance m v with
  | None => True
  | Some (inl _) => False
  | Some (inr d) => Py.fgt d (geofence_radius m) = false
  end.

(** The distance from home can be computed wherever the code computes
    it. *)
Definition distance_computable (m : SafetyMonitor) (v : Vehicle) : Prop :=
  forall la lo, home_lat m = Some la -> home_lon m = Some lo ->
                exists d, calculate_distance la lo (lat v) (lon v) = inr d.

(** The verdict of [is_safe] on a snapshot whose checks all return, and
    the message it logs: that of the first check that fails, in the order
    altitude, battery, tilt, geofence. *)
Definition first_failure (m : SafetyMonitor) (v : Vehicle) : list string :=
  firstn 1 (failure_messages m v).

Definition no_failure (m : SafetyMonitor) (v : Vehicle) : bool :=
  match failure_messages m v with [] => true | _ => false end.


(** The passes of the loop while nothing else happens: the telemetry
    stays as it is and nobody stops the monitor. *)
Definition undisturbed (passes : nat) : list (World -> World) :=
  repeat (fun w => w) passes.

Fixpoint repeated (passes : nat) (messages : list string) : list string :=
  match passes with
  | O => []
  | S n => (messages ++ repeated n messages)%list
  end.

End Sessions.

(** A vehicle tilted by 2 rad in pitch, everything else inside its limit,
    at its home. *)
Definition tilted_vehicle : Vehicle :=
  Scenario.with_pitch Py.f2 Scenario.MockVehicle.

Definition tilted : World :=
  on_self (set_home (Some Scenario.f13_7563) (Some Scenario.f100_5018))
          (Scenario.world (Some tilted_vehicle)).

(** A vehicle one degree north-east of its home, 12 m up. *)
Definition strayed_vehicle : Vehicle :=
  Scenario.with_alt f12
    (Scenario.with_position f14_7563 f101_5018 Scenario.MockVehicle).

Definition strayed : World :=
  on_self (set_home (Some Scenario.f13_7563) (Some Scenario.f100_5018))
          (Scenario.world (Some strayed_vehicle)).

(** A vehicle whose sensors all report NaN. *)
Definition blind_vehicle : Vehicle := {|
  lat := S754_nan; lon := S754_nan; alt := S754_nan;
  battery_level := S754_nan; pitch := S754_nan; roll := S754_nan;
  mode := "GUIDED"
|}.

Definition blind : World := Scenario.world (Some blind_vehicle).

(** The same vehicle, pitched by 2 rad as well. *)
Definition tumbling_vehicle : Vehicle :=
  Scenario.with_pitch Py.f2 strayed_vehicle.

Definition tumbling : World :=
  on_self (set_home (Some Scenario.f13_7563) (Some Scenario.f100_5018))
          (Scenario.world (Some tumbling_vehicle)).

(** The distance of the strayed vehicle from its home, as the bench's C
    library gives it (some 157 km). *)
Definition strayed_distance : Py.float :=
  Eval vm_compute in
    match calculate_distance (P := Scenario.bench)
            Scenario.f13_7563 Scenario.f100_5018 f14_7563 f101_5018 with
    | inr d => d
    | inl _ => Py.f0
    end.

(** The bench with a vehicle that refuses RTL and accepts every other
    mode. *)
Definition no_return : Platform := {|
  platform_libm := Scenario.small_angle_libm;
  now := fun n => {| year := 2024; month := 5; day := 17;
                     hour := 12; minute := 0; second := n |};
  format_1f := fun _ => "#";
  format_str := fun _ => "#";
  mode_write_ok := fun _ m => negb (String.eqb m "RTL")
|}.

(** Too high, and the battery low as well. *)
Definition high_and_low : World :=
  on_self (set_home (Some Scenario.f13_7563) (Some Scenario.f100_5018))
          (Scenario.world
             (Some (Scenario.with_alt f12 low_battery_vehicle))).

(* ===================================================================== *)
(** * Comparisons of binary64 values *)
(* ===================================================================== *)

(** The arithmetic computes: [10 * 0.8] is [8.0] (the target of
    [descend_to_safe_altitude] in the self-test configuration), the square
    root of one is one, and [math.degrees(0.1)] is [5.729577951308233]. *)
Example ten_times_0_8 : Py.fmul Scenario.f10 Py.f0_8 = f8.
Proof. reflexivity. Qed.

Example sqrt_of_one : Py.fsqrt Py.f1 = Py.f1.
Proof. reflexivity. Qed.

Example degrees_of_0_1 :
  Py.degrees Scenario.f0_1 = S754_finite false 6450931281625492 (-50).
Proof. reflexivity. Qed.

Lemma SFcompare_antisym (a b : spec_float) :
  SFcompare b a = option_map CompOpp (SFcompare a b).
Proof.
  destruct a as [sa|sa| |sa ma ea], b as [sb|sb| |sb mb eb]; simpl;
    try reflexivity;
    try (destruct sa; reflexivity);
    try (destruct sb; reflexivity);
    try (destruct sa, sb; reflexivity).
  destruct sa, sb; simpl; try reflexivity;
    rewrite (Z.compare_antisym ea eb);
    destruct (ea ?= eb)%Z; simpl; try reflexivity;
    change (Pos.compare_cont Eq mb ma) with (mb ?= ma)%positive;
    change (Pos.compare_cont Eq ma mb) with (ma ?= mb)%positive;
    rewrite (Pos.compare_antisym ma mb);
    destruct (ma ?= mb)%positive; reflexivity.
Qed.

Lemma fle_not_fgt (a b : Py.float) : Py.fle a b = true -> Py.fgt a b = false.
Proof.
  unfold Py.fle, Py.fgt, SFleb.
  destruct (SFcompare a b) as [[ | | ]|]; congruence.
Qed.

Lemma fle_not_flt (a b : Py.float) : Py.fle b a = true -> Py.flt a b = false.
Proof.
  unfold Py.fle, Py.flt, SFleb, SFltb.
  rewrite (SFcompare_antisym b a).
  destruct (SFcompare b a) as [[ | | ]|]; simpl; congruence.
Qed.

(* ===================================================================== *)
(** * The four checks *)
(* ===================================================================== *)

Section Checks.
Context {P : Platform}.

Lemma log_warning_eq message w :
  log_warning message w = (Return tt, logged message w).
Proof. reflexivity. Qed.

Lemma logged_self message w :
  self (logged message w) =
  set_safety_log
    (safety_log (self w) ++ [entry_text (now (clock_reads w)) message])%list
    (self w).
Proof. reflexivity. Qed.

Lemma check_altitude_eq w v :
  vehicle (self w) = Some v ->
  check_altitude w =
  if altitude_exceeded (self w) v
  then (Return false,
        logged (altitude_message (self w) v) w)
  else (Return true, w).
Proof.
  intros Hv. unfold check_altitude, altitude_exceeded, bind, gets.
  rewrite Hv. destruct (Py.fgt _ _); reflexivity.
Qed.

Lemma check_battery_eq w v :
  vehicle (self w) = Some v ->
  check_battery w =
  if battery_low (self w) v
  then (Return false,
        logged (battery_message (self w) v) w)
  else (Return true, w).
Proof.
  intros Hv. unfold check_battery, battery_low, bind, gets.
  rewrite Hv. destruct (Py.flt _ _); reflexivity.
Qed.

Lemma check_tilt_eq w v :
  vehicle (self w) = Some v ->
  check_tilt w =
  if tilt_excessive (self w) v
  then (Return false,
        logged (tilt_message v) w)
  else (Return true, w).
Proof.
  intros Hv. unfold check_tilt, tilt_excessive, bind, gets.
  rewrite Hv. destruct (_ || _); reflexivity.
Qed.

Lemma check_geofence_eq w v :
  vehicle (self w) = Some v ->
  check_geofence w =
  match geofence_distance (self w) v with
  | None => (Return true, w)
  | Some (inl e) => (Raise e, w)
  | Some (inr d) =>
      if Py.fgt d (geofence_radius (self w))
      then (Return false,
            logged (geofence_message (self w) d) w)
      else (Return true, w)
  end.
Proof.
  intros Hv. unfold check_geofence, geofence_distance, bind, gets.
  rewrite Hv. destruct (geofence_enabled (self w)); simpl; [|reflexivity].
  destruct (home_lat (self w)) as [la|]; [|reflexivity].
  destruct (home_lon (self w)) as [lo|]; [|reflexivity].
  destruct (calculate_distance la lo (lat v) (lon v)) as [e|d]; simpl;
    [reflexivity|].
  destruct (Py.fgt _ _); reflexivity.
Qed.

End Checks.

(* ===================================================================== *)
(** * The aggregate check *)
(* ===================================================================== *)

Section Aggregate.
Context {P : Platform}.

Lemma within_limits_geofence m v :
  within_limits m v ->
  match geofence_distance m v with
  | None => True
  | Some r => exists d, r = inr d /\ Py.fgt d (geofence_radius m) = false
  end.
Proof.
  intros (_ & _ & _ & _ & Hg). unfold geofence_distance.
  destruct (geofence_enabled m); [|exact I].
  destruct Hg as [Hg|[Hg|[Hg|(la & lo & d & Hla & Hlo & Hd & Hle)]]].
  - discriminate.
  - rewrite Hg. exact I.
  - rewrite Hg. destruct (home_lat m); exact I.
  - rewrite Hla, Hlo. exists d. split; [exact Hd|].
    apply fle_not_fgt, Hle.
Qed.

(** C5. [is_safe()] returns true whenever no vehicle is attached; and with
    a vehicle attached whose snapshot is inside every limit (altitude at
    most [max_altitude], battery at least [min_battery], pitch and roll in
    degrees at most [max_tilt_angle] in absolute value, distance from home
    at most [geofence_radius] or geofence disabled or home unset), it
    returns true and leaves the world as it was: no entry is appended to
    the log and nothing is printed. *)
Theorem is_safe_within_limits (w : World) :
  (vehicle (self w) = None -> is_safe w = (Return true, w)) /\
  (forall v, vehicle (self w) = Some v -> within_limits (self w) v ->
             is_safe w = (Return true, w) /\
             safety_log (self (snd (is_safe w))) = safety_log (self w)).
Proof.
  split.
  - intros Hv. unfold is_safe, bind, gets. rewrite Hv. reflexivity.
  - intros v Hv Hl.
    assert (Hsafe : is_safe w = (Return true, w)).
    { pose proof (within_limits_geofence Hl) as Hg.
      destruct Hl as (Ha & Hb & Hp & Hr & _).
      unfold is_safe, and_then, bind at 1, gets at 1. rewrite Hv.
      unfold bind at 1. rewrite (check_altitude_eq w Hv).
      unfold altitude_exceeded. rewrite (fle_not_fgt _ _ Ha).
      unfold bind at 1. rewrite (check_battery_eq w Hv).
      unfold battery_low. rewrite (fle_not_flt _ _ Hb).
      unfold bind at 1. rewrite (check_tilt_eq w Hv).
      unfold tilt_excessive.
      rewrite (fle_not_fgt _ _ Hp), (fle_not_fgt _ _ Hr). simpl.
      rewrite (check_geofence_eq w Hv).
      destruct (geofence_distance (self w) v) as [r|]; [|reflexivity].
      destruct Hg as (d & -> & Hd). rewrite Hd. reflexivity. }
    rewrite Hsafe. split; reflexivity.
Qed.

End Aggregate.

(** The self-test vehicle at its home is inside every limit. *)
Lemma is_safe_within_limits_witness :
  vehicle (self at_home) = Some Scenario.MockVehicle /\
  within_limits (P := Scenario.bench) (self at_home) Scenario.MockVehicle /\
  is_safe (P := Scenario.bench) at_home = (Return true, at_home).
Proof.
  assert (Hv : vehicle (self at_home) = Some Scenario.MockVehicle)
    by reflexivity.
  assert (Hl : within_limits (P := Scenario.bench) (self at_home)
                             Scenario.MockVehicle).
  { unfold within_limits.
    split; [vm_compute; reflexivity|].
    split; [vm_compute; reflexivity|].
    split; [vm_compute; reflexivity|].
    split; [vm_compute; reflexivity|].
    right. right. right.
    exists Scenario.f13_7563, Scenario.f100_5018, Py.f0.
    split; [reflexivity|]. split; [reflexivity|].
    split; vm_compute; reflexivity. }
  split; [exact Hv|]. split; [exact Hl|].
  exact (proj1 (proj2 (is_safe_within_limits at_home) _ Hv Hl)).
Defined.

(* ===================================================================== *)
(** * Setting home, and the status report *)
(* ===================================================================== *)

Section HomeAndStatus.
Context {P : Platform}.

(** C6 (amended). With no vehicle attached, [set_home_position] prints its
    warning and sets the home position to the mock coordinates
    [(0.0, 0.0)]; with a vehicle attached it records the vehicle's current
    latitude and longitude as the home position.  In both cases no other
    field of the monitor changes. *)
Theorem set_home_position_effect (w : World) :
  (vehicle (self w) = None ->
   exists w',
     set_home_position w = (Return tt, w') /\
     self w' = set_home (Some Py.f0) (Some Py.f0) (self w) /\
     stdout w' = (stdout w ++ [PrintMockHome])%list) /\
  (forall v, vehicle (self w) = Some v ->
   exists w',
     set_home_position w = (Return tt, w') /\
     self w' = set_home (Some (lat v)) (Some (lon v)) (self w) /\
     stdout w' = (stdout w ++ [PrintHomeSet (lat v) (lon v)])%list).
Proof.
  split.
  - intros Hv. eexists. unfold set_home_position, bind, gets.
    rewrite Hv. simpl. repeat split.
  - intros v Hv. eexists. unfold set_home_position, bind, gets.
    rewrite Hv. simpl. repeat split.
Qed.

(** The report of a monitor without a vehicle: six fixed entries, among
    them ["tilt"], and neither ["tilt_pitch"], ["tilt_roll"] nor
    ["warnings"]. *)
Lemma get_safety_status_simulation (w : World) :
  vehicle (self w) = None ->
  exists d,
    get_safety_status w = (Return d, w) /\
    keys d = ["safe"; "mode"; "altitude"; "battery"; "tilt";
              "distance_from_home"] /\
    dict_get "warnings" d = None.
Proof.
  intros Hv. eexists. unfold get_safety_status, bind, gets. rewrite Hv.
  repeat split.
Qed.

(** The report of a monitor with a vehicle, whenever [is_safe] and the
    distance computation return: the eight fields, with ["warnings"] the
    length of the log as [is_safe] left it. *)
Lemma get_safety_status_attached (w w' : World) v safe :
  vehicle (self w) = Some v ->
  (truthy (home_lat (self w)) && truthy (home_lon (self w)) = false \/
   exists la lo d,
     home_lat (self w) = Some la /\ home_lon (self w) = Some lo /\
     calculate_distance la lo (lat v) (lon v) = inr d) ->
  is_safe w = (Return safe, w') ->
  exists d,
    get_safety_status w = (Return d, w') /\
    keys d = ["safe"; "mode"; "altitude"; "battery"; "tilt_pitch";
              "tilt_roll"; "distance_from_home"; "warnings"] /\
    dict_get "safe" d = Some (VBool safe) /\
    dict_get "warnings" d =
      Some (VInt (Z.of_nat (List.length (safety_log (self w'))))).
Proof.
  intros Hv Hd Hs. unfold get_safety_status. run. rewrite Hv.
  destruct Hd as [Hd|(la & lo & d & Hla & Hlo & Hd)].
  - rewrite Hd, Hs. eexists. repeat split.
  - rewrite Hla, Hlo.
    destruct (truthy (Some la) && truthy (Some lo));
      run; rewrite ?Hd; run; rewrite Hs; eexists; repeat split.
Qed.

(** C10. With a vehicle attached and a home position whose latitude or
    longitude equals zero, [get_safety_status] reports
    [distance_from_home = 0] whatever the vehicle's position: it returns
    exactly when [is_safe] returns, its report then holds the integer [0]
    under ["distance_from_home"], and [calculate_distance] is not consulted
    for that field. *)
Theorem status_distance_zero_when_home_is_zero (w : World) v la lo :
  vehicle (self w) = Some v ->
  home_lat (self w) = Some la ->
  home_lon (self w) = Some lo ->
  Py.feq la Py.f0 = true \/ Py.feq lo Py.f0 = true ->
  match is_safe w with
  | (Return safe, w') =>
      exists d, get_safety_status w = (Return d, w') /\
                dict_get "distance_from_home" d = Some (VInt 0)
  | (Raise e, w') => get_safety_status w = (Raise e, w')
  end.
Proof.
  intros Hv Hla Hlo Hz.
  assert (Hf : truthy (home_lat (self w)) && truthy (home_lon (self w)) = false).
  { rewrite Hla, Hlo. unfold truthy, Py.float_bool.
    destruct Hz as [-> | ->]; simpl; [reflexivity|].
    apply andb_false_r. }
  unfold get_safety_status. run. rewrite Hv, Hf.
  destruct (is_safe w) as [[safe|e] w'].
  - eexists. split; reflexivity.
  - reflexivity.
Qed.

End HomeAndStatus.

(** C6, at a monitor without a vehicle: the home position, unset before
    the call, is set by it; the call is no no-op. *)
Lemma set_home_position_no_vehicle_counterexample :
  vehicle (self (Scenario.world None)) = None /\
  home_lat (self (Scenario.world None)) = None /\
  home_lat (self (snd (set_home_position (Scenario.world None)))) = Some Py.f0 /\
  self (snd (set_home_position (Scenario.world None))) <>
    self (Scenario.world None).
Proof.
  split; [reflexivity|]. split; [reflexivity|]. split; [reflexivity|].
  intros H. apply (f_equal home_lat) in H. discriminate H.
Qed.

(** Both branches of [set_home_position] on the self-test monitor. *)

Lemma set_home_position_effect_witness :
  vehicle (self (Scenario.world (Some Scenario.MockVehicle))) =
    Some Scenario.MockVehicle /\
  vehicle (self (Scenario.world None)) = None /\
  (exists w', set_home_position (Scenario.world None) = (Return tt, w') /\
              home_lat (self w') = Some Py.f0 /\
              home_lon (self w') = Some Py.f0) /\
  (exists w', set_home_position (Scenario.world (Some Scenario.MockVehicle)) = (Return tt, w') /\
              home_lat (self w') = Some Scenario.f13_7563 /\
              home_lon (self w') = Some Scenario.f100_5018).
Proof.
  split; [reflexivity|]. split; [reflexivity|]. split.
  - destruct (proj1 (set_home_position_effect (Scenario.world None)) eq_refl)
      as (w' & Hrun & Hself & _).
    exists w'. rewrite Hself. repeat split. exact Hrun.
  - destruct (proj2 (set_home_position_effect
                       (Scenario.world (Some Scenario.MockVehicle)))
                    Scenario.MockVehicle eq_refl)
      as (w' & Hrun & Hself & _).
    exists w'. rewrite Hself. repeat split. exact Hrun.
Defined.

(** The home on the equator, the vehicle at 13.7563 degrees north: the
    report says [0]. *)
Lemma status_distance_zero_when_home_is_zero_witness :
  vehicle (self home_on_equator) = Some Scenario.MockVehicle /\
  home_lat (self home_on_equator) = Some Py.f0 /\
  home_lon (self home_on_equator) = Some Scenario.f100_5018 /\
  (exists d w', get_safety_status (P := Scenario.bench) home_on_equator
                = (Return d, w') /\
                dict_get "distance_from_home" d = Some (VInt 0)).
Proof.
  split; [reflexivity|]. split; [reflexivity|]. split; [reflexivity|].
  pose proof (status_distance_zero_when_home_is_zero (P := Scenario.bench)
                home_on_equator (v := Scenario.MockVehicle) (la := Py.f0)
                (lo := Scenario.f100_5018)
                eq_refl eq_refl eq_refl (or_introl eq_refl)) as H.
  destruct (is_safe (P := Scenario.bench) home_on_equator) as [[safe|e] w'] eqn:Hs.
  - destruct H as (d & Hd & Hz). exists d, w'. split; assumption.
  - vm_compute in Hs. discriminate Hs.
Defined.

(** C7, at a monitor without a vehicle that has logged one warning (the
    dashboard's "t" key does this): the report has the six simulation
    fields; ["tilt_pitch"], ["tilt_roll"] and ["warnings"] are missing. *)
Theorem get_safety_status_simulation_fields :
  let w := logged (P := Scenario.bench) "Test warning triggered manually"
                  (Scenario.world None) in
  List.length (safety_log (self w)) = 1 /\
  exists d,
    get_safety_status (P := Scenario.bench) w = (Return d, w) /\
    keys d = ["safe"; "mode"; "altitude"; "battery"; "tilt";
              "distance_from_home"] /\
    dict_get "tilt_pitch" d = None /\
    dict_get "tilt_roll" d = None /\
    dict_get "warnings" d = None.
Proof.
  simpl. split; [reflexivity|]. eexists. repeat split.
Qed.

(* ===================================================================== *)
(** * The emergency dispatcher *)
(* ===================================================================== *)

Section Dispatcher.
Context {P : Platform}.

Lemma commands_app (a b : list stdout_line) :
  commands (a ++ b) = (commands a ++ commands b)%list.
Proof.
  induction a as [|l a IH]; simpl; [reflexivity|].
  destruct (command_of l); simpl; rewrite IH; reflexivity.
Qed.

Lemma logged_commands message (w : World) :
  commands (stdout (logged message w)) = commands (stdout w).
Proof.
  unfold logged, log_warning. run. cbn [snd stdout put_line on_self tick_clock].
  rewrite commands_app. cbn. apply app_nil_r.
Qed.

Lemma handle_emergency_guarded (w : World) :
  emergency_triggered (self w) = true -> handle_emergency w = (Return tt, w).
Proof.
  intros Hg. unfold handle_emergency. run. rewrite Hg. reflexivity.
Qed.

Lemma handle_emergency_phases (w : World) v :
  emergency_triggered (self w) = false ->
  vehicle (self w) = Some v ->
  handle_emergency w = guarded_dispatch (acquire_guard w).
Proof.
  intros Hg Hv. unfold handle_emergency. run. rewrite Hg. cbn.
  rewrite Hv. reflexivity.
Qed.

Lemma return_to_home_eq (w : World) v :
  vehicle (self w) = Some v ->
  return_to_home w =
  if mode_write_ok v "RTL"
  then (Return tt, on_self (set_vehicle (Some (with_mode "RTL" v)))
                           (put_line PrintReturningHome w))
  else (Raise Py.VehicleError, put_line PrintReturningHome w).
Proof.
  intros Hv. unfold return_to_home, write_mode. run. rewrite Hv.
  destruct (mode_write_ok v "RTL"); reflexivity.
Qed.

Lemma emergency_land_eq (w : World) v :
  vehicle (self w) = Some v ->
  emergency_land w =
  if mode_write_ok v "LAND"
  then (Return tt, on_self (set_vehicle (Some (with_mode "LAND" v)))
                           (put_line PrintEmergencyLanding w))
  else (Raise Py.VehicleError, put_line PrintEmergencyLanding w).
Proof.
  intros Hv. unfold emergency_land, write_mode. run. rewrite Hv.
  destruct (mode_write_ok v "LAND"); reflexivity.
Qed.

Lemma descend_to_safe_altitude_eq (w : World) v :
  vehicle (self w) = Some v ->
  descend_to_safe_altitude w =
  (Return tt,
   put_line (PrintDescending (Py.fmul (max_altitude (self w)) Py.f0_8)) w).
Proof.
  intros Hv. unfold descend_to_safe_altitude. run. rewrite Hv. reflexivity.
Qed.

(** The cascade of [dispatch], branch by branch. *)
Lemma dispatch_eq (w : World) v :
  vehicle (self w) = Some v ->
  dispatch w =
  if battery_low (self w) v then
    return_to_home (put_line PrintLowBattery (snd (check_battery w)))
  else if tilt_excessive (self w) v then
    emergency_land (put_line PrintExcessiveTilt (snd (check_tilt w)))
  else
    match check_geofence w with
    | (Raise e, w') => (Raise e, w')
    | (Return false, w') =>
        return_to_home (put_line PrintGeofenceBreach w')
    | (Return true, _) =>
        if altitude_exceeded (self w) v then
          descend_to_safe_altitude
            (put_line PrintAltitudeLimit (snd (check_altitude w)))
        else (Return tt, w)
    end.
Proof.
  intros Hv. unfold dispatch. run.
  rewrite (check_battery_eq w Hv).
  destruct (battery_low (self w) v); [reflexivity|].
  cbn [negb]. rewrite (check_tilt_eq w Hv).
  destruct (tilt_excessive (self w) v); [reflexivity|].
  cbn [negb]. rewrite (check_geofence_eq w Hv).
  destruct (geofence_distance (self w) v) as [[e|d]|]; try reflexivity.
  - destruct (Py.fgt d (geofence_radius (self w))); [reflexivity|].
    cbn [negb]. rewrite (check_altitude_eq w Hv).
    destruct (altitude_exceeded (self w) v); reflexivity.
  - cbn [negb]. rewrite (check_altitude_eq w Hv).
    destruct (altitude_exceeded (self w) v); reflexivity.
Qed.

End Dispatcher.

Section Frames.
Context {X : Type} (part : World -> X).

Lemma frames_ret {A} (a : A) : frames part (ret a).
Proof. intros w. reflexivity. Qed.

Lemma frames_raise {A} (e : Py.exn) : frames part (@raise A e).
Proof. intros w. reflexivity. Qed.

Lemma frames_gets {A} (f : World -> A) : frames part (gets f).
Proof. intros w. reflexivity. Qed.

Lemma frames_lift {A} (r : Py.exn + A) : frames part (lift r).
Proof. intros w. destruct r; reflexivity. Qed.

Lemma frames_modify (f : World -> World) :
  (forall w, part (f w) = part w) -> frames part (modify f).
Proof. intros H w. apply H. Qed.

Lemma frames_bind {A B} (m : M A) (k : A -> M B) :
  frames part m -> (forall a, frames part (k a)) -> frames part (bind m k).
Proof.
  intros Hm Hk w. unfold bind. specialize (Hm w).
  destruct (m w) as [[a|e] w']; cbn [snd] in *.
  - rewrite (Hk a w'). exact Hm.
  - exact Hm.
Qed.

Lemma frames_try_except {A} (body : M A) (handler : Py.exn -> M A) :
  frames part body -> (forall e, frames part (handler e)) ->
  frames part (try_except body handler).
Proof.
  intros Hb Hh w. unfold try_except. specialize (Hb w).
  destruct (body w) as [[a|e] w']; cbn [snd] in *.
  - exact Hb.
  - rewrite (Hh e w'). exact Hb.
Qed.

End Frames.

(** Splits a method into its steps and shows that each step leaves the
    part of the world at hand alone. *)
Ltac frame_with known :=
  repeat first
    [ known
    | apply frames_ret | apply frames_raise | apply frames_gets
    | apply frames_lift
    | apply frames_modify; intros ?; reflexivity
    | apply frames_bind; [|intros ?]
    | apply frames_try_except; [|intros ?]
    | match goal with
      | |- frames _ (if ?b then _ else _) => destruct b
      | |- frames _ (match ?x with _ => _ end) => destruct x
      end ].

Ltac frame := frame_with fail.

Section DispatcherProperties.
Context {P : Platform}.

(** The dispatch and its [except] clause never touch the guard. *)
Lemma dispatch_keeps_guard :
  frames (fun w => emergency_triggered (self w))
         (try_except dispatch on_failure).
Proof.
  unfold dispatch, on_failure, check_battery, check_tilt, check_geofence,
    check_altitude, return_to_home, emergency_land,
    descend_to_safe_altitude, write_mode, log_warning, print.
  frame.
Qed.

(** Nor the home position. *)
Lemma dispatch_keeps_home :
  frames (fun w => (home_lat (self w), home_lon (self w)))
         (try_except dispatch on_failure).
Proof.
  unfold dispatch, on_failure, check_battery, check_tilt, check_geofence,
    check_altitude, return_to_home, emergency_land,
    descend_to_safe_altitude, write_mode, log_warning, print.
  frame.
Qed.

(** Counts the commands among the lines a run has printed. *)
Ltac tally :=
  repeat progress
    (cbn [stdout release_guard on_self put_line acquire_guard];
     rewrite ?commands_app, ?logged_commands;
     cbn [commands command_of app];
     rewrite ?app_nil_r).

(** C2 (amended). In every dispatch that finds the guard clear and a
    vehicle attached, when both the battery check and the tilt check fail,
    battery takes priority whether or not the home position is set: once
    the vehicle accepts the mode, exactly one command is issued, "return to
    launch" (mode RTL), and never "emergency land". *)
Theorem battery_takes_priority_over_tilt (w : World) v :
  vehicle (self w) = Some v ->
  emergency_triggered (self w) = false ->
  battery_low (self w) v = true ->
  tilt_excessive (self w) v = true ->
  mode_write_ok v "RTL" = true ->
  exists w',
    handle_emergency w = (Return tt, w') /\
    vehicle (self w') = Some (with_mode "RTL" v) /\
    commands (stdout w') = (commands (stdout w) ++ [ReturnToLaunch])%list /\
    home_lat (self w') = home_lat (self w) /\
    home_lon (self w') = home_lon (self w).
Proof.
  intros Hv Hg Hb _ Hok. eexists.
  rewrite (handle_emergency_phases w Hg Hv).
  unfold guarded_dispatch. run.
  rewrite (dispatch_eq (acquire_guard w) (v := v) Hv).
  change (battery_low (self (acquire_guard w)) v) with (battery_low (self w) v).
  rewrite Hb.
  rewrite (check_battery_eq (acquire_guard w) (v := v) Hv).
  change (battery_low (self (acquire_guard w)) v) with (battery_low (self w) v).
  rewrite Hb. cbn [snd].
  erewrite return_to_home_eq by (cbn; exact Hv).
  rewrite Hok. split; [reflexivity|]. split; [reflexivity|].
  split; [|split; reflexivity]. tally. reflexivity.
Qed.

(** X26. When the battery is low and the vehicle refuses RTL and accepts
    LAND, the [except] clause takes over: [handle_emergency] returns, the
    fallback landing is commanded after the refused command, and the
    vehicle is in mode LAND. *)
Lemma refused_return_falls_back_to_landing (w : World) v :
  vehicle (self w) = Some v ->
  emergency_triggered (self w) = false ->
  battery_low (self w) v = true ->
  mode_write_ok v "RTL" = false ->
  mode_write_ok v "LAND" = true ->
  exists w',
    handle_emergency w = (Return tt, w') /\
    vehicle (self w') = Some (with_mode "LAND" v) /\
    commands (stdout w') =
      (commands (stdout w) ++ [ReturnToLaunch; EmergencyLand])%list.
Proof.
  intros Hv Hg Hb Hrtl Hland. eexists.
  rewrite (handle_emergency_phases w Hg Hv).
  unfold guarded_dispatch. run.
  rewrite (dispatch_eq (acquire_guard w) (v := v) Hv).
  change (battery_low (self (acquire_guard w)) v) with (battery_low (self w) v).
  rewrite Hb.
  rewrite (check_battery_eq (acquire_guard w) (v := v) Hv).
  change (battery_low (self (acquire_guard w)) v) with (battery_low (self w) v).
  rewrite Hb. cbn [snd].
  erewrite return_to_home_eq by (cbn; exact Hv).
  rewrite Hrtl. unfold on_failure. run. cbn [put_line].
  erewrite emergency_land_eq by (cbn; exact Hv).
  rewrite Hland. split; [reflexivity|]. split; [reflexivity|].
  tally. rewrite <- !app_assoc. reflexivity.
Qed.

(** C3 (amended). Every call of [handle_emergency] that finds the guard
    clear and a vehicle attached leaves [emergency_triggered] false,
    whether the dispatch succeeds, an exception is caught and the fallback
    landing is commanded, or the fallback itself raises; a call that finds
    the guard set leaves it set. *)
Theorem guard_released_after_dispatch (w : World) :
  (emergency_triggered (self w) = false ->
   vehicle (self w) <> None ->
   emergency_triggered (self (snd (handle_emergency w))) = false) /\
  (emergency_triggered (self w) = true ->
   emergency_triggered (self (snd (handle_emergency w))) = true).
Proof.
  split.
  - intros Hg Hv. destruct (vehicle (self w)) as [v|] eqn:Ev; [|congruence].
    rewrite (handle_emergency_phases w Hg Ev).
    unfold guarded_dispatch, try_finally.
    destruct (try_except dispatch on_failure (acquire_guard w)) as [r w'].
    reflexivity.
  - intros Hg. rewrite (handle_emergency_guarded w Hg). exact Hg.
Qed.

Lemma descend_branch_one_command (w : World) v :
  vehicle (self w) = Some v ->
  altitude_exceeded (self w) v = true ->
  exists w',
    descend_to_safe_altitude
      (put_line PrintAltitudeLimit (snd (check_altitude w))) = (Return tt, w') /\
    commands (stdout w') =
      (commands (stdout w) ++
       [Descend (Py.fmul (max_altitude (self w)) Py.f0_8)])%list.
Proof.
  intros Hv Ea. rewrite (check_altitude_eq w Hv), Ea. cbn [snd].
  erewrite descend_to_safe_altitude_eq by (cbn; exact Hv).
  eexists. split; [reflexivity|]. tally. reflexivity.
Qed.

(** With a vehicle attached that accepts its modes, a dispatch on a
    snapshot with a failing check issues exactly one command. *)
Lemma guarded_dispatch_one_command (w : World) v :
  vehicle (self w) = Some v ->
  some_check_fails (self w) v ->
  (forall m, mode_write_ok v m = true) ->
  exists c w',
    guarded_dispatch w = (Return tt, w') /\
    commands (stdout w') = (commands (stdout w) ++ [c])%list.
Proof.
  intros Hv Hfail Hok. unfold guarded_dispatch. run.
  rewrite (dispatch_eq w Hv).
  destruct (battery_low (self w) v) eqn:Eb.
  { rewrite (check_battery_eq w Hv), Eb. cbn [snd].
    erewrite return_to_home_eq by (cbn; exact Hv). rewrite Hok.
    exists ReturnToLaunch. eexists. split; [reflexivity|].
    tally. reflexivity. }
  destruct (tilt_excessive (self w) v) eqn:Et.
  { rewrite (check_tilt_eq w Hv), Et. cbn [snd].
    erewrite emergency_land_eq by (cbn; exact Hv). rewrite Hok.
    exists EmergencyLand. eexists. split; [reflexivity|].
    tally. reflexivity. }
  rewrite (check_geofence_eq w Hv).
  destruct (geofence_distance (self w) v) as [[e|d]|] eqn:Eg.
  - unfold on_failure. run. cbn [put_line].
    erewrite emergency_land_eq by (cbn; exact Hv). rewrite Hok.
    exists EmergencyLand. eexists. split; [reflexivity|].
    tally. reflexivity.
  - destruct (Py.fgt d (geofence_radius (self w))) eqn:Ed.
    + erewrite return_to_home_eq by (cbn; exact Hv). rewrite Hok.
      exists ReturnToLaunch. eexists. split; [reflexivity|].
      tally. reflexivity.
    + assert (Ea : altitude_exceeded (self w) v = true).
      { destruct Hfail as [Ha|[Hb|[Ht|(d' & Hd' & Hgt)]]];
          [exact Ha|congruence|congruence|].
        assert (d' = d) by congruence. subst d'. congruence. }
      rewrite Ea.
      destruct (descend_branch_one_command w Hv Ea) as (w' & -> & Hc).
      eexists. eexists. split; [reflexivity|]. tally. exact Hc.
  - assert (Ea : altitude_exceeded (self w) v = true).
    { destruct Hfail as [Ha|[Hb|[Ht|(d' & Hd' & Hgt)]]];
        [exact Ha|congruence|congruence|congruence]. }
    rewrite Ea.
    destruct (descend_branch_one_command w Hv Ea) as (w' & -> & Hc).
    eexists. eexists. split; [reflexivity|]. tally. exact Hc.
Qed.

(** C4. A call of [handle_emergency] that finds the guard set is a no-op:
    it returns with the world as it was, so no command is issued and no
    state changes.  Hence two overlapping requests, the second arriving
    while the first holds the guard (right after the first has taken it, or
    right before the first releases it), do what one request does; when a
    check fails and the vehicle accepts its modes, that is exactly one
    command. *)
Theorem guard_makes_second_request_a_noop (w : World) :
  (emergency_triggered (self w) = true ->
   handle_emergency w = (Return tt, w)) /\
  (forall v,
     emergency_triggered (self w) = false ->
     vehicle (self w) = Some v ->
     handle_emergency (acquire_guard w) = (Return tt, acquire_guard w) /\
     overlapped w = handle_emergency w /\
     overlapped_late w = handle_emergency w /\
     (some_check_fails (self w) v ->
      (forall m, mode_write_ok v m = true) ->
      exists c w',
        overlapped w = (Return tt, w') /\
        commands (stdout w') = (commands (stdout w) ++ [c])%list)).
Proof.
  split; [apply handle_emergency_guarded|].
  intros v Hg Hv.
  assert (Hnoop : handle_emergency (acquire_guard w)
                  = (Return tt, acquire_guard w))
    by (apply handle_emergency_guarded; reflexivity).
  assert (Hsame : overlapped w = handle_emergency w).
  { unfold overlapped. rewrite Hnoop.
    rewrite (handle_emergency_phases w Hg Hv). reflexivity. }
  assert (Hlate : overlapped_late w = handle_emergency w).
  { unfold overlapped_late. rewrite (handle_emergency_phases w Hg Hv).
    unfold guarded_dispatch, try_finally.
    pose proof (dispatch_keeps_guard (acquire_guard w)) as Hkeep.
    destruct (try_except dispatch on_failure (acquire_guard w)) as [r w1].
    cbn [snd] in Hkeep.
    rewrite (handle_emergency_guarded w1 Hkeep). reflexivity. }
  split; [exact Hnoop|]. split; [exact Hsame|]. split; [exact Hlate|].
  intros Hfail Hok. unfold overlapped. rewrite Hnoop. cbn [snd].
  destruct (guarded_dispatch_one_command (acquire_guard w) (v := v)
              Hv Hfail Hok) as (c & w' & Hrun & Hc).
  exists c, w'. split; [exact Hrun|].
  rewrite Hc. tally. reflexivity.
Qed.

End DispatcherProperties.

(* ===================================================================== *)
(** * The monitoring loop *)
(* ===================================================================== *)

Section Loop.
Context {P : Platform}.

Lemma set_safety_log_same (m : SafetyMonitor) :
  set_safety_log (safety_log m) m = m.
Proof. destruct m; reflexivity. Qed.

Lemma only_logged_nil (w : World) : only_logged [] w w.
Proof.
  unfold only_logged. cbn [stamped map List.length Nat.add].
  rewrite !app_nil_r, set_safety_log_same. repeat split.
Qed.

Lemma only_logged_one message (w : World) :
  only_logged [message] w (logged message w).
Proof. repeat split. Qed.

Lemma stamped_app n a b :
  stamped n (a ++ b) = (stamped n a ++ stamped (List.length a + n) b)%list.
Proof.
  revert n. induction a as [|x a IH]; intros n; [reflexivity|].
  cbn [stamped app List.length]. rewrite IH.
  replace (List.length a + S n) with (S (List.length a) + n) by lia.
  reflexivity.
Qed.

Lemma only_logged_trans a b (w1 w2 w3 : World) :
  only_logged a w1 w2 -> only_logged b w2 w3 ->
  only_logged (a ++ b) w1 w3.
Proof.
  intros (Hs1 & Ho1 & Hc1 & Hf1) (Hs2 & Ho2 & Hc2 & Hf2).
  unfold only_logged.
  rewrite Hs2, Ho2, Hc2, Hf2, Hs1, Ho1, Hc1, Hf1, stamped_app.
  rewrite map_app, !app_assoc, length_app.
  repeat split. lia.
Qed.

Lemma check_altitude_logs (w : World) v :
  vehicle (self w) = Some v ->
  exists w', check_altitude w = (Return (negb (altitude_exceeded (self w) v)), w') /\
             only_logged (altitude_failure (self w) v) w w'.
Proof.
  intros Hv. rewrite (check_altitude_eq w Hv). unfold altitude_failure.
  destruct (altitude_exceeded (self w) v); eexists; (split; [reflexivity|]);
    [apply only_logged_one|apply only_logged_nil].
Qed.

Lemma check_battery_logs (w : World) v :
  vehicle (self w) = Some v ->
  exists w', check_battery w = (Return (negb (battery_low (self w) v)), w') /\
             only_logged (battery_failure (self w) v) w w'.
Proof.
  intros Hv. rewrite (check_battery_eq w Hv). unfold battery_failure.
  destruct (battery_low (self w) v); eexists; (split; [reflexivity|]);
    [apply only_logged_one|apply only_logged_nil].
Qed.

Lemma check_tilt_logs (w : World) v :
  vehicle (self w) = Some v ->
  exists w', check_tilt w = (Return (negb (tilt_excessive (self w) v)), w') /\
             only_logged (tilt_failure (self w) v) w w'.
Proof.
  intros Hv. rewrite (check_tilt_eq w Hv). unfold tilt_failure.
  destruct (tilt_excessive (self w) v); eexists; (split; [reflexivity|]);
    [apply only_logged_one|apply only_logged_nil].
Qed.

Lemma check_geofence_logs (w : World) v :
  vehicle (self w) = Some v ->
  (forall e, geofence_distance (self w) v <> Some (inl e)) ->
  exists b w', check_geofence w = (Return b, w') /\
               only_logged (geofence_failure (self w) v) w w'.
Proof.
  intros Hv Hgeo. rewrite (check_geofence_eq w Hv). unfold geofence_failure.
  destruct (geofence_distance (self w) v) as [[e|d]|].
  - exfalso. exact (Hgeo e eq_refl).
  - destruct (Py.fgt d (geofence_radius (self w))); eexists; eexists;
      (split; [reflexivity|]); [apply only_logged_one|apply only_logged_nil].
  - eexists. eexists. split; [reflexivity|]. apply only_logged_nil.
Qed.

(** The loop runs a tick, then sleeps, for as long as [monitoring] is set. *)
Lemma monitor_loop_unfold env rest (w : World) :
  _monitor_loop (env :: rest) w =
  if monitoring (self w)
  then (monitor_tick ;; modify env ;; _monitor_loop rest) w
  else (Return tt, w).
Proof.
  cbn [_monitor_loop]. run. destruct (monitoring (self w)); reflexivity.
Qed.

(** With a vehicle attached and a geofence distance that can be computed,
    a tick returns, and all it has done is log the failing checks, in the
    order altitude, battery, tilt, geofence. *)
Lemma monitor_tick_logs_failures (w : World) v :
  vehicle (self w) = Some v ->
  (forall e, geofence_distance (self w) v <> Some (inl e)) ->
  exists w', monitor_tick w = (Return tt, w') /\
             only_logged (failure_messages (self w) v) w w'.
Proof.
  intros Hv Hgeo. unfold monitor_tick, failure_messages. run. rewrite Hv.
  destruct (check_altitude_logs w Hv) as (w1 & E1 & L1). rewrite E1.
  assert (S1 : self w1 = set_safety_log (safety_log (self w1)) (self w))
    by (destruct L1 as (-> & _); reflexivity).
  assert (Hv1 : vehicle (self w1) = Some v) by (rewrite S1; exact Hv).
  destruct (check_battery_logs w1 Hv1) as (w2 & E2 & L2). rewrite E2.
  assert (S2 : self w2 = set_safety_log (safety_log (self w2)) (self w))
    by (destruct L2 as (-> & _); rewrite S1; reflexivity).
  assert (Hv2 : vehicle (self w2) = Some v) by (rewrite S2; exact Hv).
  destruct (check_tilt_logs w2 Hv2) as (w3 & E3 & L3). rewrite E3.
  assert (S3 : self w3 = set_safety_log (safety_log (self w3)) (self w))
    by (destruct L3 as (-> & _); rewrite S2; reflexivity).
  assert (Hv3 : vehicle (self w3) = Some v) by (rewrite S3; exact Hv).
  assert (Hgeo3 : forall e, geofence_distance (self w3) v <> Some (inl e))
    by (rewrite S3; exact Hgeo).
  destruct (check_geofence_logs w3 Hv3 Hgeo3) as (b & w4 & E4 & L4).
  rewrite E4. exists w4. split; [reflexivity|].
  rewrite S1 in L2. rewrite S2 in L3. rewrite S3 in L4.
  exact (only_logged_trans L1 (only_logged_trans L2 (only_logged_trans L3 L4))).
Qed.

Lemma log_warning_only_warns message :
  frames (fun w => (vehicle (self w), emergency_triggered (self w),
                    other_lines (stdout w)))
         (log_warning message).
Proof.
  intros w. unfold log_warning. run. cbn [snd self on_self put_line stdout
    tick_clock vehicle emergency_triggered set_safety_log].
  unfold other_lines. rewrite filter_app. cbn [filter is_warning negb].
  rewrite app_nil_r. reflexivity.
Qed.

(** X25. A tick never dispatches: in every world it leaves the vehicle
    (hence its mode) and the guard as they were, and prints nothing but
    warnings: no command is issued and the emergency protocol is not
    activated, whatever the checks found. *)
Lemma monitor_tick_never_dispatches :
  frames (fun w => (vehicle (self w), emergency_triggered (self w),
                    other_lines (stdout w)))
         monitor_tick.
Proof.
  unfold monitor_tick, check_altitude, check_battery, check_tilt,
    check_geofence.
  frame_with ltac:(apply log_warning_only_warns).
Qed.

End Loop.

(* ===================================================================== *)
(** * The dispatcher and the loop on the bench *)
(* ===================================================================== *)

(** C1, at a tick with the battery below its floor: the tick logs the
    failure and returns; the mode is still GUIDED, no command was issued
    and the emergency protocol was not activated, and the same holds of the
    loop run for one pass.  The tick of the specification, on the same
    world, commands "return to launch". *)
Theorem monitor_tick_skips_dispatch :
  battery_low (self low_battery) low_battery_vehicle = true /\
  (exists w',
     monitor_tick (P := Scenario.bench) low_battery = (Return tt, w') /\
     List.length (safety_log (self w')) = 1 /\
     vehicle (self w') = Some low_battery_vehicle /\
     commands (stdout w') = [] /\
     ~ In PrintEmergencyActivated (stdout w')) /\
  (exists w',
     _monitor_loop (P := Scenario.bench) [request_stop] (running low_battery)
       = (Return tt, w') /\
     List.length (safety_log (self w')) = 1 /\
     vehicle (self w') = Some low_battery_vehicle /\
     commands (stdout w') = [] /\
     ~ In PrintEmergencyActivated (stdout w')) /\
  (exists w',
     tick_as_specified (P := Scenario.bench) low_battery = (Return tt, w') /\
     vehicle (self w') = Some (with_mode "RTL" low_battery_vehicle) /\
     commands (stdout w') = [ReturnToLaunch] /\
     In PrintEmergencyActivated (stdout w')).
Proof.
  split; [vm_compute; reflexivity|]. split; [|split].
  - eexists. split; [vm_compute; reflexivity|].
    split; [reflexivity|]. split; [reflexivity|]. split; [reflexivity|].
    cbn. intros [H|[]]. discriminate H.
  - eexists. split; [vm_compute; reflexivity|].
    split; [reflexivity|]. split; [reflexivity|]. split; [reflexivity|].
    cbn. intros [H|[]]. discriminate H.
  - eexists. split; [vm_compute; reflexivity|].
    split; [reflexivity|]. split; [reflexivity|].
    cbn. right. left. reflexivity.
Qed.

(** The first scenario of the specification: altitude 12 over a ceiling
    of 10.  [is_safe] is false with one entry logged, and the dispatcher
    issues "descend to safe altitude" with the target [8.0]; the flight
    mode is left as it was. *)
Example altitude_scenario :
  (exists w', is_safe (P := Scenario.bench) too_high = (Return false, w') /\
              List.length (safety_log (self w')) = 1) /\
  (exists w', handle_emergency (P := Scenario.bench) too_high = (Return tt, w') /\
              commands (stdout w') = [Descend f8] /\
              vehicle (self w') = vehicle (self too_high)).
Proof.
  split; eexists; (split; [vm_compute; reflexivity|]);
    [reflexivity|split; reflexivity].
Qed.

(** The second scenario: battery at 15 %.  The dispatcher issues "return
    to launch". *)
Example battery_scenario :
  exists w', handle_emergency (P := Scenario.bench) low_battery = (Return tt, w') /\
             commands (stdout w') = [ReturnToLaunch] /\
             vehicle (self w') = Some (with_mode "RTL" low_battery_vehicle).
Proof.
  eexists. split; [vm_compute; reflexivity|]. split; reflexivity.
Qed.

(** The [except] clause at work: the distance computation of the geofence
    check raises [ValueError], the failure is printed, the fallback landing
    is commanded, and the guard is released. *)
Example geofence_error_falls_back_to_landing :
  exists w',
    handle_emergency (P := Scenario.bench) far_apart = (Return tt, w') /\
    stdout w' = [PrintEmergencyActivated; PrintHandlingFailed Py.ValueError;
                 PrintEmergencyLanding] /\
    emergency_triggered (self w') = false /\
    option_map mode (vehicle (self w')) = Some "LAND".
Proof.
  eexists. split; [vm_compute; reflexivity|]. repeat split.
Qed.

(** C2, with the home position unset: battery and tilt both fail, and the
    dispatcher commands "return to launch" (mode RTL), not "emergency
    land". *)
Lemma battery_and_tilt_home_unset_counterexample :
  home_lat (self low_and_tilted) = None /\
  home_lon (self low_and_tilted) = None /\
  battery_low (self low_and_tilted) low_and_tilted_vehicle = true /\
  tilt_excessive (self low_and_tilted) low_and_tilted_vehicle = true /\
  exists w',
    handle_emergency (P := Scenario.bench) low_and_tilted = (Return tt, w') /\
    vehicle (self w') = Some (with_mode "RTL" low_and_tilted_vehicle) /\
    option_map mode (vehicle (self w')) <> Some "LAND" /\
    commands (stdout w') = [ReturnToLaunch] /\
    ~ In EmergencyLand (commands (stdout w')).
Proof.
  split; [reflexivity|]. split; [reflexivity|].
  split; [vm_compute; reflexivity|]. split; [vm_compute; reflexivity|].
  eexists. split; [vm_compute; reflexivity|]. split; [reflexivity|].
  split; [discriminate|]. split; [reflexivity|].
  cbn. intros [H|[]]. discriminate H.
Qed.

(** The same world, through the theorem. *)

Lemma battery_takes_priority_over_tilt_witness :
  vehicle (self low_and_tilted) = Some low_and_tilted_vehicle /\
  emergency_triggered (self low_and_tilted) = false /\
  battery_low (self low_and_tilted) low_and_tilted_vehicle = true /\
  tilt_excessive (self low_and_tilted) low_and_tilted_vehicle = true /\
  exists w',
    handle_emergency (P := Scenario.bench) low_and_tilted = (Return tt, w') /\
    vehicle (self w') = Some (with_mode "RTL" low_and_tilted_vehicle) /\
    commands (stdout w') = [ReturnToLaunch].
Proof.
  assert (Hb : battery_low (self low_and_tilted) low_and_tilted_vehicle = true)
    by (vm_compute; reflexivity).
  assert (Ht : tilt_excessive (self low_and_tilted) low_and_tilted_vehicle = true)
    by (vm_compute; reflexivity).
  split; [reflexivity|]. split; [reflexivity|].
  split; [exact Hb|]. split; [exact Ht|].
  destruct (battery_takes_priority_over_tilt (P := Scenario.bench)
              low_and_tilted (v := low_and_tilted_vehicle)
              eq_refl eq_refl Hb Ht eq_refl)
    as (w' & Hrun & Hv & Hc & _).
  exists w'. split; [exact Hrun|]. split; [exact Hv|exact Hc].
Defined.

(** C3, at a call that finds the guard set: the call returns and the
    guard is still set. *)
Lemma guard_still_set_counterexample :
  emergency_triggered (self guard_held) = true /\
  handle_emergency (P := Scenario.bench) guard_held = (Return tt, guard_held) /\
  emergency_triggered
    (self (snd (handle_emergency (P := Scenario.bench) guard_held))) <> false.
Proof.
  split; [reflexivity|]. split; [reflexivity|]. discriminate.
Qed.

(** The early return of the simulation branch (line 192) comes before the
    [try]: without a vehicle the guard, once taken, is not released. *)
Lemma handle_emergency_simulation_keeps_guard {P : Platform} (w : World) :
  emergency_triggered (self w) = false ->
  vehicle (self w) = None ->
  handle_emergency w =
    (Return tt, put_line PrintSimulationLanding (acquire_guard w)) /\
  emergency_triggered (self (snd (handle_emergency w))) = true.
Proof.
  intros Hg Hv.
  assert (H : handle_emergency w =
              (Return tt, put_line PrintSimulationLanding (acquire_guard w))).
  { unfold handle_emergency. run. rewrite Hg. cbn. rewrite Hv. reflexivity. }
  rewrite H. split; reflexivity.
Qed.

(** A dispatch on a vehicle that refuses every mode: the command and the
    fallback both raise, and the guard is released all the same; and a call
    on a held guard. *)
Lemma guard_released_after_dispatch_witness :
  emergency_triggered (self low_battery) = false /\
  vehicle (self low_battery) <> None /\
  fst (handle_emergency (P := Scenario.jammed) low_battery)
    = Raise Py.VehicleError /\
  emergency_triggered
    (self (snd (handle_emergency (P := Scenario.jammed) low_battery))) = false /\
  emergency_triggered (self guard_held) = true /\
  emergency_triggered
    (self (snd (handle_emergency (P := Scenario.jammed) guard_held))) = true.
Proof.
  assert (Hv : vehicle (self low_battery) <> None) by discriminate.
  split; [reflexivity|]. split; [exact Hv|].
  split; [vm_compute; reflexivity|].
  split; [exact (proj1 (guard_released_after_dispatch (P := Scenario.jammed)
                          low_battery) eq_refl Hv)|].
  split; [reflexivity|].
  exact (proj2 (guard_released_after_dispatch (P := Scenario.jammed)
                  guard_held) eq_refl).
Defined.

(** A call on a held guard, and two overlapping requests at a low
    battery. *)
Lemma guard_makes_second_request_a_noop_witness :
  emergency_triggered (self guard_held) = true /\
  handle_emergency (P := Scenario.bench) guard_held = (Return tt, guard_held) /\
  emergency_triggered (self low_battery) = false /\
  vehicle (self low_battery) = Some low_battery_vehicle /\
  some_check_fails (P := Scenario.bench) (self low_battery) low_battery_vehicle /\
  exists c w',
    overlapped (P := Scenario.bench) low_battery = (Return tt, w') /\
    commands (stdout w') = (commands (stdout low_battery) ++ [c])%list.
Proof.
  assert (Hf : some_check_fails (P := Scenario.bench)
                 (self low_battery) low_battery_vehicle)
    by (right; left; vm_compute; reflexivity).
  split; [reflexivity|].
  split; [exact (proj1 (guard_makes_second_request_a_noop
                          (P := Scenario.bench) guard_held) eq_refl)|].
  split; [reflexivity|]. split; [reflexivity|]. split; [exact Hf|].
  exact (proj2 (proj2 (proj2 (proj2 (guard_makes_second_request_a_noop
                                       (P := Scenario.bench) low_battery)
                                    low_battery_vehicle eq_refl eq_refl)))
               Hf (fun _ => eq_refl)).
Defined.

(* ===================================================================== *)
(** * The exported log *)
(* ===================================================================== *)

Lemma digit_plain (d : nat) :
  is_newline (digit d) = false /\ Ascii.eqb (digit d) "]" = false.
Proof.
  unfold digit.
  assert (H : d mod 10 < 10) by (apply Nat.mod_upper_bound; discriminate).
  destruct (d mod 10) as [|[|[|[|[|[|[|[|[|[|n]]]]]]]]]];
    try (split; reflexivity).
  lia.
Qed.

Lemma has_char_app p (a b : string) :
  has_char p (a ++ b) = has_char p a || has_char p b.
Proof.
  induction a as [|c a IH]; [reflexivity|].
  cbn [append has_char]. rewrite IH. apply orb_assoc.
Qed.

Lemma pad2_plain (n : nat) :
  has_char is_newline (pad2 n) = false /\
  has_char (fun c => Ascii.eqb c "]") (pad2 n) = false.
Proof.
  unfold pad2. cbn [has_char].
  destruct (digit_plain (n / 10)) as (-> & ->).
  destruct (digit_plain n) as (-> & ->). split; reflexivity.
Qed.

Lemma pad4_plain (n : nat) :
  has_char is_newline (pad4 n) = false /\
  has_char (fun c => Ascii.eqb c "]") (pad4 n) = false.
Proof.
  unfold pad4. cbn [has_char].
  destruct (digit_plain (n / 1000)) as (-> & ->).
  destruct (digit_plain (n / 100)) as (-> & ->).
  destruct (pad2_plain n) as (-> & ->). split; reflexivity.
Qed.

(** A timestamp holds digits, dashes, colons and one blank: no line break
    and no closing bracket. *)
Lemma strftime_plain (t : datetime) :
  has_char is_newline (strftime t) = false /\
  has_char (fun c => Ascii.eqb c "]") (strftime t) = false.
Proof.
  unfold strftime. rewrite !has_char_app.
  destruct (pad4_plain (year t)) as (-> & ->).
  destruct (pad2_plain (month t)) as (-> & ->).
  destruct (pad2_plain (day t)) as (-> & ->).
  destruct (pad2_plain (hour t)) as (-> & ->).
  destruct (pad2_plain (minute t)) as (-> & ->).
  destruct (pad2_plain (second t)) as (-> & ->).
  split; reflexivity.
Qed.

Lemma lines_line (l rest : string) :
  has_char is_newline l = false ->
  lines (l ++ newline ++ rest) = l :: lines rest.
Proof.
  induction l as [|c l IH]; intros H; [reflexivity|].
  cbn [has_char] in H. apply orb_false_iff in H. destruct H as (Hc & Hl).
  cbn [append lines]. rewrite Hc.
  change (l ++ String (ascii_of_nat 10) rest) with (l ++ newline ++ rest).
  rewrite (IH Hl). reflexivity.
Qed.

Lemma until_bracket_cut (a b : string) :
  has_char (fun c => Ascii.eqb c "]") a = false ->
  until_bracket (a ++ "]" ++ b) = Some (a, b).
Proof.
  induction a as [|c a IH]; intros H; [reflexivity|].
  cbn [has_char] in H. apply orb_false_iff in H. destruct H as (Hc & Ha).
  cbn [append until_bracket]. rewrite Hc.
  change (a ++ String "]" b) with (a ++ "]" ++ b).
  rewrite (IH Ha). reflexivity.
Qed.

Lemma parse_entry_text (t : datetime) (message : string) :
  parse_entry (entry_text t message) = Some (strftime t, message).
Proof.
  unfold entry_text. cbn [append parse_entry]. cbn [Ascii.eqb Bool.eqb].
  change (strftime t ++ String "]" (String " " message))
    with (strftime t ++ "]" ++ String " " message).
  rewrite until_bracket_cut by apply strftime_plain.
  reflexivity.
Qed.

Lemma entry_text_one_line (t : datetime) (message : string) :
  has_char is_newline message = false ->
  has_char is_newline (entry_text t message) = false.
Proof.
  intros H. unfold entry_text. rewrite !has_char_app, H.
  rewrite (proj1 (strftime_plain t)). reflexivity.
Qed.

Lemma append_assoc (a b c : string) : (a ++ b) ++ c = a ++ b ++ c.
Proof.
  induction a as [|x a IH]; [reflexivity|].
  cbn [append]. rewrite IH. reflexivity.
Qed.

Lemma lines_entry_lines (entries : list string) :
  Forall (fun e => has_char is_newline e = false) entries ->
  lines (entry_lines entries) = entries.
Proof.
  induction 1 as [|e es He _ IH]; [reflexivity|].
  cbn [entry_lines]. rewrite append_assoc, lines_line by exact He.
  rewrite IH. reflexivity.
Qed.

Lemma lines_log_text (entries : list string) :
  Forall (fun e => has_char is_newline e = false) entries ->
  lines (log_text entries) = "=== Drone Safety Log ===" :: "" :: entries.
Proof.
  intros H. unfold log_text. rewrite !append_assoc.
  rewrite lines_line by reflexivity.
  change (newline ++ entry_lines entries)
    with ("" ++ newline ++ entry_lines entries).
  rewrite lines_line by reflexivity.
  rewrite (lines_entry_lines H). reflexivity.
Qed.

Section LogExportProperties.
Context {P : Platform}.

Lemma stamped_one_line n (messages : list string) :
  Forall (fun m => has_char is_newline m = false) messages ->
  Forall (fun e => has_char is_newline e = false) (stamped n messages).
Proof.
  intros H. revert n. induction H as [|m ms Hm _ IH]; intros n;
    constructor; [apply entry_text_one_line, Hm|apply IH].
Qed.

Lemma parse_entries_stamped n (messages : list string) :
  parse_entries (stamped n messages) = Some (stamps n messages).
Proof.
  revert n. induction messages as [|m ms IH]; intros n; [reflexivity|].
  cbn [stamped parse_entries stamps]. rewrite parse_entry_text, IH.
  reflexivity.
Qed.

Lemma log_all_logs (messages : list string) (w : World) :
  exists w', log_all messages w = (Return tt, w') /\
             only_logged messages w w'.
Proof.
  revert w. induction messages as [|m ms IH]; intros w.
  - exists w. split; [reflexivity|apply only_logged_nil].
  - destruct (IH (logged m w)) as (w' & Hrun & Hl).
    exists w'. cbn [log_all]. run. rewrite log_warning_eq, Hrun.
    split; [reflexivity|].
    exact (only_logged_trans (only_logged_one m w) Hl).
Qed.

Lemma save_log_writes (filename : string) (w : World) :
  exists w', save_log filename w = (Return tt, w') /\
             self w' = self w /\
             file_text filename (files w') = Some (log_text (safety_log (self w))).
Proof.
  eexists. unfold save_log. run. split; [reflexivity|]. split; [reflexivity|].
  cbn. rewrite String.eqb_refl. reflexivity.
Qed.

(** C9 (amended). For every sequence of warnings whose messages hold no
    line break, logged from an empty log, the file [save_log] writes
    consists of the header line, a blank line, then one line
    ["[<timestamp>] <message>"] per entry in append order, and reading the
    file back yields the (timestamp, message) pairs that were logged, in
    order. *)
Theorem save_log_round_trip (w : World) (messages : list string)
        (filename : string) :
  safety_log (self w) = [] ->
  Forall (fun m => has_char is_newline m = false) messages ->
  exists w1 w2 text,
    log_all messages w = (Return tt, w1) /\
    save_log filename w1 = (Return tt, w2) /\
    file_text filename (files w2) = Some text /\
    safety_log (self w1) = stamped (clock_reads w) messages /\
    lines text =
      "=== Drone Safety Log ===" :: "" :: stamped (clock_reads w) messages /\
    parse_log text = Some (stamps (clock_reads w) messages).
Proof.
  intros Hempty Hplain.
  destruct (log_all_logs messages w) as (w1 & Hrun & Hself & _).
  destruct (save_log_writes filename w1) as (w2 & Hsave & _ & Hfile).
  assert (Hlog : safety_log (self w1) = stamped (clock_reads w) messages)
    by (rewrite Hself, Hempty; reflexivity).
  assert (Hlines : lines (log_text (safety_log (self w1))) =
                   "=== Drone Safety Log ===" :: "" ::
                   stamped (clock_reads w) messages).
  { rewrite Hlog. apply lines_log_text, stamped_one_line, Hplain. }
  exists w1, w2, (log_text (safety_log (self w1))).
  split; [exact Hrun|]. split; [exact Hsave|]. split; [exact Hfile|].
  split; [exact Hlog|]. split; [exact Hlines|].
  unfold parse_log. rewrite Hlines. cbn [String.eqb Ascii.eqb Bool.eqb andb].
  apply parse_entries_stamped.
Qed.

End LogExportProperties.

(** C9, at a message that holds a line break: the log of one warning
    ["x\n[2024-05-17 12:00:01] y"] and the log of the two warnings ["x"],
    ["y"] are written as the same file, so no reader returns what was
    logged for both; the reader of the specification returns two pairs
    where one was logged. *)
Lemma save_log_line_break_counterexample :
  let two_lines := "x" ++ newline ++ "[2024-05-17 12:00:01] y" in
  let once := snd (log_all (P := Scenario.bench) [two_lines] (Scenario.world None)) in
  let twice := snd (log_all (P := Scenario.bench) ["x"; "y"] (Scenario.world None)) in
  log_text (safety_log (self once)) = log_text (safety_log (self twice)) /\
  stamps (P := Scenario.bench) 0 [two_lines] <>
    stamps (P := Scenario.bench) 0 ["x"; "y"] /\
  parse_log (log_text (safety_log (self once))) <>
    Some (stamps (P := Scenario.bench) 0 [two_lines]).
Proof.
  cbv zeta. split; [vm_compute; reflexivity|].
  split; [vm_compute; discriminate|vm_compute; discriminate].
Qed.

(** Two warnings logged and exported on the bench. *)
Lemma save_log_round_trip_witness :
  safety_log (self (Scenario.world None)) = [] /\
  Forall (fun m => has_char is_newline m = false)
         ["Test warning triggered manually"; "Low battery: 15% < 20%"] /\
  exists w1 w2 text,
    log_all (P := Scenario.bench)
      ["Test warning triggered manually"; "Low battery: 15% < 20%"]
      (Scenario.world None) = (Return tt, w1) /\
    save_log "safety_log.txt" w1 = (Return tt, w2) /\
    file_text "safety_log.txt" (files w2) = Some text /\
    parse_log text =
      Some [("2024-05-17 12:00:00", "Test warning triggered manually");
            ("2024-05-17 12:00:01", "Low battery: 15% < 20%")].
Proof.
  assert (Hplain : Forall (fun m => has_char is_newline m = false)
            ["Test warning triggered manually"; "Low battery: 15% < 20%"])
    by (repeat constructor).
  split; [reflexivity|]. split; [exact Hplain|].
  destruct (save_log_round_trip (P := Scenario.bench) (Scenario.world None)
              "safety_log.txt" eq_refl Hplain)
    as (w1 & w2 & text & Hrun & Hsave & Hfile & _ & _ & Hparse).
  exists w1, w2, text.
  split; [exact Hrun|]. split; [exact Hsave|]. split; [exact Hfile|].
  exact Hparse.
Defined.

(* ===================================================================== *)
(** * The distance between two positions *)
(* ===================================================================== *)

(** ** Negation commutes with rounding *)

Lemma binary_round_aux_opp s m e l :
  binary_round_aux prec emax (negb s) m e l =
  SFopp (binary_round_aux prec emax s m e l).
Proof.
  unfold binary_round_aux.
  destruct (shr_fexp prec emax m e l) as [mrs' e'].
  destruct (shr_fexp prec emax _ e' loc_Exact) as [mrs'' e''].
  destruct (shr_m mrs''); try reflexivity.
  destruct (Z.leb e'' (emax - prec)); reflexivity.
Qed.

Lemma binary_round_opp s m e :
  binary_round prec emax (negb s) m e = SFopp (binary_round prec emax s m e).
Proof.
  unfold binary_round. destruct (shl_align m e _) as [mz ez].
  apply binary_round_aux_opp.
Qed.

Lemma binary_normalize_opp z e :
  mirror (binary_normalize prec emax z e false)
         (binary_normalize prec emax (- z) e false).
Proof.
  destruct z as [|p|p]; cbn [Z.opp binary_normalize].
  - left. reflexivity.
  - right. apply (binary_round_opp false).
  - right. apply (binary_round_opp true).
Qed.

Lemma fneg_involutive (x : Py.float) : Py.fneg (Py.fneg x) = x.
Proof. destruct x as [[]|[]| |[] ? ?]; reflexivity. Qed.

Lemma mirror_sym (x y : Py.float) : mirror x y -> mirror y x.
Proof.
  intros [->| ->]; [left; reflexivity|right].
  symmetry. apply fneg_involutive.
Qed.

Lemma fsub_swap (a b : Py.float) : mirror (Py.fsub a b) (Py.fsub b a).
Proof.
  destruct a as [sa|sa| |sa ma ea], b as [sb|sb| |sb mb eb];
    try (left; reflexivity);
    try (destruct sa, sb; (left; reflexivity) || (right; reflexivity));
    try (destruct sa; (left; reflexivity) || (right; reflexivity));
    try (destruct sb; (left; reflexivity) || (right; reflexivity)).
  unfold Py.fsub, SFsub. rewrite (Z.min_comm eb ea).
  set (A := cond_Zopp sa (Z.pos (fst (shl_align ma ea (Z.min ea eb))))).
  set (B := cond_Zopp sb (Z.pos (fst (shl_align mb eb (Z.min ea eb))))).
  replace (B - A)%Z with (- (A - B))%Z by lia.
  apply binary_normalize_opp.
Qed.

Lemma fmul_opp_l (x y : Py.float) :
  Py.fmul (Py.fneg x) y = Py.fneg (Py.fmul x y).
Proof.
  destruct x as [sx|sx| |sx mx ex], y as [sy|sy| |sy my ey];
    try reflexivity;
    try (destruct sx, sy; reflexivity).
  unfold Py.fmul, Py.fneg, SFopp, SFmul.
  replace (xorb (negb sx) sy) with (negb (xorb sx sy))
    by (destruct sx, sy; reflexivity).
  apply binary_round_aux_opp.
Qed.

Lemma fdiv_opp_l (x y : Py.float) :
  Py.fdiv (Py.fneg x) y = Py.fneg (Py.fdiv x y).
Proof.
  destruct x as [sx|sx| |sx mx ex], y as [sy|sy| |sy my ey];
    try reflexivity;
    try (destruct sx, sy; reflexivity).
  unfold Py.fdiv, Py.fneg, SFopp, SFdiv.
  destruct (SFdiv_core_binary prec emax (Z.pos mx) ex (Z.pos my) ey)
    as [[mz ez] lz].
  replace (xorb (negb sx) sy) with (negb (xorb sx sy))
    by (destruct sx, sy; reflexivity).
  apply binary_round_aux_opp.
Qed.

Lemma fmul_comm (x y : Py.float) : Py.fmul x y = Py.fmul y x.
Proof.
  destruct x as [sx|sx| |sx mx ex], y as [sy|sy| |sy my ey];
    try reflexivity;
    try (destruct sx, sy; reflexivity).
  unfold Py.fmul, SFmul.
  rewrite (xorb_comm sx sy), (Pos.mul_comm mx my), (Z.add_comm ex ey).
  reflexivity.
Qed.

(** ** The two halves of the haversine formula *)

Section Distance.
Context {P : Platform}.

Lemma calculate_distance_eq (lat1 lon1 lat2 lon2 : Py.float) :
  calculate_distance lat1 lon1 lat2 lon2 =
  (p1 <~ haversine_term lat1 lat2 ;;
   c1 <~ Py.cos (Py.radians lat1) ;;
   c2 <~ Py.cos (Py.radians lat2) ;;
   p2 <~ haversine_term lon1 lon2 ;;
   central_distance (Py.fadd p1 (Py.fmul (Py.fmul c1 c2) p2))).
Proof.
  unfold calculate_distance, haversine_term, central_distance, ebind.
  destruct (Py.sin (Py.fdiv (Py.radians (Py.fsub lat2 lat1)) Py.f2));
    [reflexivity|].
  destruct (Py.pow2 _); [reflexivity|].
  destruct (Py.cos (Py.radians lat1)); [reflexivity|].
  destruct (Py.cos (Py.radians lat2)); [reflexivity|].
  destruct (Py.sin (Py.fdiv (Py.radians (Py.fsub lon2 lon1)) Py.f2));
    reflexivity.
Qed.

Lemma math_1_raises func (x : Py.float) e :
  Py.math_1 func x = inl e -> e = Py.ValueError.
Proof.
  unfold Py.math_1.
  destruct (Py.isnan (func x) && negb (Py.isnan x)); [congruence|].
  destruct (Py.isinf (func x) && Py.isfinite x); congruence.
Qed.

Lemma pow2_fneg (x : Py.float) : Py.pow2 (Py.fneg x) = Py.pow2 x.
Proof. destruct x as [[]|[]| |[] m e]; reflexivity. Qed.

Variable conforms : libm_conforms platform_libm.

Lemma sin_fneg (x : Py.float) :
  Py.sin (Py.fneg x) =
  match Py.sin x with inl e => inl e | inr r => inr (Py.fneg r) end.
Proof.
  unfold Py.sin, Py.math_1. rewrite (sin_odd conforms).
  destruct (Py.libm_sin x) as [[]|[]| |[] ? ?], x as [[]|[]| |[] ? ?];
    reflexivity.
Qed.

Lemma sin_squared_mirror (x y : Py.float) :
  mirror x y ->
  (s <~ Py.sin y ;; Py.pow2 s) = (s <~ Py.sin x ;; Py.pow2 s).
Proof.
  intros [->| ->]; [reflexivity|].
  rewrite sin_fneg. unfold ebind.
  destruct (Py.sin x); [reflexivity|apply pow2_fneg].
Qed.

Lemma haversine_term_sym (a b : Py.float) :
  haversine_term a b = haversine_term b a.
Proof.
  unfold haversine_term. apply sin_squared_mirror.
  destruct (fsub_swap a b) as [->| ->]; [left; reflexivity|right].
  unfold Py.radians. rewrite fmul_opp_l. apply fdiv_opp_l.
Qed.

(** The distance from one position to another is the distance back, also
    when the computation raises: both calls then raise the same error.
    This holds for all floats, finite or not. *)
Lemma calculate_distance_sym (lat1 lon1 lat2 lon2 : Py.float) :
  calculate_distance lat1 lon1 lat2 lon2 =
  calculate_distance lat2 lon2 lat1 lon1.
Proof.
  rewrite !calculate_distance_eq.
  rewrite (haversine_term_sym lat1 lat2), (haversine_term_sym lon1 lon2).
  unfold ebind.
  destruct (haversine_term lat2 lat1) as [e|p1]; [reflexivity|].
  destruct (Py.cos (Py.radians lat1)) as [e1|c1] eqn:E1,
           (Py.cos (Py.radians lat2)) as [e2|c2] eqn:E2; try reflexivity.
  - rewrite (math_1_raises _ _ E1), (math_1_raises _ _ E2). reflexivity.
  - rewrite (fmul_comm c1 c2). reflexivity.
Qed.

End Distance.

(* ===================================================================== *)
(** * Rounding stays finite below the overflow threshold *)
(* ===================================================================== *)

Unset Implicit Arguments.
Local Open Scope Z_scope.

Lemma fexp_eq (x : Z) : fexp prec emax x = Z.max (x - 53) (-1074).
Proof. reflexivity. Qed.

Lemma digits2_pos_bounds (p : positive) :
  2 ^ (Z.pos (digits2_pos p) - 1) <= Z.pos p < 2 ^ Z.pos (digits2_pos p).
Proof.
  induction p as [p IH|p IH|]; cbn [digits2_pos].
  - rewrite Pos2Z.inj_succ, (Pos2Z.inj_xI p).
    replace (Z.succ (Z.pos (digits2_pos p)) - 1)
      with (Z.succ (Z.pos (digits2_pos p) - 1)) by lia.
    rewrite (Z.pow_succ_r 2 (Z.pos (digits2_pos p))) by lia.
    rewrite (Z.pow_succ_r 2 (Z.pos (digits2_pos p) - 1)) by lia.
    lia.
  - rewrite Pos2Z.inj_succ, (Pos2Z.inj_xO p).
    replace (Z.succ (Z.pos (digits2_pos p)) - 1)
      with (Z.succ (Z.pos (digits2_pos p) - 1)) by lia.
    rewrite (Z.pow_succ_r 2 (Z.pos (digits2_pos p))) by lia.
    rewrite (Z.pow_succ_r 2 (Z.pos (digits2_pos p) - 1)) by lia.
    lia.
  - split; [discriminate|reflexivity].
Qed.

Lemma Zdigits2_nonneg (m : Z) : 0 <= Zdigits2 m.
Proof. destruct m; cbn; lia. Qed.

Lemma Zdigits2_lt (m : Z) : 0 <= m -> m < 2 ^ Zdigits2 m.
Proof.
  destruct m as [|p|p]; intros H; [cbn; lia| |lia].
  apply digits2_pos_bounds.
Qed.

Lemma Zdigits2_le (m k : Z) : 0 <= m -> 0 <= k -> m < 2 ^ k -> Zdigits2 m <= k.
Proof.
  destruct m as [|p|p]; intros Hm Hk Hlt; [exact Hk| |lia].
  cbn [Zdigits2].
  destruct (digits2_pos_bounds p) as (Hlow & _).
  assert (H : 2 ^ (Z.pos (digits2_pos p) - 1) < 2 ^ k) by lia.
  apply Z.pow_lt_mono_r_iff in H; lia.
Qed.

Lemma shr_record_of_loc_m (m : Z) (l : location) :
  shr_m (shr_record_of_loc m l) = m.
Proof. destruct l as [|[ | | ]]; reflexivity. Qed.

Lemma shr_1_m (r : shr_record) :
  0 <= shr_m r -> shr_m (shr_1 r) = shr_m r / 2.
Proof.
  destruct r as [m b s]. cbn [shr_m]. intros H.
  rewrite <- Z.div2_div.
  destruct m as [|[p|p|]|p]; try reflexivity; lia.
Qed.

Lemma iter_shr_1_m (p : positive) (r : shr_record) :
  0 <= shr_m r ->
  shr_m (SpecFloat.iter_pos shr_1 p r) = shr_m r / 2 ^ Z.pos p.
Proof.
  revert r. induction p as [p IH|p IH|]; intros r H; cbn [SpecFloat.iter_pos].
  - assert (H1 : 0 <= shr_m (shr_1 r))
      by (rewrite shr_1_m by exact H; apply Z.div_pos; lia).
    assert (H2 : 0 <= shr_m (SpecFloat.iter_pos shr_1 p (shr_1 r)))
      by (rewrite IH by exact H1; apply Z.div_pos; [exact H1|apply Z.pow_pos_nonneg; lia]).
    assert (Hp : 0 < 2 ^ Z.pos p) by (apply Z.pow_pos_nonneg; lia).
    rewrite (IH _ H2), (IH _ H1), (shr_1_m _ H).
    rewrite !Z.div_div by lia.
    rewrite (Pos2Z.inj_xI p).
    replace (2 * Z.pos p + 1) with (1 + Z.pos p + Z.pos p) by lia.
    rewrite !Z.pow_add_r by lia. rewrite Z.pow_1_r. f_equal. ring.
  - assert (H1 : 0 <= shr_m (SpecFloat.iter_pos shr_1 p r))
      by (rewrite IH by exact H; apply Z.div_pos; [exact H|apply Z.pow_pos_nonneg; lia]).
    assert (Hp : 0 < 2 ^ Z.pos p) by (apply Z.pow_pos_nonneg; lia).
    rewrite (IH _ H1), (IH _ H).
    rewrite Z.div_div by lia.
    rewrite (Pos2Z.inj_xO p).
    replace (2 * Z.pos p) with (Z.pos p + Z.pos p) by lia.
    rewrite Z.pow_add_r by lia. reflexivity.
  - rewrite (shr_1_m _ H). reflexivity.
Qed.

(** One pass of [shr_fexp] on a non-negative mantissa: the exponent moves
    up to [fexp] of the magnitude, the mantissa is divided accordingly. *)
Lemma shr_fexp_spec (m e : Z) (l : location) :
  0 <= m ->
  let r := shr_fexp prec emax m e l in
  0 <= shr_m (fst r) /\
  snd r = Z.max e (fexp prec emax (Zdigits2 m + e)) /\
  shr_m (fst r) = m / 2 ^ (snd r - e).
Proof.
  intros Hm. unfold shr_fexp, shr.
  set (f := fexp prec emax (Zdigits2 m + e)).
  destruct (f - e) as [|p|p] eqn:En; cbn [fst snd].
  - rewrite shr_record_of_loc_m, Z.sub_diag, Z.div_1_r.
    split; [exact Hm|]. split; [lia|reflexivity].
  - rewrite iter_shr_1_m by (rewrite shr_record_of_loc_m; exact Hm).
    rewrite shr_record_of_loc_m.
    replace (e + Z.pos p - e) with (Z.pos p) by lia.
    split; [apply Z.div_pos; [exact Hm|apply Z.pow_pos_nonneg; lia]|].
    split; [lia|reflexivity].
  - rewrite shr_record_of_loc_m, Z.sub_diag, Z.div_1_r.
    split; [exact Hm|]. split; [lia|reflexivity].
Qed.

Lemma round_nearest_even_bounds (m : Z) (l : location) :
  m <= round_nearest_even m l <= m + 1.
Proof.
  destruct l as [|[ | | ]]; cbn [round_nearest_even]; try lia.
  destruct (Z.even m); lia.
Qed.

(** A mantissa of [d] digits at exponent [e] with [d + e <= emax - 1] and
    [e <= emax - prec] rounds to a zero or a finite number. *)
Lemma binary_round_aux_finite (s : bool) (m : positive) (e : Z) (l : location) :
  Z.pos (digits2_pos m) + e <= 1023 ->
  e <= 971 ->
  Py.isfinite (binary_round_aux prec emax s (Z.pos m) e l) = true.
Proof.
  intros Hd He. unfold binary_round_aux.
  pose proof (shr_fexp_spec (Z.pos m) e l ltac:(lia)) as H1.
  destruct (shr_fexp prec emax (Z.pos m) e l) as [mrs1 e1].
  cbn [fst snd] in H1. destruct H1 as (Hm1 & He1 & Hq1).
  rewrite fexp_eq in He1. cbn [Zdigits2] in He1.
  pose proof (digits2_pos_bounds m) as (_ & Hlt).
  (* the shifted mantissa stays below [2 ^ (1023 - e1)] *)
  assert (Hb1 : shr_m mrs1 < 2 ^ (1023 - e1)).
  { rewrite Hq1. apply Z.div_lt_upper_bound; [apply Z.pow_pos_nonneg; lia|].
    rewrite <- Z.pow_add_r by lia.
    apply Z.lt_le_trans with (1 := Hlt).
    apply Z.pow_le_mono_r; lia. }
  set (m2 := round_nearest_even (shr_m mrs1) (loc_of_shr_record mrs1)).
  pose proof (round_nearest_even_bounds (shr_m mrs1) (loc_of_shr_record mrs1))
    as Hr. fold m2 in Hr.
  assert (Hm2 : 0 <= m2) by lia.
  assert (Hd2 : Zdigits2 m2 <= 1024 - e1).
  { apply Zdigits2_le; [exact Hm2|lia|].
    replace (1024 - e1) with (Z.succ (1023 - e1)) by lia.
    rewrite Z.pow_succ_r by lia. lia. }
  pose proof (shr_fexp_spec m2 e1 loc_Exact Hm2) as H2.
  destruct (shr_fexp prec emax m2 e1 loc_Exact) as [mrs2 e2].
  cbn [fst snd] in H2. destruct H2 as (Hn2 & He2 & _).
  rewrite fexp_eq in He2.
  destruct (shr_m mrs2) as [|q|q]; [reflexivity| |lia].
  replace (e2 <=? emax - prec) with true; [reflexivity|].
  symmetry. apply Z.leb_le. change (emax - prec) with 971. lia.
Qed.

Local Close Scope Z_scope.

(* ===================================================================== *)
(** * The distance from a position to itself *)
(* ===================================================================== *)

Lemma fmul_finite_finite sx mx ex sy my ey :
  (Z.pos (digits2_pos mx) + Z.pos (digits2_pos my) + ex + ey <= 1023)%Z ->
  (ex + ey <= 971)%Z ->
  Py.isfinite (Py.fmul (S754_finite sx mx ex) (S754_finite sy my ey)) = true.
Proof.
  intros Hd He. unfold Py.fmul, SFmul.
  apply binary_round_aux_finite; [|exact He].
  assert (H : (Zdigits2 (Z.pos (mx * my))
               <= Z.pos (digits2_pos mx) + Z.pos (digits2_pos my))%Z).
  { apply Zdigits2_le; [lia|lia|].
    rewrite Z.pow_add_r by lia. rewrite Pos2Z.inj_mul.
    pose proof (digits2_pos_bounds mx) as (_ & Hx).
    pose proof (digits2_pos_bounds my) as (_ & Hy).
    apply Z.mul_lt_mono_nonneg; lia. }
  cbn [Zdigits2] in H. lia.
Qed.

Lemma is_double_bounds s m e :
  is_double (S754_finite s m e) ->
  (Z.pos (digits2_pos m) <= 53)%Z /\ (e <= 971)%Z.
Proof.
  unfold is_double, valid_binary, bounded, canonical_mantissa.
  intros H. apply andb_prop in H. destruct H as (Hc & He).
  apply Z.eqb_eq in Hc. apply Z.leb_le in He.
  rewrite fexp_eq in Hc. change (emax - prec)%Z with 971%Z in He. lia.
Qed.

Lemma at_most_one_exponent s m e :
  Py.fle (Py.fabs (S754_finite s m e)) Py.f1 = true -> (e <= -52)%Z.
Proof.
  unfold Py.fle, Py.fabs, Py.f1, SFleb, SFabs, SFcompare.
  destruct (Z.compare_spec e (-52)) as [H|H|H]; [lia|lia|discriminate].
Qed.

Lemma radians_finite (x : Py.float) :
  finite_double x -> Py.isfinite (Py.radians x) = true.
Proof.
  intros (Hd & Hf). destruct x as [s|s| |s m e]; try discriminate Hf.
  - reflexivity.
  - destruct (is_double_bounds s m e Hd) as (Hm & He).
    unfold Py.radians, Py.degToRad. apply fmul_finite_finite.
    + change (Z.pos (digits2_pos 5030569068109113)) with 53%Z. lia.
    + lia.
Qed.

Lemma fsub_diag (x : Py.float) :
  Py.isfinite x = true -> Py.fsub x x = Py.f0.
Proof.
  destruct x as [[]|s| |s m e]; intros H; try discriminate H;
    try reflexivity.
  unfold Py.fsub, SFsub. rewrite Z.sub_diag. reflexivity.
Qed.

Lemma fmul_zero_r (x : Py.float) (s : bool) :
  Py.isfinite x = true -> exists s', Py.fmul x (S754_zero s) = S754_zero s'.
Proof.
  destruct x as [sx|sx| |sx m e]; intros H; try discriminate H;
    eexists; reflexivity.
Qed.

Section DistanceToSelf.
Context {P : Platform}.
Variable conforms : libm_conforms platform_libm.

Lemma haversine_term_diag (x : Py.float) :
  Py.isfinite x = true -> haversine_term x x = inr Py.f0.
Proof.
  intros H. unfold haversine_term. rewrite (fsub_diag x H).
  change (Py.fdiv (Py.radians Py.f0) Py.f2) with Py.f0.
  unfold Py.sin, Py.math_1. rewrite (sin_zero conforms). reflexivity.
Qed.

Lemma cos_returns (x : Py.float) :
  Py.isfinite x = true ->
  Py.cos x = inr (Py.libm_cos x) /\
  (Py.libm_cos x = S754_zero (Py.signbit (Py.libm_cos x)) \/
   exists s m e,
     Py.libm_cos x = S754_finite s m e /\
     (Z.pos (digits2_pos m) <= 53)%Z /\ (e <= -52)%Z).
Proof.
  intros H. destruct (cos_bounded conforms x H) as (Hd & Hle).
  unfold Py.cos, Py.math_1.
  destruct (Py.libm_cos x) as [s|s| |s m e].
  - split; [reflexivity|left; reflexivity].
  - destruct s; discriminate Hle.
  - discriminate Hle.
  - split; [reflexivity|]. right. exists s, m, e.
    split; [reflexivity|].
    split; [apply (is_double_bounds s m e Hd)|].
    apply (at_most_one_exponent s m e Hle).
Qed.

Lemma cos_product_finite (x y : Py.float) :
  Py.isfinite x = true -> Py.isfinite y = true ->
  Py.isfinite (Py.fmul (Py.libm_cos x) (Py.libm_cos y)) = true.
Proof.
  intros Hx Hy.
  destruct (cos_returns x Hx) as (_ & [Ex|(sx & mx & ex & Ex & Hmx & Hex)]);
    destruct (cos_returns y Hy) as (_ & [Ey|(sy & my & ey & Ey & Hmy & Hey)]);
    rewrite Ex, Ey; try reflexivity.
  apply fmul_finite_finite; lia.
Qed.

(** The distance from a finite position to itself is [0.0]. *)
Lemma calculate_distance_diag (la lo : Py.float) :
  finite_double la -> Py.isfinite lo = true ->
  calculate_distance la lo la lo = inr Py.f0.
Proof.
  intros Hla Hlo. rewrite calculate_distance_eq.
  rewrite (haversine_term_diag la (proj2 Hla)), (haversine_term_diag lo Hlo).
  pose proof (radians_finite la Hla) as Hr.
  destruct (cos_returns (Py.radians la) Hr) as (-> & _).
  cbn [ebind].
  destruct (fmul_zero_r _ false (cos_product_finite _ _ Hr Hr)) as (s' & Hz).
  change (S754_zero false) with Py.f0 in Hz. rewrite Hz.
  destruct s'; reflexivity.
Qed.

(** C8. For all finite coordinates, [calculate_distance] of a position and
    itself is [0.0], and the distance is symmetric: both calls return the
    same float (or raise the same error).  The C library is assumed to
    conform: [sin(+0) = +0], [sin] odd, [|cos x| <= 1] for finite [x]. *)
Theorem calculate_distance_zero_and_symmetric (lat1 lon1 lat2 lon2 : Py.float) :
  finite_double lat1 -> finite_double lon1 ->
  finite_double lat2 -> finite_double lon2 ->
  calculate_distance lat1 lon1 lat1 lon1 = inr Py.f0 /\
  calculate_distance lat1 lon1 lat2 lon2 =
    calculate_distance lat2 lon2 lat1 lon1.
Proof.
  intros H1 H2 _ _. split.
  - apply calculate_distance_diag; [exact H1|exact (proj2 H2)].
  - apply calculate_distance_sym. exact conforms.
Qed.

End DistanceToSelf.

Lemma small_angle_libm_conforms : libm_conforms Scenario.small_angle_libm.
Proof.
  constructor.
  - reflexivity.
  - reflexivity.
  - intros x _. split; reflexivity.
Qed.

(** The self-test position and a second one, on the bench's C library. *)
Lemma calculate_distance_zero_and_symmetric_witness :
  libm_conforms Scenario.small_angle_libm /\
  finite_double Scenario.f13_7563 /\ finite_double Scenario.f100_5018 /\
  finite_double f14_7563 /\ finite_double f101_5018 /\
  calculate_distance (P := Scenario.bench)
    Scenario.f13_7563 Scenario.f100_5018 Scenario.f13_7563 Scenario.f100_5018
    = inr Py.f0 /\
  calculate_distance (P := Scenario.bench)
    Scenario.f13_7563 Scenario.f100_5018 f14_7563 f101_5018 =
  calculate_distance (P := Scenario.bench)
    f14_7563 f101_5018 Scenario.f13_7563 Scenario.f100_5018.
Proof.
  assert (H1 : finite_double Scenario.f13_7563) by (split; reflexivity).
  assert (H2 : finite_double Scenario.f100_5018) by (split; reflexivity).
  assert (H3 : finite_double f14_7563) by (split; reflexivity).
  assert (H4 : finite_double f101_5018) by (split; reflexivity).
  split; [exact small_angle_libm_conforms|].
  split; [exact H1|]. split; [exact H2|]. split; [exact H3|].
  split; [exact H4|].
  exact (calculate_distance_zero_and_symmetric (P := Scenario.bench)
           small_angle_libm_conforms _ _ _ _ H1 H2 H3 H4).
Defined.

(* ===================================================================== *)
(** * What holds across every call *)
(* ===================================================================== *)

Section Steps.
Variable R : World -> World -> Prop.
Hypothesis R_refl : forall w, R w w.
Hypothesis R_trans : forall a b c, R a b -> R b c -> R a c.

Lemma steps_ret {A} (a : A) : steps R (ret a).
Proof. intros w. apply R_refl. Qed.

Lemma steps_raise {A} (e : Py.exn) : steps R (@raise A e).
Proof. intros w. apply R_refl. Qed.

Lemma steps_gets {A} (f : World -> A) : steps R (gets f).
Proof. intros w. apply R_refl. Qed.

Lemma steps_lift {A} (r : Py.exn + A) : steps R (lift r).
Proof. intros w. destruct r; apply R_refl. Qed.

Lemma steps_modify (f : World -> World) :
  (forall w, R w (f w)) -> steps R (modify f).
Proof. intros H w. apply H. Qed.

Lemma steps_bind {A B} (m : M A) (k : A -> M B) :
  steps R m -> (forall a, steps R (k a)) -> steps R (bind m k).
Proof.
  intros Hm Hk w. unfold bind. specialize (Hm w).
  destruct (m w) as [[a|e] w']; cbn [snd] in *.
  - exact (R_trans _ _ _ Hm (Hk a w')).
  - exact Hm.
Qed.

Lemma steps_try_except {A} (body : M A) (handler : Py.exn -> M A) :
  steps R body -> (forall e, steps R (handler e)) ->
  steps R (try_except body handler).
Proof.
  intros Hb Hh w. unfold try_except. specialize (Hb w).
  destruct (body w) as [[a|e] w']; cbn [snd] in *.
  - exact Hb.
  - exact (R_trans _ _ _ Hb (Hh e w')).
Qed.

Lemma steps_try_finally {A} (body : M A) (cleanup : World -> World) :
  steps R body -> (forall w, R w (cleanup w)) ->
  steps R (try_finally body cleanup).
Proof.
  intros Hb Hc w. unfold try_finally. specialize (Hb w).
  destruct (body w) as [r w']; cbn [snd] in *.
  exact (R_trans _ _ _ Hb (Hc w')).
Qed.

Lemma steps_discard {A} (m : M A) : steps R m -> steps R (discard m).
Proof. intros H. apply steps_bind; [exact H|intros a; apply steps_ret]. Qed.

End Steps.

(** Splits a method into its steps; [known] settles the steps that write. *)
Ltac step_with refl trans known :=
  repeat first
    [ known
    | apply (steps_ret _ refl) | apply (steps_raise _ refl)
    | apply (steps_gets _ refl) | apply (steps_lift _ refl)
    | apply (steps_discard _ refl trans)
    | apply (steps_bind _ trans); [|intros ?]
    | apply (steps_try_except _ trans); [|intros ?]
    | apply (steps_try_finally _ trans)
    | match goal with
      | |- steps _ (if ?b then _ else _) => destruct b
      | |- steps _ (match ?x with _ => _ end) => destruct x
      end ].

Section SessionProperties.
Context {P : Platform}.

Lemma session_steps (R : World -> World -> Prop) :
  (forall w, R w w) -> (forall a b c, R a b -> R b c -> R a c) ->
  (forall c, steps R (perform c)) ->
  forall calls w, R w (session calls w).
Proof.
  intros Hrefl Htrans Hstep calls.
  induction calls as [|c rest IH]; intros w; cbn [session].
  - apply Hrefl.
  - exact (Htrans _ _ _ (Hstep c w) (IH _)).
Qed.

Lemma session_app (a b : list call) (w : World) :
  session (a ++ b) w = session b (session a w).
Proof.
  revert w. induction a as [|c a IH]; intros w; [reflexivity|].
  cbn [app session]. apply IH.
Qed.

End SessionProperties.

Lemma unchanged_refl {X : Type} (part : World -> X) (w : World) :
  unchanged part w w.
Proof. reflexivity. Qed.

Lemma unchanged_trans {X : Type} (part : World -> X) (a b c : World) :
  unchanged part a b -> unchanged part b c -> unchanged part a c.
Proof. unfold unchanged. congruence. Qed.

(** Unfolds the methods down to their reads, writes and prints. *)
Ltac checks_and_reports :=
  unfold perform, discard, set_home_position, get_safety_status, is_safe,
    and_then, monitor_tick, check_battery, check_tilt, check_geofence,
    check_altitude, descend_to_safe_altitude, save_log, print.

Ltac commands_and_dispatch :=
  unfold handle_emergency, dispatch, on_failure, check_battery, check_tilt,
    check_geofence, check_altitude, descend_to_safe_altitude, print.

Ltac methods :=
  checks_and_reports; commands_and_dispatch;
  unfold return_to_home, emergency_land, write_mode, log_warning, print.

(** A write that leaves the part at hand alone. *)
Ltac untouched :=
  idtac;
  match goal with
  | |- steps (unchanged _) (modify _) =>
      apply steps_modify; intros ?; reflexivity
  | |- forall w, unchanged _ w (_ w) => intros ?; reflexivity
  end.


Section SessionInvariants.
Context {P : Platform}.

Lemma perform_keeps_settings (c : call) :
  steps (unchanged (fun w => settings (self w))) (perform c).
Proof.
  destruct c; methods;
    step_with (unchanged_refl (fun w => settings (self w)))
              (unchanged_trans (fun w => settings (self w)))
              untouched.
Qed.

Lemma perform_keeps_home (c : call) :
  sets_home c = false -> steps (unchanged home) (perform c).
Proof.
  destruct c; intros H; try discriminate H; methods;
    step_with (unchanged_refl home) (unchanged_trans home) untouched.
Qed.

(** X1. What the monitor was built with stays: after any sequence of
    calls of its methods other than [start_monitoring] and
    [stop_monitoring], whether the calls return or raise, the five limits,
    the geofence switch and the [monitoring] flag are what they were; and
    the home position changes in [set_home_position] only. *)
Theorem session_keeps_settings (calls : list call) (w : World) :
  settings (self (session calls w)) = settings (self w) /\
  (Forall (fun c => sets_home c = false) calls ->
   home (session calls w) = home w).
Proof.
  split.
  - apply (session_steps (unchanged (fun w => settings (self w))));
      [apply unchanged_refl|apply unchanged_trans|apply perform_keeps_settings].
  - intros H. revert w. induction H as [|c rest Hc _ IH]; intros w;
      cbn [session]; [reflexivity|].
    rewrite IH. apply (perform_keeps_home c Hc w).
Qed.

(** ** The log only grows *)

Lemma log_extended_refl (w : World) : log_extended w w.
Proof.
  exists []. cbn [stamped map List.length Nat.add].
  rewrite !app_nil_r. repeat split.
Qed.

Lemma log_extended_trans (a b c : World) :
  log_extended a b -> log_extended b c -> log_extended a c.
Proof.
  intros (m1 & Hl1 & Ho1 & Hc1) (m2 & Hl2 & Ho2 & Hc2).
  exists (m1 ++ m2)%list.
  rewrite Hl2, Ho2, Hc2, Hl1, Ho1, Hc1, stamped_app, map_app, length_app.
  rewrite !app_assoc. repeat split. lia.
Qed.

Lemma log_extended_quiet (w w' : World) :
  safety_log (self w') = safety_log (self w) ->
  warnings (stdout w') = warnings (stdout w) ->
  clock_reads w' = clock_reads w ->
  log_extended w w'.
Proof.
  intros Hl Ho Hc. exists []. cbn [stamped map List.length Nat.add].
  rewrite !app_nil_r. repeat split; assumption.
Qed.

Lemma log_warning_extends (message : string) :
  steps log_extended (log_warning message).
Proof.
  intros w. exists [message]. unfold log_warning. run.
  cbn [snd self on_self put_line stdout tick_clock clock_reads safety_log
       set_safety_log stamped map List.length].
  unfold warnings. rewrite filter_app. repeat split.
Qed.

Lemma warnings_quiet (out : list stdout_line) (l : stdout_line) :
  is_warning l = false -> warnings (out ++ [l]) = warnings out.
Proof.
  intros H. unfold warnings. rewrite filter_app. cbn [filter]. rewrite H.
  apply app_nil_r.
Qed.

(** A write that adds nothing to the log and prints no warning. *)
Ltac quiet :=
  idtac;
  match goal with
  | |- steps log_extended (log_warning _) => apply log_warning_extends
  | |- steps log_extended (modify _) =>
      apply steps_modify; intros ?; apply log_extended_quiet;
      [reflexivity
      |first [reflexivity|apply warnings_quiet; reflexivity]
      |reflexivity]
  | |- forall w, log_extended w (_ w) =>
      intros ?; apply log_extended_quiet; reflexivity
  end.

Lemma perform_extends_log (c : call) : steps log_extended (perform c).
Proof.
  destruct c; checks_and_reports; commands_and_dispatch;
    unfold return_to_home, emergency_land, write_mode, print;
    step_with log_extended_refl log_extended_trans quiet.
Qed.

(** X2. The log is append-only.  After any sequence of calls of the
    monitor's methods, the log is the log before followed by new entries;
    each new entry carries the stamp of a clock reading of its own, the
    readings being consecutive, and has been printed as a warning, in the
    same order.  No method removes, rewrites or reorders an entry. *)
Theorem session_extends_log (calls : list call) (w : World) :
  log_extended w (session calls w).
Proof.
  apply (session_steps log_extended);
    [apply log_extended_refl|apply log_extended_trans
    |apply perform_extends_log].
Qed.

(** ** The vehicle is only ever commanded *)

Lemma vehicle_commanded_refl (w : World) : vehicle_commanded w w.
Proof.
  unfold vehicle_commanded. destruct (vehicle (self w)); [|exact I].
  split; [reflexivity|left; reflexivity].
Qed.

Lemma vehicle_commanded_trans (a b c : World) :
  vehicle_commanded a b -> vehicle_commanded b c -> vehicle_commanded a c.
Proof.
  unfold vehicle_commanded.
  destruct (vehicle (self a)) as [va|], (vehicle (self b)) as [vb|],
           (vehicle (self c)) as [vc|]; try tauto.
  intros (Ht1 & Hm1) (Ht2 & Hm2). split; [congruence|].
  destruct Hm2 as [Hm2|Hm2]; [rewrite Hm2; exact Hm1|right; exact Hm2].
Qed.

Lemma vehicle_commanded_same (w w' : World) :
  vehicle (self w') = vehicle (self w) -> vehicle_commanded w w'.
Proof.
  intros H. unfold vehicle_commanded. rewrite H.
  destruct (vehicle (self w)); [|exact I].
  split; [reflexivity|left; reflexivity].
Qed.

Lemma return_to_home_commands : steps vehicle_commanded return_to_home.
Proof.
  intros w. destruct (vehicle (self w)) as [v|] eqn:Hv.
  - rewrite (return_to_home_eq w Hv).
    destruct (mode_write_ok v "RTL"); cbn [snd].
    + unfold vehicle_commanded. rewrite Hv. cbn.
      split; [reflexivity|right; left; reflexivity].
    + apply vehicle_commanded_same. reflexivity.
  - unfold return_to_home. run. rewrite Hv. apply vehicle_commanded_refl.
Qed.

Lemma emergency_land_commands : steps vehicle_commanded emergency_land.
Proof.
  intros w. destruct (vehicle (self w)) as [v|] eqn:Hv.
  - rewrite (emergency_land_eq w Hv).
    destruct (mode_write_ok v "LAND"); cbn [snd].
    + unfold vehicle_commanded. rewrite Hv. cbn.
      split; [reflexivity|right; right; reflexivity].
    + apply vehicle_commanded_same. reflexivity.
  - unfold emergency_land. run. rewrite Hv. apply vehicle_commanded_refl.
Qed.

(** A write that leaves the vehicle alone, or one of the two commands. *)
Ltac commanded :=
  idtac;
  match goal with
  | |- steps vehicle_commanded return_to_home => apply return_to_home_commands
  | |- steps vehicle_commanded emergency_land => apply emergency_land_commands
  | |- steps vehicle_commanded (modify _) =>
      apply steps_modify; intros ?; apply vehicle_commanded_same; reflexivity
  | |- forall w, vehicle_commanded w (_ w) =>
      intros ?; apply vehicle_commanded_same; reflexivity
  end.

Lemma perform_commands_vehicle (c : call) :
  steps vehicle_commanded (perform c).
Proof.
  destruct c; checks_and_reports; commands_and_dispatch;
    unfold log_warning, print;
    step_with vehicle_commanded_refl vehicle_commanded_trans commanded.
Qed.

(** X3. The monitor never alters what it reads of the vehicle and never
    attaches or detaches one: after any sequence of calls the vehicle's
    position, altitude, battery level, pitch and roll are what they were,
    and its mode is the mode it had, RTL or LAND.  No other mode is ever
    written. *)
Theorem session_commands_vehicle (calls : list call) (w : World) :
  vehicle_commanded w (session calls w).
Proof.
  apply (session_steps vehicle_commanded);
    [apply vehicle_commanded_refl|apply vehicle_commanded_trans
    |apply perform_commands_vehicle].
Qed.

(** ** The guard between calls *)

Lemma kept_refl (I : World -> Prop) (w : World) : kept I w w.
Proof. intros H. exact H. Qed.

Lemma kept_trans (I : World -> Prop) (a b c : World) :
  kept I a b -> kept I b c -> kept I a c.
Proof. unfold kept. tauto. Qed.

Ltac stays_attached :=
  idtac;
  match goal with
  | |- steps (kept attached) (modify _) =>
      apply steps_modify; intros ? ?;
      first [assumption|cbv [attached]; cbn; discriminate]
  | |- forall w, kept attached w (_ w) => intros ? ?; assumption
  end.

Lemma dispatch_stays_attached :
  steps (kept attached) (try_except dispatch on_failure).
Proof.
  commands_and_dispatch.
  unfold return_to_home, emergency_land, write_mode, log_warning, print.
  step_with (kept_refl attached) (kept_trans attached) stays_attached.
Qed.

Lemma handle_emergency_stays_ready : steps (kept ready) handle_emergency.
Proof.
  intros w (Hv & Hg). destruct (vehicle (self w)) as [v|] eqn:Ev;
    [|congruence].
  rewrite (handle_emergency_phases w Hg Ev).
  unfold guarded_dispatch, try_finally.
  assert (Ha : attached (acquire_guard w)).
  { unfold attached. cbn. rewrite Ev. discriminate. }
  pose proof (dispatch_stays_attached (acquire_guard w) Ha) as Hk.
  destruct (try_except dispatch on_failure (acquire_guard w)) as [r w'].
  cbn [snd] in *. split; [exact Hk|reflexivity].
Qed.

Ltac stays_ready :=
  idtac;
  match goal with
  | |- steps (kept ready) handle_emergency => apply handle_emergency_stays_ready
  | |- steps (kept ready) (modify _) =>
      apply steps_modify; intros ? [? ?]; split;
      [first [assumption|cbn; discriminate]|assumption]
  end.

Lemma perform_stays_ready (c : call) : steps (kept ready) (perform c).
Proof.
  destruct c; checks_and_reports;
    unfold return_to_home, emergency_land, write_mode, log_warning, print;
    step_with (kept_refl ready) (kept_trans ready) stays_ready.
Qed.

(** X4. With a vehicle attached the guard is clear between calls: if
    [emergency_triggered] is false before a sequence of calls of the
    monitor's methods, it is false after it, whichever calls returned and
    whichever raised.  [handle_emergency] can therefore never find itself
    locked out by an earlier call. *)
Theorem session_keeps_ready (calls : list call) (w : World) :
  ready w -> ready (session calls w).
Proof.
  apply (session_steps (kept ready));
    [apply kept_refl|apply kept_trans|apply perform_stays_ready].
Qed.

End SessionInvariants.

(* ===================================================================== *)
(** * The aggregate check, the report and the loop on a failing snapshot *)
(* ===================================================================== *)

Section FailingSnapshot.
Context {P : Platform}.

(** [is_safe] stops at the first check that fails. *)
Lemma is_safe_eq (w : World) v :
  vehicle (self w) = Some v ->
  is_safe w =
  if altitude_exceeded (self w) v then
    (Return false, logged (altitude_message (self w) v) w)
  else if battery_low (self w) v then
    (Return false, logged (battery_message (self w) v) w)
  else if tilt_excessive (self w) v then
    (Return false, logged (tilt_message v) w)
  else check_geofence w.
Proof.
  intros Hv. unfold is_safe, and_then, bind at 1, gets at 1. rewrite Hv.
  unfold bind at 1. rewrite (check_altitude_eq w Hv).
  destruct (altitude_exceeded (self w) v); [reflexivity|].
  unfold bind at 1. rewrite (check_battery_eq w Hv).
  destruct (battery_low (self w) v); [reflexivity|].
  unfold bind at 1. rewrite (check_tilt_eq w Hv).
  destruct (tilt_excessive (self w) v); [reflexivity|].
  reflexivity.
Qed.

(** The outcome of [is_safe] when the geofence check, if reached,
    returns. *)
Lemma is_safe_outcome (w : World) v :
  vehicle (self w) = Some v ->
  (altitude_exceeded (self w) v = false ->
   battery_low (self w) v = false ->
   tilt_excessive (self w) v = false ->
   forall e, geofence_distance (self w) v <> Some (inl e)) ->
  is_safe w = (Return (no_failure (self w) v), snd (is_safe w)) /\
  only_logged (first_failure (self w) v) w (snd (is_safe w)).
Proof.
  intros Hv Hgeo. rewrite (is_safe_eq w v Hv).
  unfold no_failure, first_failure, failure_messages, altitude_failure,
    battery_failure, tilt_failure, geofence_failure.
  destruct (altitude_exceeded (self w) v);
    [split; [reflexivity|apply only_logged_one]|].
  destruct (battery_low (self w) v);
    [split; [reflexivity|apply only_logged_one]|].
  destruct (tilt_excessive (self w) v);
    [split; [reflexivity|apply only_logged_one]|].
  specialize (Hgeo eq_refl eq_refl eq_refl).
  rewrite (check_geofence_eq w Hv).
  destruct (geofence_distance (self w) v) as [[e|d]|].
  - exfalso. exact (Hgeo e eq_refl).
  - destruct (Py.fgt d (geofence_radius (self w)));
      (split; [reflexivity|]); [apply only_logged_one|apply only_logged_nil].
  - split; [reflexivity|apply only_logged_nil].
Qed.

(** X5. With a vehicle attached, [is_safe] stops at the first failing
    check, in the order altitude, battery, tilt, geofence: it returns
    false exactly when some check fails, and then appends one entry to the
    log, the one of the first failing check, whatever the later checks
    would have found; it appends none when it returns true.  (The geofence
    check is assumed to return if it is reached.) *)
Theorem is_safe_logs_first_failure (w : World) v :
  vehicle (self w) = Some v ->
  (altitude_exceeded (self w) v = false ->
   battery_low (self w) v = false ->
   tilt_excessive (self w) v = false ->
   forall e, geofence_distance (self w) v <> Some (inl e)) ->
  exists w',
    is_safe w = (Return (no_failure (self w) v), w') /\
    only_logged (first_failure (self w) v) w w' /\
    List.length (first_failure (self w) v) =
      (if no_failure (self w) v then 0 else 1).
Proof.
  intros Hv Hgeo. destruct (is_safe_outcome w v Hv Hgeo) as (Hrun & Hlog).
  exists (snd (is_safe w)). split; [exact Hrun|]. split; [exact Hlog|].
  unfold first_failure, no_failure.
  destruct (failure_messages (self w) v); reflexivity.
Qed.

Lemma distance_computable_geofence (m : SafetyMonitor) v :
  distance_computable m v ->
  forall e, geofence_distance m v <> Some (inl e).
Proof.
  intros Hd e. unfold geofence_distance.
  destruct (geofence_enabled m); [|discriminate].
  destruct (home_lat m) as [la|] eqn:Hla; [|discriminate].
  destruct (home_lon m) as [lo|] eqn:Hlo; [|discriminate].
  destruct (Hd la lo Hla Hlo) as (d & ->). discriminate.
Qed.

(** X6. [get_safety_status] is no pure query: with a vehicle attached it
    runs [is_safe], so on a snapshot with a failing check every call
    appends an entry to the log (and prints it), and the report's
    ["warnings"] field counts that entry; ["safe"] is false exactly when a
    check fails.  (The distance from home is assumed to be computable.) *)
Theorem get_safety_status_logs (w : World) v :
  vehicle (self w) = Some v ->
  distance_computable (self w) v ->
  exists d w',
    get_safety_status w = (Return d, w') /\
    only_logged (first_failure (self w) v) w w' /\
    dict_get "safe" d = Some (VBool (no_failure (self w) v)) /\
    dict_get "warnings" d =
      Some (VInt (Z.of_nat (List.length (safety_log (self w)) +
                            List.length (first_failure (self w) v)))).
Proof.
  intros Hv Hd.
  destruct (is_safe_outcome w v Hv
              (fun _ _ _ => distance_computable_geofence (self w) v Hd))
    as (Hrun & Hlog).
  assert (Hdist :
    truthy (home_lat (self w)) && truthy (home_lon (self w)) = false \/
    exists la lo d,
      home_lat (self w) = Some la /\ home_lon (self w) = Some lo /\
      calculate_distance la lo (lat v) (lon v) = inr d).
  { destruct (home_lat (self w)) as [la|] eqn:Hla; [|left; reflexivity].
    destruct (home_lon (self w)) as [lo|] eqn:Hlo;
      [|left; apply andb_false_r].
    destruct (Hd la lo Hla Hlo) as (d & Hcd).
    right. exists la, lo, d. repeat split. exact Hcd. }
  destruct (get_safety_status_attached w Hv Hdist Hrun)
    as (d & Hstatus & _ & Hsafe & Hwarn).
  exists d, (snd (is_safe w)).
  split; [exact Hstatus|]. split; [exact Hlog|]. split; [exact Hsafe|].
  rewrite Hwarn. destruct Hlog as (-> & _).
  cbn [safety_log set_safety_log]. rewrite length_app.
  unfold first_failure at 1.
  replace (List.length (stamped (clock_reads w)
                          (firstn 1 (failure_messages (self w) v))))
    with (List.length (first_failure (self w) v)); [reflexivity|].
  unfold first_failure.
  destruct (failure_messages (self w) v); reflexivity.
Qed.

(** A tick whose geofence check raises: the three checks before it have
    logged their failures. *)
Lemma monitor_tick_raises (w : World) v e :
  vehicle (self w) = Some v ->
  geofence_distance (self w) v = Some (inl e) ->
  exists w', monitor_tick w = (Raise e, w') /\
             only_logged (altitude_failure (self w) v ++
                          battery_failure (self w) v ++
                          tilt_failure (self w) v)%list w w'.
Proof.
  intros Hv Hgeo. unfold monitor_tick. run. rewrite Hv.
  destruct (check_altitude_logs w Hv) as (w1 & E1 & L1). rewrite E1.
  assert (S1 : self w1 = set_safety_log (safety_log (self w1)) (self w))
    by (destruct L1 as (-> & _); reflexivity).
  assert (Hv1 : vehicle (self w1) = Some v) by (rewrite S1; exact Hv).
  destruct (check_battery_logs w1 Hv1) as (w2 & E2 & L2). rewrite E2.
  assert (S2 : self w2 = set_safety_log (safety_log (self w2)) (self w))
    by (destruct L2 as (-> & _); rewrite S1; reflexivity).
  assert (Hv2 : vehicle (self w2) = Some v) by (rewrite S2; exact Hv).
  destruct (check_tilt_logs w2 Hv2) as (w3 & E3 & L3). rewrite E3.
  assert (S3 : self w3 = set_safety_log (safety_log (self w3)) (self w))
    by (destruct L3 as (-> & _); rewrite S2; reflexivity).
  assert (Hv3 : vehicle (self w3) = Some v) by (rewrite S3; exact Hv).
  rewrite (check_geofence_eq w3 Hv3).
  replace (geofence_distance (self w3) v) with (geofence_distance (self w) v)
    by (rewrite S3; reflexivity).
  rewrite Hgeo. exists w3. split; [reflexivity|].
  rewrite S1 in L2. rewrite S2 in L3.
  exact (only_logged_trans L1 (only_logged_trans L2 L3)).
Qed.

(** X7. An error of the distance computation is not caught by the checks:
    when [calculate_distance] raises on the home position and the
    vehicle's position, [check_geofence] raises the same exception and
    changes nothing; so do [is_safe] and the status report when altitude,
    battery and tilt are inside their limits; and a tick of the loop
    raises it after logging the failures of the three checks that run
    before the geofence check. *)
Theorem distance_error_propagates (w : World) v e :
  vehicle (self w) = Some v ->
  geofence_distance (self w) v = Some (inl e) ->
  check_geofence w = (Raise e, w) /\
  (altitude_exceeded (self w) v = false ->
   battery_low (self w) v = false ->
   tilt_excessive (self w) v = false ->
   is_safe w = (Raise e, w) /\ get_safety_status w = (Raise e, w)) /\
  exists w', monitor_tick w = (Raise e, w') /\
             only_logged (altitude_failure (self w) v ++
                          battery_failure (self w) v ++
                          tilt_failure (self w) v)%list w w'.
Proof.
  intros Hv Hgeo.
  assert (Hcheck : check_geofence w = (Raise e, w))
    by (rewrite (check_geofence_eq w Hv), Hgeo; reflexivity).
  split; [exact Hcheck|]. split; [|exact (monitor_tick_raises w v e Hv Hgeo)].
  intros Ha Hb Ht.
  assert (Hsafe : is_safe w = (Raise e, w))
    by (rewrite (is_safe_eq w v Hv), Ha, Hb, Ht; exact Hcheck).
  split; [exact Hsafe|].
  unfold geofence_distance in Hgeo.
  destruct (geofence_enabled (self w)); [|discriminate Hgeo].
  destruct (home_lat (self w)) as [la|] eqn:Hla; [|discriminate Hgeo].
  destruct (home_lon (self w)) as [lo|] eqn:Hlo; [|discriminate Hgeo].
  assert (Hcd : calculate_distance la lo (lat v) (lon v) = inl e)
    by congruence.
  unfold get_safety_status. run. rewrite Hv, Hla, Hlo.
  destruct (truthy (Some la) && truthy (Some lo)).
  - rewrite Hcd. reflexivity.
  - rewrite Hsafe. reflexivity.
Qed.

Lemma stamped_length (n : nat) (messages : list string) :
  List.length (stamped n messages) = List.length messages.
Proof.
  revert n. induction messages as [|m ms IH]; intros n; [reflexivity|].
  cbn [stamped List.length]. rewrite IH. reflexivity.
Qed.

Lemma repeated_length (passes : nat) (messages : list string) :
  List.length (repeated passes messages) = passes * List.length messages.
Proof.
  induction passes as [|n IH]; [reflexivity|].
  cbn [repeated Nat.mul]. rewrite length_app, IH. reflexivity.
Qed.

Lemma failure_messages_log (l : list string) (m : SafetyMonitor) v :
  failure_messages (set_safety_log l m) v = failure_messages m v.
Proof. reflexivity. Qed.

(** X8. The loop logs again on every pass: while the telemetry stays as
    it is and nobody stops the monitor, each pass of [_monitor_loop]
    appends the entries of all failing checks once more, so after [n]
    passes the log has grown by [n] times the failing checks (two passes
    per second). *)
Theorem monitor_loop_logs_each_pass (passes : nat) (w : World) v :
  vehicle (self w) = Some v ->
  monitoring (self w) = true ->
  (forall e, geofence_distance (self w) v <> Some (inl e)) ->
  exists w',
    _monitor_loop (undisturbed passes) w = (Return tt, w') /\
    only_logged (repeated passes (failure_messages (self w) v)) w w' /\
    List.length (safety_log (self w')) =
      List.length (safety_log (self w)) +
      passes * List.length (failure_messages (self w) v).
Proof.
  intros Hv Hm Hgeo.
  assert (Hloop : exists w',
    _monitor_loop (undisturbed passes) w = (Return tt, w') /\
    only_logged (repeated passes (failure_messages (self w) v)) w w').
  { revert w Hv Hm Hgeo. induction passes as [|n IH]; intros w Hv Hm Hgeo.
    - exists w. split; [reflexivity|apply only_logged_nil].
    - destruct (monitor_tick_logs_failures w Hv Hgeo) as (w1 & Htick & L1).
      assert (S1 : self w1 = set_safety_log (safety_log (self w1)) (self w))
        by (destruct L1 as (-> & _); reflexivity).
      assert (Hv1 : vehicle (self w1) = Some v) by (rewrite S1; exact Hv).
      assert (Hm1 : monitoring (self w1) = true) by (rewrite S1; exact Hm).
      assert (Hgeo1 : forall e, geofence_distance (self w1) v <> Some (inl e))
        by (rewrite S1; exact Hgeo).
      destruct (IH w1 Hv1 Hm1 Hgeo1) as (w' & Hrest & L2).
      exists w'. unfold undisturbed. cbn [repeat].
      rewrite monitor_loop_unfold, Hm. run. rewrite Htick.
      split; [exact Hrest|].
      rewrite S1, failure_messages_log in L2.
      exact (only_logged_trans L1 L2). }
  destruct Hloop as (w' & Hrun & Hlog). exists w'.
  split; [exact Hrun|]. split; [exact Hlog|].
  destruct Hlog as (-> & _). cbn [safety_log set_safety_log].
  rewrite length_app, stamped_length, repeated_length. reflexivity.
Qed.

(** X9. An exception ends the loop and leaves the switch on: when the
    distance computation raises during a pass, [_monitor_loop] ends with
    that exception (nothing in the loop catches it) and [monitoring] is
    still true; a later [start_monitoring] then finds the flag set, prints
    that monitoring is already running and starts no thread. *)
Theorem monitor_loop_dies_with_flag_set (t : Threads) v e env rest :
  monitoring (self (object t)) = true ->
  vehicle (self (object t)) = Some v ->
  geofence_distance (self (object t)) v = Some (inl e) ->
  exists w',
    _monitor_loop (env :: rest) (object t) = (Raise e, w') /\
    monitoring (self w') = true /\
    started (start_monitoring (with_object w' t)) = started t /\
    monitor_thread (start_monitoring (with_object w' t)) = monitor_thread t /\
    switch_out (start_monitoring (with_object w' t)) =
      (switch_out t ++ [PrintAlreadyRunning])%list.
Proof.
  intros Hm Hv Hgeo.
  destruct (monitor_tick_raises (object t) v e Hv Hgeo) as (w' & Htick & Hlog).
  assert (Hm' : monitoring (self w') = true)
    by (destruct Hlog as (-> & _); exact Hm).
  exists w'. rewrite monitor_loop_unfold, Hm. run. rewrite Htick.
  split; [reflexivity|]. split; [exact Hm'|].
  unfold start_monitoring, with_object. cbn [object]. rewrite Hm'.
  repeat split.
Qed.

(** X10. The monitoring switch.  [start_monitoring] sets the flag and
    starts a thread only when the flag is clear: called twice in a row it
    starts one thread, the second call changing nothing but the output.
    [stop_monitoring] clears the flag, so that the loop returns at its next
    test of the flag without running another pass, joins the thread if
    there is one, and a later [start_monitoring] starts a new thread. *)
Theorem monitoring_switch (t : Threads) (during_sleep : list (World -> World)) :
  let once := start_monitoring t in
  let twice := start_monitoring once in
  let stopped := stop_monitoring t in
  monitoring (self (object once)) = true /\
  object twice = object once /\
  started twice = started once /\
  monitor_thread twice = monitor_thread once /\
  started once <= S (started t) /\
  monitoring (self (object stopped)) = false /\
  _monitor_loop during_sleep (object stopped) = (Return tt, object stopped) /\
  started (start_monitoring stopped) = S (started t) /\
  monitor_thread (start_monitoring stopped) = Some (started t).
Proof.
  cbv zeta.
  assert (Hon : monitoring (self (object (start_monitoring t))) = true).
  { unfold start_monitoring.
    destruct (monitoring (self (object t))) eqn:E; [exact E|reflexivity]. }
  split; [exact Hon|].
  assert (Hsame : start_monitoring (start_monitoring t) =
                  {| object := object (start_monitoring t);
                     monitor_thread := monitor_thread (start_monitoring t);
                     started := started (start_monitoring t);
                     joined := joined (start_monitoring t);
                     switch_out := (switch_out (start_monitoring t) ++
                                    [PrintAlreadyRunning])%list |}).
  { unfold start_monitoring at 1. rewrite Hon. reflexivity. }
  rewrite Hsame. cbn [object started monitor_thread].
  split; [reflexivity|]. split; [reflexivity|]. split; [reflexivity|].
  split.
  { unfold start_monitoring.
    destruct (monitoring (self (object t))); cbn [started]; lia. }
  split; [reflexivity|].
  split.
  { destruct during_sleep as [|env rest]; [reflexivity|].
    rewrite monitor_loop_unfold. reflexivity. }
  split; reflexivity.
Qed.

End FailingSnapshot.

(* ===================================================================== *)
(** * The branches of the dispatcher *)
(* ===================================================================== *)

Section DispatcherBranches.
Context {P : Platform}.

Ltac tally_commands :=
  repeat progress
    (cbn [stdout release_guard on_self put_line acquire_guard];
     rewrite ?commands_app, ?logged_commands;
     cbn [commands command_of app];
     rewrite ?app_nil_r).

Lemma guard_round_trip (w : World) :
  emergency_triggered (self w) = false ->
  release_guard (acquire_guard w) = put_line PrintEmergencyActivated w.
Proof.
  intros Hg. destruct w as [m out c fs]. destruct m. cbn in Hg. subst.
  reflexivity.
Qed.

(** X11. Tilt comes before geofence and altitude.  With the battery above
    its floor and the tilt over its limit, a dispatch that finds the guard
    clear commands the emergency landing and nothing else, wherever the
    vehicle is and however high: the geofence and altitude checks are not
    run (so the distance is not computed and cannot raise), one entry, the
    tilt warning, is appended to the log, and the guard is released. *)
Theorem tilt_takes_priority_over_geofence (w : World) v :
  vehicle (self w) = Some v ->
  emergency_triggered (self w) = false ->
  battery_low (self w) v = false ->
  tilt_excessive (self w) v = true ->
  mode_write_ok v "LAND" = true ->
  exists w',
    handle_emergency w = (Return tt, w') /\
    vehicle (self w') = Some (with_mode "LAND" v) /\
    commands (stdout w') = (commands (stdout w) ++ [EmergencyLand])%list /\
    safety_log (self w') =
      (safety_log (self w) ++
       [entry_text (now (clock_reads w)) (tilt_message v)])%list /\
    emergency_triggered (self w') = false.
Proof.
  intros Hv Hg Hb Ht Hok. eexists.
  rewrite (handle_emergency_phases w Hg Hv).
  unfold guarded_dispatch. run.
  rewrite (dispatch_eq (acquire_guard w) (v := v) Hv).
  change (battery_low (self (acquire_guard w)) v) with (battery_low (self w) v).
  change (tilt_excessive (self (acquire_guard w)) v)
    with (tilt_excessive (self w) v).
  rewrite Hb, Ht.
  rewrite (check_tilt_eq (acquire_guard w) (v := v) Hv).
  change (tilt_excessive (self (acquire_guard w)) v)
    with (tilt_excessive (self w) v).
  rewrite Ht. cbn [snd].
  erewrite emergency_land_eq by (cbn; exact Hv).
  rewrite Hok. split; [reflexivity|]. split; [reflexivity|].
  split; [tally_commands; reflexivity|]. split; reflexivity.
Qed.

(** X12. Geofence comes before altitude.  With battery and tilt inside
    their limits and the vehicle farther from home than the radius, a
    dispatch that finds the guard clear commands "return to launch" and
    nothing else, however high the vehicle is: the altitude check is not
    run, and one entry, the geofence warning, is appended to the log. *)
Theorem geofence_takes_priority_over_altitude (w : World) v d :
  vehicle (self w) = Some v ->
  emergency_triggered (self w) = false ->
  battery_low (self w) v = false ->
  tilt_excessive (self w) v = false ->
  geofence_distance (self w) v = Some (inr d) ->
  Py.fgt d (geofence_radius (self w)) = true ->
  mode_write_ok v "RTL" = true ->
  exists w',
    handle_emergency w = (Return tt, w') /\
    vehicle (self w') = Some (with_mode "RTL" v) /\
    commands (stdout w') = (commands (stdout w) ++ [ReturnToLaunch])%list /\
    safety_log (self w') =
      (safety_log (self w) ++
       [entry_text (now (clock_reads w)) (geofence_message (self w) d)])%list /\
    emergency_triggered (self w') = false.
Proof.
  intros Hv Hg Hb Ht Hgeo Hd Hok. eexists.
  rewrite (handle_emergency_phases w Hg Hv).
  unfold guarded_dispatch. run.
  rewrite (dispatch_eq (acquire_guard w) (v := v) Hv).
  change (battery_low (self (acquire_guard w)) v) with (battery_low (self w) v).
  change (tilt_excessive (self (acquire_guard w)) v)
    with (tilt_excessive (self w) v).
  rewrite Hb, Ht.
  rewrite (check_geofence_eq (acquire_guard w) (v := v) Hv).
  change (geofence_distance (self (acquire_guard w)) v)
    with (geofence_distance (self w) v).
  change (geofence_radius (self (acquire_guard w)))
    with (geofence_radius (self w)).
  rewrite Hgeo, Hd.
  erewrite return_to_home_eq by (cbn; exact Hv).
  rewrite Hok. split; [reflexivity|]. split; [reflexivity|].
  split; [tally_commands; reflexivity|]. split; reflexivity.
Qed.

Lemma geofence_passes_check (w : World) v :
  vehicle (self w) = Some v ->
  geofence_passes (self w) v ->
  check_geofence w = (Return true, w).
Proof.
  intros Hv Hp. rewrite (check_geofence_eq w Hv).
  unfold geofence_passes in Hp.
  destruct (geofence_distance (self w) v) as [[e|d]|];
    [contradiction|rewrite Hp; reflexivity|reflexivity].
Qed.

(** X13. An altitude violation alone changes nothing on the vehicle.
    With battery, tilt and geofence inside their limits and the altitude
    over the ceiling, a dispatch that finds the guard clear prints the
    descent to [max_altitude * 0.8] and returns: the vehicle, its mode
    included, is exactly as it was (no command reaches it), one entry, the
    altitude warning, is appended to the log, and the guard is released. *)
Theorem altitude_alone_leaves_vehicle (w : World) v :
  vehicle (self w) = Some v ->
  emergency_triggered (self w) = false ->
  battery_low (self w) v = false ->
  tilt_excessive (self w) v = false ->
  geofence_passes (self w) v ->
  altitude_exceeded (self w) v = true ->
  exists w',
    handle_emergency w = (Return tt, w') /\
    vehicle (self w') = Some v /\
    commands (stdout w') =
      (commands (stdout w) ++
       [Descend (Py.fmul (max_altitude (self w)) Py.f0_8)])%list /\
    safety_log (self w') =
      (safety_log (self w) ++
       [entry_text (now (clock_reads w)) (altitude_message (self w) v)])%list /\
    emergency_triggered (self w') = false.
Proof.
  intros Hv Hg Hb Ht Hgeo Ha. eexists.
  rewrite (handle_emergency_phases w Hg Hv).
  unfold guarded_dispatch. run.
  rewrite (dispatch_eq (acquire_guard w) (v := v) Hv).
  change (battery_low (self (acquire_guard w)) v) with (battery_low (self w) v).
  change (tilt_excessive (self (acquire_guard w)) v)
    with (tilt_excessive (self w) v).
  change (altitude_exceeded (self (acquire_guard w)) v)
    with (altitude_exceeded (self w) v).
  rewrite Hb, Ht, Ha.
  rewrite (geofence_passes_check (acquire_guard w) v Hv Hgeo).
  rewrite (check_altitude_eq (acquire_guard w) (v := v) Hv).
  change (altitude_exceeded (self (acquire_guard w)) v)
    with (altitude_exceeded (self w) v).
  rewrite Ha. cbn [snd].
  erewrite descend_to_safe_altitude_eq by (cbn; exact Hv).
  split; [reflexivity|]. split; [cbn; exact Hv|].
  split; [tally_commands; reflexivity|]. split; reflexivity.
Qed.

(** X14. A dispatch with nothing to act on.  With a vehicle attached, the
    guard clear and all four checks passing, [handle_emergency] prints its
    activation line and returns: no command is issued, nothing is logged,
    and the monitor, guard included, is exactly as it was. *)
Theorem nothing_failing_nothing_commanded (w : World) v :
  vehicle (self w) = Some v ->
  emergency_triggered (self w) = false ->
  battery_low (self w) v = false ->
  tilt_excessive (self w) v = false ->
  geofence_passes (self w) v ->
  altitude_exceeded (self w) v = false ->
  handle_emergency w = (Return tt, put_line PrintEmergencyActivated w) /\
  self (snd (handle_emergency w)) = self w /\
  commands (stdout (snd (handle_emergency w))) = commands (stdout w).
Proof.
  intros Hv Hg Hb Ht Hgeo Ha.
  assert (H : handle_emergency w =
              (Return tt, put_line PrintEmergencyActivated w)).
  { rewrite (handle_emergency_phases w Hg Hv).
    unfold guarded_dispatch. run.
    rewrite (dispatch_eq (acquire_guard w) (v := v) Hv).
    change (battery_low (self (acquire_guard w)) v)
      with (battery_low (self w) v).
    change (tilt_excessive (self (acquire_guard w)) v)
      with (tilt_excessive (self w) v).
    change (altitude_exceeded (self (acquire_guard w)) v)
      with (altitude_exceeded (self w) v).
    rewrite Hb, Ht, Ha.
    rewrite (geofence_passes_check (acquire_guard w) v Hv Hgeo).
    rewrite (guard_round_trip w Hg). reflexivity. }
  rewrite H. cbn [snd]. split; [reflexivity|]. split; [reflexivity|].
  tally_commands. reflexivity.
Qed.

(** X15. A vehicle that refuses every mode.  When the battery or the tilt
    check fails and the vehicle raises on every write of its mode, the
    command raises, the [except] clause prints the failure and its
    fallback landing raises as well: [handle_emergency] ends with the
    vehicle's exception, the vehicle is as it was, and the guard is
    released. *)
Theorem refused_commands_raise (w : World) v :
  vehicle (self w) = Some v ->
  emergency_triggered (self w) = false ->
  battery_low (self w) v = true \/ tilt_excessive (self w) v = true ->
  (forall m, mode_write_ok v m = false) ->
  exists w',
    handle_emergency w = (Raise Py.VehicleError, w') /\
    vehicle (self w') = Some v /\
    emergency_triggered (self w') = false /\
    In (PrintHandlingFailed Py.VehicleError) (stdout w') /\
    In EmergencyLand (commands (stdout w')).
Proof.
  intros Hv Hg Hfail Hno.
  rewrite (handle_emergency_phases w Hg Hv).
  unfold guarded_dispatch. run.
  rewrite (dispatch_eq (acquire_guard w) (v := v) Hv).
  change (battery_low (self (acquire_guard w)) v) with (battery_low (self w) v).
  change (tilt_excessive (self (acquire_guard w)) v)
    with (tilt_excessive (self w) v).
  destruct (battery_low (self w) v) eqn:Hb.
  - rewrite (check_battery_eq (acquire_guard w) (v := v) Hv).
    change (battery_low (self (acquire_guard w)) v)
      with (battery_low (self w) v).
    rewrite Hb. cbn [snd].
    erewrite return_to_home_eq by (cbn; exact Hv).
    rewrite Hno. unfold on_failure. run. cbn [put_line].
    erewrite emergency_land_eq by (cbn; exact Hv).
    rewrite Hno. eexists. split; [reflexivity|]. split; [cbn; exact Hv|].
    split; [reflexivity|]. split.
    + cbn [stdout release_guard on_self put_line].
      repeat rewrite in_app_iff. cbn [In]. auto 10.
    + tally_commands. repeat rewrite in_app_iff. cbn [In]. auto 10.
  - destruct Hfail as [Hf|Hf]; [discriminate Hf|]. rewrite Hf.
    rewrite (check_tilt_eq (acquire_guard w) (v := v) Hv).
    change (tilt_excessive (self (acquire_guard w)) v)
      with (tilt_excessive (self w) v).
    rewrite Hf. cbn [snd].
    erewrite emergency_land_eq by (cbn; exact Hv).
    rewrite Hno. unfold on_failure. run. cbn [put_line].
    erewrite emergency_land_eq by (cbn; exact Hv).
    rewrite Hno. eexists. split; [reflexivity|]. split; [cbn; exact Hv|].
    split; [reflexivity|]. split.
    + cbn [stdout release_guard on_self put_line].
      repeat rewrite in_app_iff. cbn [In]. auto 10.
    + tally_commands. repeat rewrite in_app_iff. cbn [In]. auto 10.
Qed.

(** X16. An error of the distance computation lands the vehicle.  With
    battery and tilt inside their limits, when [calculate_distance] raises
    in the geofence check, the [except] clause of [handle_emergency]
    prints the failure and commands the emergency landing, whether or not
    any limit is violated: the mode becomes LAND, the altitude check is
    not run, nothing is logged, and the guard is released. *)
Theorem distance_error_lands (w : World) v e :
  vehicle (self w) = Some v ->
  emergency_triggered (self w) = false ->
  battery_low (self w) v = false ->
  tilt_excessive (self w) v = false ->
  geofence_distance (self w) v = Some (inl e) ->
  mode_write_ok v "LAND" = true ->
  exists w',
    handle_emergency w = (Return tt, w') /\
    vehicle (self w') = Some (with_mode "LAND" v) /\
    stdout w' = (stdout w ++ [PrintEmergencyActivated; PrintHandlingFailed e;
                              PrintEmergencyLanding])%list /\
    safety_log (self w') = safety_log (self w) /\
    emergency_triggered (self w') = false.
Proof.
  intros Hv Hg Hb Ht Hgeo Hok. eexists.
  rewrite (handle_emergency_phases w Hg Hv).
  unfold guarded_dispatch. run.
  rewrite (dispatch_eq (acquire_guard w) (v := v) Hv).
  change (battery_low (self (acquire_guard w)) v) with (battery_low (self w) v).
  change (tilt_excessive (self (acquire_guard w)) v)
    with (tilt_excessive (self w) v).
  rewrite Hb, Ht.
  rewrite (check_geofence_eq (acquire_guard w) (v := v) Hv).
  change (geofence_distance (self (acquire_guard w)) v)
    with (geofence_distance (self w) v).
  rewrite Hgeo. unfold on_failure. run. cbn [put_line].
  erewrite emergency_land_eq by (cbn; exact Hv).
  rewrite Hok. split; [reflexivity|]. split; [reflexivity|].
  split; [|split; reflexivity].
  cbn [stdout release_guard on_self put_line acquire_guard].
  rewrite <- !app_assoc. reflexivity.
Qed.

(** ** Without a vehicle *)

Lemma locked_out_return_to_home : steps (kept locked_out) return_to_home.
Proof.
  intros w (Hv & Hg). unfold return_to_home. run. rewrite Hv.
  split; assumption.
Qed.

Lemma locked_out_emergency_land : steps (kept locked_out) emergency_land.
Proof.
  intros w (Hv & Hg). unfold emergency_land. run. rewrite Hv.
  split; assumption.
Qed.

Lemma locked_out_handle_emergency : steps (kept locked_out) handle_emergency.
Proof.
  intros w (Hv & Hg). rewrite (handle_emergency_guarded w Hg).
  split; assumption.
Qed.

Ltac stays_locked_out :=
  idtac;
  match goal with
  | |- steps (kept locked_out) return_to_home => apply locked_out_return_to_home
  | |- steps (kept locked_out) emergency_land => apply locked_out_emergency_land
  | |- steps (kept locked_out) handle_emergency =>
      apply locked_out_handle_emergency
  | |- steps (kept locked_out) (modify _) =>
      apply steps_modify; intros ? [? ?]; split; assumption
  end.

Lemma perform_stays_locked_out (c : call) :
  steps (kept locked_out) (perform c).
Proof.
  destruct c; checks_and_reports; unfold log_warning, print;
    step_with (kept_refl locked_out) (kept_trans locked_out) stays_locked_out.
Qed.

(** X17. Without a vehicle the protocol runs once.  The first
    [handle_emergency] of a monitor with no vehicle prints its two lines
    and returns before the [try], so the guard it has set is not
    released; and no method clears it: after any sequence of calls the
    guard is still set and a further [handle_emergency] does nothing at
    all. *)
Theorem simulation_protocol_runs_once (w : World) (calls : list call) :
  vehicle (self w) = None ->
  emergency_triggered (self w) = false ->
  exists w1,
    handle_emergency w = (Return tt, w1) /\
    stdout w1 = (stdout w ++ [PrintEmergencyActivated;
                              PrintSimulationLanding])%list /\
    emergency_triggered (self (session calls w1)) = true /\
    handle_emergency (session calls w1) = (Return tt, session calls w1).
Proof.
  intros Hv Hg.
  destruct (handle_emergency_simulation_keeps_guard w Hg Hv) as (Hrun & Hset).
  rewrite Hrun in Hset. cbn [snd] in Hset.
  exists (put_line PrintSimulationLanding (acquire_guard w)).
  split; [exact Hrun|].
  split.
  { cbn [stdout put_line acquire_guard on_self]. rewrite <- app_assoc.
    reflexivity. }
  assert (Hlock : locked_out
            (session calls (put_line PrintSimulationLanding (acquire_guard w)))).
  { apply (session_steps (kept locked_out));
      [apply kept_refl|apply kept_trans|apply perform_stays_locked_out|].
    split; [exact Hv|exact Hset]. }
  destruct Hlock as (_ & Hg'). split; [exact Hg'|].
  apply handle_emergency_guarded. exact Hg'.
Qed.

End DispatcherBranches.

(* ===================================================================== *)
(** * Home, readings that are no numbers, and the direction of a tilt *)
(* ===================================================================== *)

Lemma fgt_nan (a b : Py.float) :
  Py.isnan a = true \/ Py.isnan b = true -> Py.fgt a b = false.
Proof.
  intros [H|H]; [destruct a; try discriminate H; reflexivity|].
  destruct b; try discriminate H. destruct a; reflexivity.
Qed.

Lemma flt_nan (a b : Py.float) :
  Py.isnan a = true \/ Py.isnan b = true -> Py.flt a b = false.
Proof.
  intros [H|H]; [destruct a; try discriminate H; reflexivity|].
  destruct b; try discriminate H. destruct a; reflexivity.
Qed.

Lemma degrees_nan (x : Py.float) :
  Py.isnan x = true -> Py.isnan (Py.fabs (Py.degrees x)) = true.
Proof. destruct x; intros H; try discriminate H. reflexivity. Qed.

Lemma fabs_fneg (x : Py.float) : Py.fabs (Py.fneg x) = Py.fabs x.
Proof. destruct x; reflexivity. Qed.

(** The fields [__init__] sets whatever the configuration. *)
Lemma init_state (v : option Vehicle) (config : dict) m lines :
  __init__ v config = Some (m, lines) ->
  vehicle m = v /\ home_lat m = None /\ home_lon m = None /\
  monitoring m = false /\ emergency_triggered m = false /\
  safety_log m = [].
Proof.
  unfold __init__. intros H.
  repeat match type of H with
         | match number ?x with _ => _ end = _ =>
             destruct (number x); [|discriminate H]
         end.
  injection H as <- _. repeat split.
Qed.

Section Readings.
Context {P : Platform}.

(** X18. Readings that are no numbers pass.  Every comparison with a
    NaN is false, so a check whose reading is NaN (or whose limit is NaN)
    returns true and logs nothing: the altitude check on a NaN altitude,
    the battery check on a NaN level, the tilt check on NaN pitch and
    roll; and when the geofence does not apply, [is_safe] returns true on
    a vehicle all of whose readings are NaN. *)
Theorem nan_readings_pass (w : World) v :
  vehicle (self w) = Some v ->
  (Py.isnan (alt v) = true \/ Py.isnan (max_altitude (self w)) = true ->
   check_altitude w = (Return true, w)) /\
  (Py.isnan (battery_level v) = true \/
   Py.isnan (min_battery (self w)) = true ->
   check_battery w = (Return true, w)) /\
  (Py.isnan (pitch v) = true -> Py.isnan (roll v) = true ->
   check_tilt w = (Return true, w)) /\
  (Py.isnan (alt v) = true -> Py.isnan (battery_level v) = true ->
   Py.isnan (pitch v) = true -> Py.isnan (roll v) = true ->
   geofence_distance (self w) v = None ->
   is_safe w = (Return true, w)).
Proof.
  intros Hv.
  assert (Ha : Py.isnan (alt v) = true \/
               Py.isnan (max_altitude (self w)) = true ->
               altitude_exceeded (self w) v = false)
    by (intros H; apply fgt_nan, H).
  assert (Hb : Py.isnan (battery_level v) = true \/
               Py.isnan (min_battery (self w)) = true ->
               battery_low (self w) v = false)
    by (intros H; apply flt_nan, H).
  assert (Ht : Py.isnan (pitch v) = true -> Py.isnan (roll v) = true ->
               tilt_excessive (self w) v = false).
  { intros Hp Hr. unfold tilt_excessive.
    rewrite (fgt_nan _ _ (or_introl (degrees_nan _ Hp))).
    rewrite (fgt_nan _ _ (or_introl (degrees_nan _ Hr))). reflexivity. }
  split; [intros H; rewrite (check_altitude_eq w Hv), (Ha H); reflexivity|].
  split; [intros H; rewrite (check_battery_eq w Hv), (Hb H); reflexivity|].
  split; [intros Hp Hr; rewrite (check_tilt_eq w Hv), (Ht Hp Hr); reflexivity|].
  intros Hna Hnb Hp Hr Hgeo.
  rewrite (is_safe_eq w v Hv), (Ha (or_introl Hna)), (Hb (or_introl Hnb)),
    (Ht Hp Hr), (check_geofence_eq w Hv), Hgeo.
  reflexivity.
Qed.

(** X19. The tilt check does not depend on the direction of the tilt: a
    vehicle pitched or rolled by an angle and the same vehicle pitched or
    rolled by the opposite angle get the same verdict from
    [check_tilt]. *)
Theorem tilt_check_ignores_direction (w : World) v :
  vehicle (self w) = Some v ->
  fst (check_tilt
         (with_telemetry
            (with_attitude (Py.fneg (pitch v)) (Py.fneg (roll v)) v) w)) =
    fst (check_tilt w) /\
  fst (check_tilt
         (with_telemetry (with_attitude (Py.fneg (pitch v)) (roll v) v) w)) =
    fst (check_tilt w) /\
  fst (check_tilt
         (with_telemetry (with_attitude (pitch v) (Py.fneg (roll v)) v) w)) =
    fst (check_tilt w).
Proof.
  intros Hv.
  assert (H : forall p r,
    mirror (pitch v) p -> mirror (roll v) r ->
    fst (check_tilt (with_telemetry (with_attitude p r v) w)) =
    fst (check_tilt w)).
  { intros p r Hp Hr.
    rewrite (check_tilt_eq (with_telemetry (with_attitude p r v) w)
               (v := with_attitude p r v) eq_refl).
    rewrite (check_tilt_eq w Hv).
    assert (E : tilt_excessive
                  (self (with_telemetry (with_attitude p r v) w))
                  (with_attitude p r v) =
                tilt_excessive (self w) v).
    { unfold tilt_excessive.
      cbn [pitch roll with_attitude max_tilt_angle self with_telemetry
           on_self set_vehicle].
      assert (Hd : forall x y, mirror x y ->
                Py.fabs (Py.degrees y) = Py.fabs (Py.degrees x)).
      { intros x y [->| ->]; [reflexivity|].
        unfold Py.degrees. rewrite fmul_opp_l. apply fabs_fneg. }
      rewrite (Hd _ _ Hp), (Hd _ _ Hr). reflexivity. }
    rewrite E. destruct (tilt_excessive (self w) v); reflexivity. }
  split; [apply H; right; reflexivity|].
  split; [apply H; [right|left]; reflexivity|].
  apply H; [left|right]; reflexivity.
Qed.

Lemma session_keeps_home (calls : list call) (w : World) :
  Forall (fun c => sets_home c = false) calls ->
  home (session calls w) = home w.
Proof.
  intros H. revert w. induction H as [|c rest Hc _ IH]; intros w;
    cbn [session]; [reflexivity|].
  rewrite IH. apply (perform_keeps_home c Hc w).
Qed.

(** X20. The geofence is idle until a home is set.  A monitor as
    [__init__] builds it has no home position, and only
    [set_home_position] sets one: after any sequence of other calls, and
    wherever the vehicle then is, [check_geofence] returns true and logs
    nothing. *)
Theorem geofence_idle_until_home_is_set
        (v : option Vehicle) (config : dict) m lines
        (calls : list call) (position : Vehicle) :
  __init__ v config = Some (m, lines) ->
  Forall (fun c => sets_home c = false) calls ->
  let w := with_telemetry position (session calls (fresh m)) in
  check_geofence w = (Return true, w).
Proof.
  intros Hinit Hcalls w.
  assert (Hhome : home (session calls (fresh m)) = (None, None)).
  { rewrite (session_keeps_home calls (fresh m) Hcalls).
    unfold home. cbn [self fresh].
    destruct (init_state v config m lines Hinit) as (_ & -> & -> & _).
    reflexivity. }
  rewrite (check_geofence_eq w (v := position) eq_refl).
  unfold geofence_distance.
  replace (home_lat (self w)) with (@None Py.float)
    by (symmetry; exact (f_equal fst Hhome)).
  destruct (geofence_enabled (self w)); reflexivity.
Qed.

End Readings.

Section AtHome.
Context {P : Platform}.
Variable conforms : libm_conforms platform_libm.

(** X21. At home the geofence check passes.  With a vehicle attached at a
    finite position and a geofence radius that is not negative, the world
    [set_home_position] leaves is one in which the distance from home is
    [0.0] and [check_geofence] returns true and logs nothing.  (The C
    library is assumed to conform.) *)
Theorem geofence_passes_at_home (w : World) v :
  vehicle (self w) = Some v ->
  finite_double (lat v) ->
  Py.isfinite (lon v) = true ->
  Py.fgt Py.f0 (geofence_radius (self w)) = false ->
  exists w1,
    set_home_position w = (Return tt, w1) /\
    home w1 = (Some (lat v), Some (lon v)) /\
    (geofence_enabled (self w) = true ->
     geofence_distance (self w1) v = Some (inr Py.f0)) /\
    check_geofence w1 = (Return true, w1).
Proof.
  intros Hv Hla Hlo Hr.
  exists (put_line (PrintHomeSet (lat v) (lon v))
            (on_self (set_home (Some (lat v)) (Some (lon v))) w)).
  split; [unfold set_home_position; run; rewrite Hv; reflexivity|].
  split; [reflexivity|].
  assert (Hgeo : geofence_enabled (self w) = true ->
    geofence_distance
      (self (put_line (PrintHomeSet (lat v) (lon v))
               (on_self (set_home (Some (lat v)) (Some (lon v))) w))) v =
    Some (inr Py.f0)).
  { intros He. unfold geofence_distance.
    cbn [self put_line on_self set_home geofence_enabled home_lat home_lon].
    rewrite He, (calculate_distance_diag conforms _ _ Hla Hlo). reflexivity. }
  split; [exact Hgeo|].
  erewrite check_geofence_eq by (cbn; exact Hv).
  destruct (geofence_enabled (self w)) eqn:He.
  - rewrite (Hgeo eq_refl).
    cbn [self put_line on_self set_home geofence_radius].
    rewrite Hr. reflexivity.
  - unfold geofence_distance.
    cbn [self put_line on_self set_home geofence_enabled].
    rewrite He. reflexivity.
Qed.

End AtHome.

(* ===================================================================== *)
(** * The exported file over time *)
(* ===================================================================== *)

Lemma entry_lines_app (a b : list string) :
  entry_lines (a ++ b) = entry_lines a ++ entry_lines b.
Proof.
  induction a as [|x a IH]; [reflexivity|].
  cbn [app entry_lines]. rewrite IH. symmetry. apply append_assoc.
Qed.

Lemma log_text_app (a b : list string) :
  log_text (a ++ b) = log_text a ++ entry_lines b.
Proof.
  unfold log_text. rewrite entry_lines_app. symmetry. apply append_assoc.
Qed.

Section LogExportOverTime.
Context {P : Platform}.

(** X22. [save_log] writes the whole log under the file name, replacing
    what an earlier call had written there, and touches neither the
    monitor nor any other file.  Since the log only grows, a file saved
    later starts with the text of the file saved earlier: whatever calls
    were made in between, the second text is the first followed by one
    line for each entry logged since. *)
Theorem save_log_overwrites_with_longer_log
        (filename : string) (calls : list call) (w : World) :
  let w1 := snd (save_log filename w) in
  let w2 := snd (save_log filename (session calls w1)) in
  save_log filename w = (Return tt, w1) /\
  self w1 = self w /\
  file_text filename (files w1) = Some (log_text (safety_log (self w))) /\
  (forall other, String.eqb other filename = false ->
                 file_text other (files w1) = file_text other (files w)) /\
  exists later,
    safety_log (self w2) = (safety_log (self w) ++ later)%list /\
    file_text filename (files w2) =
      Some (log_text (safety_log (self w)) ++ entry_lines later).
Proof.
  cbv zeta.
  destruct (save_log_writes filename w) as (w1 & Hrun & Hself & Hfile).
  rewrite Hrun. cbn [snd].
  split; [reflexivity|]. split; [exact Hself|]. split; [exact Hfile|].
  split.
  { intros other Hne. injection Hrun as <-.
    cbn [files put_line put_file file_text]. rewrite Hne. reflexivity. }
  destruct (session_steps log_extended log_extended_refl log_extended_trans
              perform_extends_log calls w1) as (messages & Hlog & _).
  destruct (save_log_writes filename (session calls w1))
    as (w2 & Hrun2 & Hself2 & Hfile2).
  rewrite Hrun2. cbn [snd].
  exists (stamped (clock_reads w1) messages).
  rewrite Hself2, Hfile2, Hlog, Hself. split; [reflexivity|].
  rewrite log_text_app. reflexivity.
Qed.

End LogExportOverTime.

(* ===================================================================== *)
(** * Construction and the self-test *)
(* ===================================================================== *)

Lemma get_missing (key : string) (default : value) (config : dict) :
  dict_get key config = None -> get key default config = default.
Proof. unfold get. intros ->. reflexivity. Qed.

(** X23. A key that the configuration lacks gets its default: whatever
    else the configuration holds, the monitor [__init__] builds has
    [max_altitude] 10, [max_distance] 100, [min_battery] 20,
    [max_tilt_angle] 45, the geofence enabled and [geofence_radius] 100
    for each of these keys that is missing; and in every case the vehicle
    it was given, no home position, the monitoring flag and the guard
    clear, and an empty log.  With no key at all that is the monitor of
    the self-test configuration. *)
Theorem init_defaults (v : option Vehicle) (config : dict) m lines :
  __init__ v config = Some (m, lines) ->
  (dict_get "max_altitude" config = None -> max_altitude m = Scenario.f10) /\
  (dict_get "max_distance" config = None -> max_distance m = Py.f100) /\
  (dict_get "min_battery" config = None -> min_battery m = Scenario.f20) /\
  (dict_get "max_tilt_angle" config = None ->
   max_tilt_angle m = Scenario.f45) /\
  (dict_get "geofence_enabled" config = None -> geofence_enabled m = true) /\
  (dict_get "geofence_radius" config = None -> geofence_radius m = Py.f100) /\
  (config = [] -> m = Scenario.monitor v) /\
  vehicle m = v /\ home_lat m = None /\ home_lon m = None /\
  monitoring m = false /\ emergency_triggered m = false /\
  safety_log m = [].
Proof.
  intros Hinit. pose proof (init_state v config m lines Hinit) as Hstate.
  unfold __init__ in Hinit.
  destruct (number (get "max_altitude" (VInt 10) config)) as [a|] eqn:Ea;
    [|discriminate Hinit].
  destruct (number (get "max_distance" (VInt 100) config)) as [d|] eqn:Ed;
    [|discriminate Hinit].
  destruct (number (get "min_battery" (VInt 20) config)) as [b|] eqn:Eb;
    [|discriminate Hinit].
  destruct (number (get "max_tilt_angle" (VInt 45) config)) as [t|] eqn:Et;
    [|discriminate Hinit].
  destruct (number (get "geofence_radius" (VInt 100) config)) as [r|] eqn:Er;
    [|discriminate Hinit].
  injection Hinit as <- _.
  cbn [max_altitude max_distance min_battery max_tilt_angle geofence_enabled
       geofence_radius].
  split; [intros H; rewrite (get_missing _ _ _ H) in Ea; vm_compute in Ea;
          injection Ea as <-; reflexivity|].
  split; [intros H; rewrite (get_missing _ _ _ H) in Ed; vm_compute in Ed;
          injection Ed as <-; reflexivity|].
  split; [intros H; rewrite (get_missing _ _ _ H) in Eb; vm_compute in Eb;
          injection Eb as <-; reflexivity|].
  split; [intros H; rewrite (get_missing _ _ _ H) in Et; vm_compute in Et;
          injection Et as <-; reflexivity|].
  split; [intros H; rewrite (get_missing _ _ _ H); reflexivity|].
  split; [intros H; rewrite (get_missing _ _ _ H) in Er; vm_compute in Er;
          injection Er as <-; reflexivity|].
  split; [|exact Hstate].
  intros ->. vm_compute in Ea, Ed, Eb, Et, Er.
  injection Ea as <-. injection Ed as <-. injection Eb as <-.
  injection Et as <-. injection Er as <-. reflexivity.
Qed.

Section SelfTest.
Context {P : Platform}.
Variable conforms : libm_conforms platform_libm.


End SelfTest.

(* ===================================================================== *)
(** * The properties on the bench *)
(* ===================================================================== *)

(** A session on the bench that sets no home: a battery check, a dispatch
    and an export. *)
Lemma session_keeps_settings_witness :
  Forall (fun c => sets_home c = false)
         [Call_check_battery; Call_handle_emergency;
          Call_save_log "safety_log.txt"] /\
  settings (self (session (P := Scenario.bench)
                    [Call_check_battery; Call_handle_emergency;
                     Call_save_log "safety_log.txt"] low_battery)) =
    settings (self low_battery) /\
  home (session (P := Scenario.bench)
          [Call_check_battery; Call_handle_emergency;
           Call_save_log "safety_log.txt"] low_battery) = home low_battery.
Proof.
  assert (H : Forall (fun c => sets_home c = false)
                [Call_check_battery; Call_handle_emergency;
                 Call_save_log "safety_log.txt"])
    by (repeat constructor).
  split; [exact H|].
  destruct (session_keeps_settings (P := Scenario.bench)
              [Call_check_battery; Call_handle_emergency;
               Call_save_log "safety_log.txt"] low_battery) as (Hs & Hh).
  split; [exact Hs|exact (Hh H)].
Defined.

(** A dispatch on a vehicle that refuses every mode, then a check: the
    dispatch raises, and the guard is clear afterwards. *)
Lemma session_keeps_ready_witness :
  ready low_battery /\
  fst (handle_emergency (P := Scenario.jammed) low_battery) =
    Raise Py.VehicleError /\
  ready (session (P := Scenario.jammed)
           [Call_handle_emergency; Call_is_safe] low_battery).
Proof.
  assert (H : ready low_battery) by (split; [discriminate|reflexivity]).
  split; [exact H|]. split; [vm_compute; reflexivity|].
  exact (session_keeps_ready (P := Scenario.jammed)
           [Call_handle_emergency; Call_is_safe] low_battery H).
Defined.

(** Too high and the battery low: [is_safe] logs the altitude only. *)
Lemma is_safe_logs_first_failure_witness :
  vehicle (self high_and_low) =
    Some (Scenario.with_alt f12 low_battery_vehicle) /\
  List.length (failure_messages (P := Scenario.bench) (self high_and_low)
                 (Scenario.with_alt f12 low_battery_vehicle)) = 2 /\
  exists w',
    is_safe (P := Scenario.bench) high_and_low = (Return false, w') /\
    List.length (safety_log (self w')) = 1.
Proof.
  split; [reflexivity|]. split; [vm_compute; reflexivity|].
  destruct (is_safe_logs_first_failure (P := Scenario.bench) high_and_low
              (Scenario.with_alt f12 low_battery_vehicle) eq_refl)
    as (w' & Hrun & Hlog & _).
  { intros _ _ _ e. vm_compute. discriminate. }
  exists w'. split; [exact Hrun|].
  destruct Hlog as (-> & _). reflexivity.
Defined.

(** The status of a vehicle with a low battery, asked once. *)
Lemma get_safety_status_logs_witness :
  vehicle (self low_battery) = Some low_battery_vehicle /\
  distance_computable (P := Scenario.bench) (self low_battery)
    low_battery_vehicle /\
  exists d w',
    get_safety_status (P := Scenario.bench) low_battery = (Return d, w') /\
    List.length (safety_log (self low_battery)) = 0 /\
    List.length (safety_log (self w')) = 1 /\
    dict_get "safe" d = Some (VBool false) /\
    dict_get "warnings" d = Some (VInt 1).
Proof.
  assert (Hd : distance_computable (P := Scenario.bench) (self low_battery)
                 low_battery_vehicle).
  { intros la lo Hla Hlo. injection Hla as <-. injection Hlo as <-.
    exists Py.f0. vm_compute. reflexivity. }
  split; [reflexivity|]. split; [exact Hd|].
  destruct (get_safety_status_logs (P := Scenario.bench) low_battery
              low_battery_vehicle eq_refl Hd)
    as (d & w' & Hrun & Hlog & Hsafe & Hwarn).
  exists d, w'. split; [exact Hrun|]. split; [reflexivity|].
  split; [destruct Hlog as (-> & _); reflexivity|].
  split; [exact Hsafe|exact Hwarn].
Defined.

(** Home at 80 degrees south, the vehicle at 80 degrees north. *)
Lemma distance_error_propagates_witness :
  vehicle (self far_apart) =
    Some (Scenario.with_position Scenario.f80 Py.f0 Scenario.MockVehicle) /\
  geofence_distance (P := Scenario.bench) (self far_apart)
    (Scenario.with_position Scenario.f80 Py.f0 Scenario.MockVehicle) =
    Some (inl Py.ValueError) /\
  check_geofence (P := Scenario.bench) far_apart =
    (Raise Py.ValueError, far_apart) /\
  is_safe (P := Scenario.bench) far_apart = (Raise Py.ValueError, far_apart) /\
  get_safety_status (P := Scenario.bench) far_apart =
    (Raise Py.ValueError, far_apart).
Proof.
  assert (Hgeo : geofence_distance (P := Scenario.bench) (self far_apart)
            (Scenario.with_position Scenario.f80 Py.f0 Scenario.MockVehicle) =
            Some (inl Py.ValueError)) by (vm_compute; reflexivity).
  split; [reflexivity|]. split; [exact Hgeo|].
  destruct (distance_error_propagates (P := Scenario.bench) far_apart
              (Scenario.with_position Scenario.f80 Py.f0 Scenario.MockVehicle)
              Py.ValueError eq_refl Hgeo) as (Hcheck & Hrest & _).
  split; [exact Hcheck|].
  apply Hrest; vm_compute; reflexivity.
Defined.

(** Three passes of the loop over a low battery: three entries. *)
Lemma monitor_loop_logs_each_pass_witness :
  vehicle (self (running low_battery)) = Some low_battery_vehicle /\
  monitoring (self (running low_battery)) = true /\
  exists w',
    _monitor_loop (P := Scenario.bench) (undisturbed 3) (running low_battery)
      = (Return tt, w') /\
    List.length (safety_log (self w')) = 3.
Proof.
  split; [reflexivity|]. split; [reflexivity|].
  destruct (monitor_loop_logs_each_pass (P := Scenario.bench) 3
              (running low_battery) low_battery_vehicle eq_refl eq_refl)
    as (w' & Hrun & _ & Hlen).
  { intros e. vm_compute. discriminate. }
  exists w'. split; [exact Hrun|]. rewrite Hlen. vm_compute. reflexivity.
Defined.

(** The loop started over the two positions 160 degrees apart. *)
Lemma monitor_loop_dies_with_flag_set_witness :
  let t := start_monitoring (unthreaded far_apart) in
  monitoring (self (object t)) = true /\
  started t = 1 /\
  exists w',
    _monitor_loop (P := Scenario.bench) [request_stop] (object t) =
      (Raise Py.ValueError, w') /\
    monitoring (self w') = true /\
    started (start_monitoring (with_object w' t)) = 1.
Proof.
  cbv zeta. split; [reflexivity|]. split; [reflexivity|].
  destruct (monitor_loop_dies_with_flag_set (P := Scenario.bench)
              (start_monitoring (unthreaded far_apart))
              (Scenario.with_position Scenario.f80 Py.f0 Scenario.MockVehicle)
              Py.ValueError request_stop [] eq_refl eq_refl)
    as (w' & Hrun & Hm & Hs & _).
  { vm_compute. reflexivity. }
  exists w'. split; [exact Hrun|]. split; [exact Hm|exact Hs].
Defined.

(** Pitched by 2 rad, 157 km from home and 12 m up: landing. *)
Lemma tilt_takes_priority_over_geofence_witness :
  vehicle (self tumbling) = Some tumbling_vehicle /\
  emergency_triggered (self tumbling) = false /\
  battery_low (self tumbling) tumbling_vehicle = false /\
  tilt_excessive (self tumbling) tumbling_vehicle = true /\
  altitude_exceeded (self tumbling) tumbling_vehicle = true /\
  exists w',
    handle_emergency (P := Scenario.bench) tumbling = (Return tt, w') /\
    vehicle (self w') = Some (with_mode "LAND" tumbling_vehicle) /\
    commands (stdout w') = [EmergencyLand].
Proof.
  assert (Hb : battery_low (self tumbling) tumbling_vehicle = false)
    by (vm_compute; reflexivity).
  assert (Ht : tilt_excessive (self tumbling) tumbling_vehicle = true)
    by (vm_compute; reflexivity).
  split; [reflexivity|]. split; [reflexivity|]. split; [exact Hb|].
  split; [exact Ht|]. split; [vm_compute; reflexivity|].
  destruct (tilt_takes_priority_over_geofence (P := Scenario.bench) tumbling
              tumbling_vehicle eq_refl eq_refl Hb Ht eq_refl)
    as (w' & Hrun & Hv & Hc & _).
  exists w'. split; [exact Hrun|]. split; [exact Hv|exact Hc].
Defined.

(** 157 km from home and 12 m up: return to launch. *)
Lemma geofence_takes_priority_over_altitude_witness :
  vehicle (self strayed) = Some strayed_vehicle /\
  emergency_triggered (self strayed) = false /\
  battery_low (self strayed) strayed_vehicle = false /\
  tilt_excessive (self strayed) strayed_vehicle = false /\
  geofence_distance (P := Scenario.bench) (self strayed) strayed_vehicle =
    Some (inr strayed_distance) /\
  Py.fgt strayed_distance (geofence_radius (self strayed)) = true /\
  altitude_exceeded (self strayed) strayed_vehicle = true /\
  exists w',
    handle_emergency (P := Scenario.bench) strayed = (Return tt, w') /\
    vehicle (self w') = Some (with_mode "RTL" strayed_vehicle) /\
    commands (stdout w') = [ReturnToLaunch].
Proof.
  assert (Hb : battery_low (self strayed) strayed_vehicle = false)
    by (vm_compute; reflexivity).
  assert (Ht : tilt_excessive (self strayed) strayed_vehicle = false)
    by (vm_compute; reflexivity).
  assert (Hgeo : geofence_distance (P := Scenario.bench) (self strayed)
                   strayed_vehicle = Some (inr strayed_distance))
    by (vm_compute; reflexivity).
  assert (Hd : Py.fgt strayed_distance (geofence_radius (self strayed)) = true)
    by (vm_compute; reflexivity).
  split; [reflexivity|]. split; [reflexivity|]. split; [exact Hb|].
  split; [exact Ht|]. split; [exact Hgeo|]. split; [exact Hd|].
  split; [vm_compute; reflexivity|].
  destruct (geofence_takes_priority_over_altitude (P := Scenario.bench)
              strayed strayed_vehicle strayed_distance
              eq_refl eq_refl Hb Ht Hgeo Hd eq_refl)
    as (w' & Hrun & Hv & Hc & _).
  exists w'. split; [exact Hrun|]. split; [exact Hv|exact Hc].
Defined.

(** 12 m up over a ceiling of 10 m, at home. *)
Lemma altitude_alone_leaves_vehicle_witness :
  vehicle (self too_high) =
    Some (Scenario.with_alt f12 Scenario.MockVehicle) /\
  emergency_triggered (self too_high) = false /\
  geofence_passes (P := Scenario.bench) (self too_high)
    (Scenario.with_alt f12 Scenario.MockVehicle) /\
  altitude_exceeded (self too_high)
    (Scenario.with_alt f12 Scenario.MockVehicle) = true /\
  exists w',
    handle_emergency (P := Scenario.bench) too_high = (Return tt, w') /\
    vehicle (self w') = vehicle (self too_high) /\
    commands (stdout w') = [Descend f8].
Proof.
  assert (Hgeo : geofence_passes (P := Scenario.bench) (self too_high)
                   (Scenario.with_alt f12 Scenario.MockVehicle))
    by (vm_compute; reflexivity).
  assert (Ha : altitude_exceeded (self too_high)
                 (Scenario.with_alt f12 Scenario.MockVehicle) = true)
    by (vm_compute; reflexivity).
  split; [reflexivity|]. split; [reflexivity|]. split; [exact Hgeo|].
  split; [exact Ha|].
  destruct (altitude_alone_leaves_vehicle (P := Scenario.bench) too_high
              (Scenario.with_alt f12 Scenario.MockVehicle) eq_refl eq_refl)
    as (w' & Hrun & Hv & Hc & _);
    [vm_compute; reflexivity|vm_compute; reflexivity|exact Hgeo|exact Ha|].
  exists w'. split; [exact Hrun|]. split; [exact Hv|exact Hc].
Defined.

(** The self-test vehicle at its home. *)
Lemma nothing_failing_nothing_commanded_witness :
  vehicle (self at_home) = Some Scenario.MockVehicle /\
  emergency_triggered (self at_home) = false /\
  geofence_passes (P := Scenario.bench) (self at_home) Scenario.MockVehicle /\
  handle_emergency (P := Scenario.bench) at_home =
    (Return tt, put_line PrintEmergencyActivated at_home).
Proof.
  assert (Hgeo : geofence_passes (P := Scenario.bench) (self at_home)
                   Scenario.MockVehicle) by (vm_compute; reflexivity).
  split; [reflexivity|]. split; [reflexivity|]. split; [exact Hgeo|].
  apply (nothing_failing_nothing_commanded (P := Scenario.bench) at_home
           Scenario.MockVehicle eq_refl eq_refl);
    [vm_compute; reflexivity|vm_compute; reflexivity|exact Hgeo
    |vm_compute; reflexivity].
Defined.

(** A low battery on a vehicle that refuses every mode. *)
Lemma refused_commands_raise_witness :
  vehicle (self low_battery) = Some low_battery_vehicle /\
  emergency_triggered (self low_battery) = false /\
  battery_low (self low_battery) low_battery_vehicle = true /\
  exists w',
    handle_emergency (P := Scenario.jammed) low_battery =
      (Raise Py.VehicleError, w') /\
    vehicle (self w') = Some low_battery_vehicle /\
    emergency_triggered (self w') = false.
Proof.
  assert (Hb : battery_low (self low_battery) low_battery_vehicle = true)
    by (vm_compute; reflexivity).
  split; [reflexivity|]. split; [reflexivity|]. split; [exact Hb|].
  destruct (refused_commands_raise (P := Scenario.jammed) low_battery
              low_battery_vehicle eq_refl eq_refl (or_introl Hb)
              (fun _ => eq_refl))
    as (w' & Hrun & Hv & Hg & _).
  exists w'. split; [exact Hrun|]. split; [exact Hv|exact Hg].
Defined.

(** Home at 80 degrees south, the vehicle at 80 degrees north, inside
    every other limit. *)
Lemma distance_error_lands_witness :
  vehicle (self far_apart) =
    Some (Scenario.with_position Scenario.f80 Py.f0 Scenario.MockVehicle) /\
  emergency_triggered (self far_apart) = false /\
  geofence_distance (P := Scenario.bench) (self far_apart)
    (Scenario.with_position Scenario.f80 Py.f0 Scenario.MockVehicle) =
    Some (inl Py.ValueError) /\
  altitude_exceeded (self far_apart)
    (Scenario.with_position Scenario.f80 Py.f0 Scenario.MockVehicle) = false /\
  exists w',
    handle_emergency (P := Scenario.bench) far_apart = (Return tt, w') /\
    option_map mode (vehicle (self w')) = Some "LAND" /\
    safety_log (self w') = [].
Proof.
  assert (Hgeo : geofence_distance (P := Scenario.bench) (self far_apart)
            (Scenario.with_position Scenario.f80 Py.f0 Scenario.MockVehicle) =
            Some (inl Py.ValueError)) by (vm_compute; reflexivity).
  split; [reflexivity|]. split; [reflexivity|]. split; [exact Hgeo|].
  split; [vm_compute; reflexivity|].
  destruct (distance_error_lands (P := Scenario.bench) far_apart
              (Scenario.with_position Scenario.f80 Py.f0 Scenario.MockVehicle)
              Py.ValueError eq_refl eq_refl)
    as (w' & Hrun & Hv & _ & Hlog & _);
    [vm_compute; reflexivity|vm_compute; reflexivity|exact Hgeo|reflexivity|].
  exists w'. split; [exact Hrun|].
  split; [rewrite Hv; reflexivity|exact Hlog].
Defined.

(** A monitor without a vehicle: a dispatch, then a home and a second
    dispatch. *)
Lemma simulation_protocol_runs_once_witness :
  vehicle (self (Scenario.world None)) = None /\
  emergency_triggered (self (Scenario.world None)) = false /\
  exists w1,
    handle_emergency (P := Scenario.bench) (Scenario.world None) =
      (Return tt, w1) /\
    emergency_triggered
      (self (session (P := Scenario.bench)
               [Call_set_home_position; Call_handle_emergency] w1)) = true.
Proof.
  split; [reflexivity|]. split; [reflexivity|].
  destruct (simulation_protocol_runs_once (P := Scenario.bench)
              (Scenario.world None)
              [Call_set_home_position; Call_handle_emergency]
              eq_refl eq_refl)
    as (w1 & Hrun & _ & Hg & _).
  exists w1. split; [exact Hrun|exact Hg].
Defined.

(** A vehicle whose sensors all report NaN, home unset. *)
Lemma nan_readings_pass_witness :
  vehicle (self blind) = Some blind_vehicle /\
  Py.isnan (alt blind_vehicle) = true /\
  Py.isnan (battery_level blind_vehicle) = true /\
  Py.isnan (pitch blind_vehicle) = true /\
  Py.isnan (roll blind_vehicle) = true /\
  geofence_distance (P := Scenario.bench) (self blind) blind_vehicle = None /\
  is_safe (P := Scenario.bench) blind = (Return true, blind).
Proof.
  split; [reflexivity|]. split; [reflexivity|]. split; [reflexivity|].
  split; [reflexivity|]. split; [reflexivity|]. split; [reflexivity|].
  exact (proj2 (proj2 (proj2 (nan_readings_pass (P := Scenario.bench) blind
                                blind_vehicle eq_refl)))
               eq_refl eq_refl eq_refl eq_refl eq_refl).
Defined.

(** Pitched by 2 rad, and by -2 rad. *)
Lemma tilt_check_ignores_direction_witness :
  vehicle (self tilted) = Some tilted_vehicle /\
  fst (check_tilt (P := Scenario.bench) tilted) = Return false /\
  fst (check_tilt (P := Scenario.bench)
         (with_telemetry
            (with_attitude (Py.fneg (pitch tilted_vehicle))
               (roll tilted_vehicle) tilted_vehicle) tilted)) = Return false.
Proof.
  split; [reflexivity|].
  assert (H : fst (check_tilt (P := Scenario.bench) tilted) = Return false)
    by (vm_compute; reflexivity).
  split; [exact H|].
  rewrite <- H.
  exact (proj1 (proj2 (tilt_check_ignores_direction (P := Scenario.bench)
                         tilted tilted_vehicle eq_refl))).
Defined.

(** The monitor of the self-test before [set_home_position], the vehicle
    157 km from where it was built. *)
Lemma geofence_idle_until_home_is_set_witness :
  __init__ (Some Scenario.MockVehicle) test_config =
    Some (Scenario.monitor (Some Scenario.MockVehicle),
          [PrintInitialized; PrintMaxAltitude Scenario.f10;
           PrintMinBattery Scenario.f20; PrintMaxTilt Scenario.f45;
           PrintGeofence Py.f100]) /\
  Forall (fun c => sets_home c = false) [Call_is_safe; Call_monitor_tick] /\
  fst (check_geofence (P := Scenario.bench)
         (with_telemetry strayed_vehicle
            (session (P := Scenario.bench) [Call_is_safe; Call_monitor_tick]
               (fresh (Scenario.monitor (Some Scenario.MockVehicle)))))) =
    Return true.
Proof.
  assert (Hinit : __init__ (Some Scenario.MockVehicle) test_config =
    Some (Scenario.monitor (Some Scenario.MockVehicle),
          [PrintInitialized; PrintMaxAltitude Scenario.f10;
           PrintMinBattery Scenario.f20; PrintMaxTilt Scenario.f45;
           PrintGeofence Py.f100])) by (vm_compute; reflexivity).
  assert (Hcalls : Forall (fun c => sets_home c = false)
                     [Call_is_safe; Call_monitor_tick])
    by (repeat constructor).
  split; [exact Hinit|]. split; [exact Hcalls|].
  rewrite (geofence_idle_until_home_is_set (P := Scenario.bench)
             (Some Scenario.MockVehicle) test_config _ _
             [Call_is_safe; Call_monitor_tick] strayed_vehicle Hinit Hcalls).
  reflexivity.
Defined.

(** The self-test vehicle, on the bench's C library. *)
Lemma geofence_passes_at_home_witness :
  libm_conforms Scenario.small_angle_libm /\
  vehicle (self (Scenario.world (Some Scenario.MockVehicle))) =
    Some Scenario.MockVehicle /\
  finite_double (lat Scenario.MockVehicle) /\
  Py.isfinite (lon Scenario.MockVehicle) = true /\
  Py.fgt Py.f0
    (geofence_radius (self (Scenario.world (Some Scenario.MockVehicle)))) =
    false /\
  exists w1,
    set_home_position (Scenario.world (Some Scenario.MockVehicle)) =
      (Return tt, w1) /\
    check_geofence (P := Scenario.bench) w1 = (Return true, w1).
Proof.
  assert (Hla : finite_double (lat Scenario.MockVehicle))
    by (split; reflexivity).
  split; [exact small_angle_libm_conforms|]. split; [reflexivity|].
  split; [exact Hla|]. split; [reflexivity|]. split; [reflexivity|].
  destruct (geofence_passes_at_home (P := Scenario.bench)
              small_angle_libm_conforms
              (Scenario.world (Some Scenario.MockVehicle))
              Scenario.MockVehicle eq_refl Hla eq_refl eq_refl)
    as (w1 & Hrun & _ & _ & Hcheck).
  exists w1. split; [exact Hrun|exact Hcheck].
Defined.

(** Two exports on the bench, a failing battery check in between. *)
Lemma save_log_overwrites_with_longer_log_witness :
  String.eqb "telemetry_log.json" "safety_log.txt" = false /\
  file_text "telemetry_log.json"
    (files (snd (save_log "safety_log.txt" low_battery))) =
    file_text "telemetry_log.json" (files low_battery) /\
  exists later,
    file_text "safety_log.txt"
      (files (snd (save_log "safety_log.txt"
                     (session (P := Scenario.bench) [Call_check_battery]
                        (snd (save_log "safety_log.txt" low_battery)))))) =
      Some (log_text (safety_log (self low_battery)) ++ entry_lines later).
Proof.
  destruct (save_log_overwrites_with_longer_log (P := Scenario.bench)
              "safety_log.txt" [Call_check_battery] low_battery)
    as (_ & _ & _ & Hother & later & _ & Hfile).
  split; [reflexivity|].
  split; [exact (Hother "telemetry_log.json" eq_refl)|].
  exists later. exact Hfile.
Defined.

(** A configuration that gives the ceiling only. *)
Lemma init_defaults_witness :
  __init__ None [("max_altitude", VFloat f12)] <> None /\
  dict_get "min_battery" [("max_altitude", VFloat f12)] = None /\
  forall m lines,
    __init__ None [("max_altitude", VFloat f12)] = Some (m, lines) ->
    max_altitude m = f12 /\ min_battery m = Scenario.f20 /\
    geofence_enabled m = true.
Proof.
  split; [vm_compute; discriminate|]. split; [reflexivity|].
  intros m lines Hinit.
  destruct (init_defaults None [("max_altitude", VFloat f12)] m lines Hinit)
    as (_ & _ & Hb & _ & He & _).
  split; [|split; [exact (Hb eq_refl)|exact (He eq_refl)]].
  vm_compute in Hinit. injection Hinit as <- _. reflexivity.
Defined.


(** A low battery on a vehicle that refuses RTL and accepts LAND. *)
Lemma refused_return_falls_back_to_landing_witness :
  vehicle (self low_battery) = Some low_battery_vehicle /\
  emergency_triggered (self low_battery) = false /\
  battery_low (self low_battery) low_battery_vehicle = true /\
  mode_write_ok (Platform := no_return) low_battery_vehicle "RTL" = false /\
  mode_write_ok (Platform := no_return) low_battery_vehicle "LAND" = true /\
  exists w',
    handle_emergency (P := no_return) low_battery = (Return tt, w') /\
    vehicle (self w') = Some (with_mode "LAND" low_battery_vehicle) /\
    commands (stdout w') = [ReturnToLaunch; EmergencyLand].
Proof.
  assert (Hb : battery_low (self low_battery) low_battery_vehicle = true)
    by (vm_compute; reflexivity).
  split; [reflexivity|]. split; [reflexivity|]. split; [exact Hb|].
  split; [reflexivity|]. split; [reflexivity|].
  destruct (refused_return_falls_back_to_landing (P := no_return)
              low_battery (v := low_battery_vehicle)
              eq_refl eq_refl Hb eq_refl eq_refl)
    as (w' & Hrun & Hv & Hc).
  exists w'. split; [exact Hrun|]. split; [exact Hv|exact Hc].
Defined.
